(** * Canoja-Backend licence scrapers: a shallow embedding and its properties

    The repository holds eight stand-alone scrapers (src/scrapers/*.py), one
    per jurisdiction.  Each one cleans the cells of a raw record with a few
    small normalizers, assembles a MongoDB document (a Python dict literal)
    and collects the documents of a batch in a driver loop that isolates
    per-record exceptions.

    Modelling conventions.
    - A Python [str] is a Rocq [string].  Case mapping, [\d], [\s] and
      [str.strip] are modelled on the ASCII range: the decimal digits are
      0-9, the letters A-Z / a-z, white space is the set of code points
      9-13, 28-31 and 32; bytes above 127 are left alone by [lower]/[upper].
    - A cell of a raw record is a scalar Python value ([pyval]): None, the
      float nan (what pandas puts in an empty cell), a bool, an int, a
      finite float, a str or a timestamp.
    - pandas and the float type are external to the repository: what the
      scrapers use of them ([pd.to_datetime], [isoformat], [str] of a float,
      [float(...)], timestamp subtraction) is collected in the class
      [PyRuntime] and every definition that calls them is parametric in it.
    - A raised exception is a value of [Res]; [try/except] is a match.
    - A document is an association list in the order of the dict literal. *)

From Stdlib Require Import String Ascii List ZArith Lia Bool Arith.
From Stdlib Require Import Numbers.DecimalString.
Import ListNotations.
Local Open Scope string_scope.
Local Open Scope list_scope.
Local Open Scope nat_scope.

(* ===================================================================== *)
(** ** Python strings *)
(* ===================================================================== *)

Module Py.

Definition code (c : ascii) : nat := nat_of_ascii c.

(** [\d] on the ASCII range. *)
Definition is_digit (c : ascii) : bool :=
  (48 <=? code c) && (code c <=? 57).

(** [\s] and [str.isspace] on the ASCII range. *)
Definition is_space (c : ascii) : bool :=
  ((9 <=? code c) && (code c <=? 13))
  || ((28 <=? code c) && (code c <=? 31))
  || (code c =? 32).

Definition is_upper (c : ascii) : bool :=
  (65 <=? code c) && (code c <=? 90).

Definition is_lower (c : ascii) : bool :=
  (97 <=? code c) && (code c <=? 122).

(** [[A-Z]] under [re.IGNORECASE]. *)
Definition is_letter (c : ascii) : bool := is_upper c || is_lower c.

Definition lower_char (c : ascii) : ascii :=
  if is_upper c then ascii_of_nat (code c + 32) else c.

Definition upper_char (c : ascii) : ascii :=
  if is_lower c then ascii_of_nat (code c - 32) else c.

Definition chars (s : string) : list ascii := list_ascii_of_string s.
Definition str_of (l : list ascii) : string := string_of_list_ascii l.

(** [s.lower()] and [s.upper()]. *)
Definition lower (s : string) : string := str_of (map lower_char (chars s)).
Definition upper (s : string) : string := str_of (map upper_char (chars s)).

Fixpoint lstrip_chars (l : list ascii) : list ascii :=
  match l with
  | c :: l' => if is_space c then lstrip_chars l' else l
  | [] => []
  end.

Definition strip_chars (l : list ascii) : list ascii :=
  rev (lstrip_chars (rev (lstrip_chars l))).

(** [s.strip()]. *)
Definition strip (s : string) : string := str_of (strip_chars (chars s)).

Fixpoint starts_with (p l : list ascii) : bool :=
  match p, l with
  | [], _ => true
  | a :: p', b :: l' => Ascii.eqb a b && starts_with p' l'
  | _ :: _, [] => false
  end.

Fixpoint find_sub (p l : list ascii) : bool :=
  starts_with p l ||
  match l with
  | [] => false
  | _ :: l' => find_sub p l'
  end.

(** [word in text]. *)
Definition contains (word text : string) : bool :=
  find_sub (chars word) (chars text).

(** [any(word in text for word in words)]. *)
Definition any_in (words : list string) (text : string) : bool :=
  existsb (fun w => contains w text) words.

(** [re.sub(r'\D', '', s)]. *)
Definition digits_only (s : string) : string :=
  str_of (filter is_digit (chars s)).

(** [s[a:b]] for [0 <= a <= b]. *)
Definition slice (a b : nat) (s : string) : string := substring a (b - a) s.

(** [s[a:]]. *)
Definition slice_from (a : nat) (s : string) : string :=
  substring a (String.length s - a) s.

(** [sep.join(parts)]. *)
Fixpoint join (sep : string) (parts : list string) : string :=
  match parts with
  | [] => ""
  | [p] => p
  | p :: ps => (p ++ sep ++ join sep ps)%string
  end.

(** [s.split(sep)] for a one-character separator. *)
Fixpoint split_chars (sep : ascii) (cur : list ascii) (l : list ascii)
  : list (list ascii) :=
  match l with
  | [] => [rev cur]
  | c :: l' =>
      if Ascii.eqb c sep then rev cur :: split_chars sep [] l'
      else split_chars sep (c :: cur) l'
  end.

Definition split_on (sep : ascii) (s : string) : list string :=
  map str_of (split_chars sep [] (chars s)).

(** [s.split()]: the maximal runs of non-space characters. *)
Fixpoint words_chars (cur : list ascii) (l : list ascii) : list (list ascii) :=
  match l with
  | [] => match cur with [] => [] | _ => [rev cur] end
  | c :: l' =>
      if is_space c
      then match cur with
           | [] => words_chars [] l'
           | _ => rev cur :: words_chars [] l'
           end
      else words_chars (c :: cur) l'
  end.

Definition split_ws (s : string) : list string :=
  map str_of (words_chars [] (chars s)).

(** [s.startswith(p)]. *)
Definition startswith (p s : string) : bool := starts_with (chars p) (chars s).

(** [str(n)] for an int. *)
Definition str_of_Z (z : Z) : string := NilZero.string_of_int (Z.to_int z).

(** Truthiness of a str. *)
Definition nonempty (s : string) : bool :=
  match s with EmptyString => false | _ => true end.

(** [s in words] for a list of strings. *)
Definition mem (s : string) (words : list string) : bool :=
  existsb (String.eqb s) words.

End Py.

(* ===================================================================== *)
(** ** Python values, exceptions and the external runtime *)
(* ===================================================================== *)

(** The exceptions the scrapers can meet. *)
Inductive exn : Type :=
| AttributeError
| TypeError
| ValueError
| OverflowError.

(** The outcome of a Python expression: a value or a raised exception. *)
Inductive Res (A : Type) : Type :=
| Ok (a : A)
| Raise (e : exn).
Arguments Ok {A} a.
Arguments Raise {A} e.

Definition bind {A B} (r : Res A) (k : A -> Res B) : Res B :=
  match r with
  | Ok a => k a
  | Raise e => Raise e
  end.

Notation "x <- r ;; k" := (bind r (fun x => k))
  (at level 61, r at next level, right associativity).

(** Scalar Python values, over the runtime's floats [F] and timestamps [T]. *)
Inductive pyval (F T : Type) : Type :=
| PNone
| PNaN
| PBool (b : bool)
| PInt (z : Z)
| PFloat (f : F)
| PStr (s : string)
| PTime (t : T).
Arguments PNone {F T}.
Arguments PNaN {F T}.
Arguments PBool {F T} b.
Arguments PInt {F T} z.
Arguments PFloat {F T} f.
Arguments PStr {F T} s.
Arguments PTime {F T} t.

(** What [pd.to_datetime] hands back for a scalar: a Timestamp, NaT, None
    (for None), or an exception. *)
Inductive dt_outcome (T : Type) : Type :=
| DtStamp (t : T)
| DtNaT
| DtNone
| DtRaise.
Arguments DtStamp {T} t.
Arguments DtNaT {T}.
Arguments DtNone {T}.
Arguments DtRaise {T}.

(** A float result: nan or a number. *)
Inductive flt (F : Type) : Type :=
| FNaN
| FNum (f : F).
Arguments FNaN {F}.
Arguments FNum {F} f.

(** The part of Python and pandas the scrapers rely on. *)
Class PyRuntime : Type := {
  pyfloat : Type;
  timestamp : Type;
  (** [str(f)] and [bool(f)] of a float that is not nan *)
  float_str : pyfloat -> string;
  float_nonzero : pyfloat -> bool;
  (** [float(n)] for an int within the range of a double *)
  float_of_int : Z -> pyfloat;
  (** [float(s)] for a str; [None] is ValueError *)
  float_of_str : string -> option (flt pyfloat);
  (** [str(t)] and [t.isoformat()] of a timestamp *)
  ts_str : timestamp -> string;
  ts_isoformat : timestamp -> string;
  (** [pd.to_datetime(v)] and [pd.to_datetime(v, errors='coerce')] *)
  to_datetime : pyval pyfloat timestamp -> dt_outcome timestamp;
  to_datetime_coerce : pyval pyfloat timestamp -> dt_outcome timestamp;
  (** [t.to_pydatetime()] *)
  to_pydatetime : timestamp -> timestamp;
  (** [(now - t).days]; [None] when the subtraction raises *)
  days_between : timestamp -> timestamp -> option Z;
  (** a float that is falsy is a zero, printed [0.0] or [-0.0] *)
  float_zero_str :
    forall f, float_nonzero f = false -> Py.digits_only (float_str f) = "00"
}.

Section Values.
Context {R : PyRuntime}.

Definition value : Type := pyval pyfloat timestamp.

(** [str(v)]. *)
Definition py_str (v : value) : string :=
  match v with
  | PNone => "None"
  | PNaN => "nan"
  | PBool true => "True"
  | PBool false => "False"
  | PInt z => Py.str_of_Z z
  | PFloat f => float_str f
  | PStr s => s
  | PTime t => ts_str t
  end.

(** [bool(v)]. *)
Definition truthy (v : value) : bool :=
  match v with
  | PNone => false
  | PNaN => true
  | PBool b => b
  | PInt z => negb (z =? 0)%Z
  | PFloat f => float_nonzero f
  | PStr s => Py.nonempty s
  | PTime _ => true
  end.

(** [pd.isna(v)]. *)
Definition isna (v : value) : bool :=
  match v with
  | PNone | PNaN => true
  | _ => false
  end.

(** [v == ''] *)
Definition eq_empty (v : value) : bool :=
  match v with
  | PStr s => negb (Py.nonempty s)
  | _ => false
  end.

(** [isinstance(v, str)] *)
Definition is_str (v : value) : bool :=
  match v with
  | PStr _ => true
  | _ => false
  end.

(** [a or b]. *)
Definition py_or (a b : value) : value := if truthy a then a else b.

(** [pd.isna] of what [pd.to_datetime] returned. *)
Definition dt_isna (o : dt_outcome timestamp) : bool :=
  match o with
  | DtNaT | DtNone => true
  | _ => false
  end.

(** A raw record: the cells of a row by column name.  [row.get(key)]
    yields None for a column the record does not have. *)
Definition Row : Type := list (string * value).

Fixpoint row_get (key : string) (row : Row) : value :=
  match row with
  | [] => PNone
  | (k, v) :: row' => if String.eqb k key then v else row_get key row'
  end.

(** Python values that occur in a document: scalars, lists and dicts. *)
#[warnings="-register-all"] Inductive docval : Type :=
| DVal (v : value)
| DList (l : list docval)
| DDict (d : list (string * docval)).

Definition Doc : Type := list (string * docval).

Definition dnone : docval := DVal PNone.
Definition dstr (s : string) : docval := DVal (PStr s).
Definition dbool (b : bool) : docval := DVal (PBool b).

(** An [Optional[str]] as a Python value. *)
Definition oval (o : option string) : value :=
  match o with
  | Some s => PStr s
  | None => PNone
  end.

(** The str behind an [Optional[str]] that was tested to be truthy. *)
Definition oget (o : option string) : string :=
  match o with
  | Some s => s
  | None => ""
  end.

(** An [Optional[str]] stored in a document. *)
Definition dopt (o : option string) : docval :=
  match o with
  | Some s => dstr s
  | None => dnone
  end.

(** [doc[key]], when the key is there. *)
Fixpoint doc_get (key : string) (d : Doc) : option docval :=
  match d with
  | [] => None
  | (k, v) :: d' => if String.eqb k key then Some v else doc_get key d'
  end.

(** Truthiness of a document value. *)
Definition dtruthy (v : docval) : bool :=
  match v with
  | DVal x => truthy x
  | DList l => match l with [] => false | _ => true end
  | DDict d => match d with [] => false | _ => true end
  end.

(** [bool(doc[key])]. *)
Definition doc_truthy (key : string) (d : Doc) : bool :=
  match doc_get key d with
  | Some v => dtruthy v
  | None => false
  end.

(** Truthiness of an [Optional[str]]. *)
Definition otruthy (o : option string) : bool :=
  match o with
  | Some s => Py.nonempty s
  | None => false
  end.

End Values.

(* ===================================================================== *)
(** ** The keys and constants every scraper writes *)
(* ===================================================================== *)

Section Shared.
Context {R : PyRuntime}.

(** The [contact_information] sub-document. *)
Definition contact_information (phone website : option string) : docval :=
  DDict [("phone", dopt phone); ("email", dnone); ("website", dopt website)].

(** The [owner] sub-document. *)
Definition owner (name role phone : option string) : docval :=
  DDict [("name", dopt name); ("email", dnone); ("role", dopt role);
         ("phone", dopt phone); ("govt_issued_id", dnone)].

(** The [location] sub-document. *)
Definition location (coordinates : list docval) : docval :=
  DDict [("type", dstr "Point"); ("coordinates", DList coordinates)].

(** The result of a batch loop: the documents in input order and the two
    counters the drivers print. *)
Record Batch : Type := mkBatch {
  documents : list Doc;
  processed_count : nat;
  error_count : nat
}.

Definition empty_batch : Batch := mkBatch [] 0 0.

(** One turn of a driver loop without a completeness gate
    ([try: documents.append(transform(row)) except Exception: continue]). *)
Definition step_plain {Rec : Type} (transform : Rec -> Res Doc)
    (documents : list Doc) (r : Rec) : list Doc :=
  match transform r with
  | Ok document => documents ++ [document]
  | Raise _ => documents
  end.

(** One turn of a driver loop with a gate
    ([try: d = transform(row); if gate(d): append else: skip
      except Exception: error_count += 1; continue]). *)
Definition step_gated {Rec : Type} (transform : Rec -> Res Doc)
    (gate : Doc -> bool) (b : Batch) (r : Rec) : Batch :=
  match transform r with
  | Ok document =>
      if gate document
      then mkBatch (documents b ++ [document]) (S (processed_count b))
                   (error_count b)
      else b
  | Raise _ =>
      mkBatch (documents b) (processed_count b) (S (error_count b))
  end.

End Shared.

(* ===================================================================== *)
(** ** Alberta (src/scrapers/alberta.py) *)
(* ===================================================================== *)

Module Alberta.
Section WithRuntime.
Context {R : PyRuntime}.

Definition clean_string (v : value) : option string :=
  if isna v || eq_empty v then None
  else Some (Py.strip (py_str v)).

(** Both branches of the [isinstance] test call [pd.to_datetime]; the bare
    [except] turns every exception, also the AttributeError of
    [None.isoformat()], into None.  NaT has an [isoformat] of its own. *)
Definition parse_date (date_value : value) : option string :=
  if isna date_value then None
  else
    match to_datetime date_value with
    | DtStamp t => Some (ts_isoformat t)
    | DtNaT => Some "NaT"
    | DtNone => None
    | DtRaise => None
    end.

(** The postal pattern [[A-Z]\d[A-Z]\s?\d[A-Z]\d] at the head of [l]. *)
Definition postal_at (l : list ascii) : option (list ascii) :=
  match l with
  | a :: b :: c :: rest =>
      if Py.is_letter a && Py.is_digit b && Py.is_letter c
      then
        let tight :=
          match rest with
          | d :: e :: f :: _ =>
              if Py.is_digit d && Py.is_letter e && Py.is_digit f
              then Some [a; b; c; d; e; f] else None
          | _ => None
          end in
        match rest with
        | w :: d :: e :: f :: _ =>
            if Py.is_space w && Py.is_digit d && Py.is_letter e && Py.is_digit f
            then Some [a; b; c; w; d; e; f] else tight
        | _ => tight
        end
      else None
  | _ => None
  end.

(** [re.search]: the leftmost position where the pattern matches. *)
Fixpoint postal_search (l : list ascii) : option (list ascii) :=
  match postal_at l with
  | Some m => Some m
  | None =>
      match l with
      | [] => None
      | _ :: l' => postal_search l'
      end
  end.

Definition extract_postal_code (address site_postal : value) : option string :=
  if truthy site_postal && Py.nonempty (Py.strip (py_str site_postal))
  then Some (Py.strip (py_str site_postal))
  else
    if truthy address
    then
      match postal_search (Py.chars (py_str address)) with
      | Some m => Some (Py.upper (Py.str_of m))
      | None => None
      end
    else None.

Definition determine_license_type (establishment_name : option string) : string :=
  if negb (otruthy establishment_name) then "other"
  else
    let name := Py.lower (oget establishment_name) in
    if Py.any_in ["cultivation"; "grow"; "farm"] name then "cultivation"
    else if Py.any_in ["dispensary"; "retail"; "store"] name then "retail"
    else if Py.any_in ["processing"; "extraction"; "manufacturing"] name
         then "processing"
    else if Py.any_in ["distribution"; "transport"; "delivery"] name
         then "distribution"
    else if Py.any_in ["testing"; "lab"; "laboratory"] name then "testing"
    else "other".

Definition is_smoke_shop (establishment_name : option string) : bool :=
  if negb (otruthy establishment_name) then false
  else
    let name := Py.lower (oget establishment_name) in
    Py.any_in ["smoke"; "tobacco"; "vape"; "cigar"] name.

Definition parse_phone_number (phone : value) : option string :=
  if negb (truthy phone) || isna phone then None
  else
    let digits_only := Py.digits_only (py_str phone) in
    if String.length digits_only =? 10
    then Some ("(" ++ Py.slice 0 3 digits_only ++ ") "
               ++ Py.slice 3 6 digits_only ++ "-"
               ++ Py.slice_from 6 digits_only)%string
    else if (String.length digits_only =? 11)
            && Py.startswith "1" digits_only
    then Some ("1-(" ++ Py.slice 1 4 digits_only ++ ") "
               ++ Py.slice 4 7 digits_only ++ "-"
               ++ Py.slice_from 7 digits_only)%string
    else if Py.nonempty digits_only then Some digits_only else None.

(** [[part for part in parts if part]]. *)
Definition truthy_parts (parts : list (option string)) : list string :=
  flat_map (fun p => match p with
                     | Some s => if Py.nonempty s then [s] else []
                     | None => []
                     end) parts.

Definition create_address_string (row : Row) : string :=
  let address_parts :=
    truthy_parts [clean_string (row_get "Site Address Line 1" row)] in
  let city := clean_string (row_get "Site City Name" row) in
  let province := clean_string (row_get "Site" row) in
  let postal := clean_string (row_get "Site Postal" row) in
  let location_parts := truthy_parts [city; province; postal] in
  let address_parts :=
    match location_parts with
    | [] => address_parts
    | _ => address_parts ++ [Py.join ", " location_parts]
    end in
  Py.join ", " address_parts.

Definition transform_row_to_schema (row : Row) : Res Doc :=
  let business_name := clean_string (row_get "Establishment Name" row) in
  let license_number := clean_string (row_get "Authorization Number" row) in
  let city := clean_string (row_get "Site City Name" row) in
  let business_address := create_address_string row in
  let phone := parse_phone_number (row_get "Telephone Number" row) in
  let issue_date := parse_date (row_get "Initial Effective" row) in
  let license_type := determine_license_type business_name in
  let smoke_shop := is_smoke_shop business_name in
  let manager_name := clean_string (row_get "Manager Name" row) in
  Ok [ ("business_name", dopt business_name);
       ("license_number", dopt license_number);
       ("stateName", dstr "Alberta");
       ("city", dopt city);
       ("business_address", dstr business_address);
       ("contact_information", contact_information phone None);
       ("owner", owner manager_name
                   (if otruthy manager_name then Some "Manager" else None)
                   phone);
       ("operator_name", dopt manager_name);
       ("issue_date", dopt issue_date);
       ("expiration_date", dnone);
       ("license_type", dstr license_type);
       ("license_status", dstr "Active");
       ("jurisdiction", dstr "Alberta");
       ("regulatory_body", dstr "Health Canada");
       ("entity_type", DList [dstr license_type]);
       ("filing_documents_url", dnone);
       ("license_conditions", DList []);
       ("claimed", dbool false);
       ("claimedBy", dnone);
       ("claimedAt", dnone);
       ("canojaVerified", dbool true);
       ("adminVerificationRequired", dbool false);
       ("featured", dbool false);
       ("dba", dopt business_name);
       ("state_license_document", dnone);
       ("utility_bill", dnone);
       ("gps_validation", dbool false);
       ("location", location []);
       ("smoke_shop", dbool smoke_shop) ].

(** [load] is what [load_excel_data] left in [self.df]: [None] when the
    file could not be read. *)
Definition scrape_all_data (load : option (list Row)) : list Doc :=
  match load with
  | None => []
  | Some rows =>
      fold_left (step_plain transform_row_to_schema) rows []
  end.

End WithRuntime.
End Alberta.

(* ===================================================================== *)
(** ** Colorado (src/scrapers/colorado.py) *)
(* ===================================================================== *)

Module Colorado.
Section WithRuntime.
Context {R : PyRuntime}.

Definition clean_string (v : value) : option string :=
  if isna v || eq_empty v
     || Py.mem (Py.lower (py_str v)) ["none"; "null"; "n/a"]
  then None
  else Some (Py.strip (py_str v)).

(** An exception inside the [try] is printed and becomes None. *)
Definition parse_date (date_value : value) : option string :=
  if isna date_value || negb (truthy date_value) then None
  else
    let parsed_date :=
      if is_str date_value then to_datetime_coerce date_value
      else to_datetime date_value in
    match parsed_date with
    | DtStamp t => Some (ts_isoformat t)
    | DtNaT | DtNone => None
    | DtRaise => None
    end.

Definition determine_license_type (facility_type dba : option string) : string :=
  let facility_type := if negb (otruthy facility_type) then "" else oget facility_type in
  let dba := if negb (otruthy dba) then "" else oget dba in
  let combined_text := Py.lower (facility_type ++ " " ++ dba)%string in
  if Py.contains "cultivation" combined_text
     || Py.contains "cultivatio" combined_text then "cultivation"
  else if Py.any_in ["retail"; "dispensary"; "store"] combined_text then "retail"
  else if Py.any_in ["processing"; "extraction"; "manufacturing"; "infusion"]
            combined_text then "processing"
  else if Py.any_in ["distribution"; "transport"; "delivery"] combined_text
       then "distribution"
  else if Py.any_in ["testing"; "lab"; "laboratory"] combined_text then "testing"
  else if Py.contains "medical marijuana" combined_text then "medical"
  else if Py.contains "optional premises" combined_text then "optional_premises"
  else "other".

(** [x or ''] for an [Optional[str]]. *)
Definition or_empty (o : option string) : string :=
  if otruthy o then oget o else "".

Definition is_smoke_shop (business_name dba : option string) : bool :=
  let combined_text :=
    Py.lower (or_empty business_name ++ " " ++ or_empty dba)%string in
  Py.any_in ["smoke"; "tobacco"; "vape"; "cigar"; "head shop"] combined_text.

Definition parse_phone_number (phone : value) : option string :=
  if negb (truthy phone) || isna phone then None
  else
    let digits_only := Py.digits_only (py_str phone) in
    if negb (Py.nonempty digits_only) then None
    else if String.length digits_only =? 10
    then Some ("(" ++ Py.slice 0 3 digits_only ++ ") "
               ++ Py.slice 3 6 digits_only ++ "-"
               ++ Py.slice_from 6 digits_only)%string
    else if (String.length digits_only =? 11)
            && Py.startswith "1" digits_only
    then Some ("1-(" ++ Py.slice 1 4 digits_only ++ ") "
               ++ Py.slice 4 7 digits_only ++ "-"
               ++ Py.slice_from 7 digits_only)%string
    else if 7 <=? String.length digits_only then Some digits_only
    else None.

(** [[x] if x else []] for an [Optional[str]]. *)
Definition part (o : option string) : list string :=
  if otruthy o then [oget o] else [].

Definition create_full_address (row : Row) : option string :=
  let street := clean_string (row_get "Street" row) in
  let address_parts := part street in
  let city := clean_string (row_get "City" row) in
  let zip_code := clean_string (row_get "ZIP Code" row) in
  let location_parts := part city ++ part zip_code in
  let address_parts :=
    match location_parts with
    | [] => address_parts
    | _ => address_parts ++ [Py.join ", " location_parts]
    end in
  match address_parts with
  | [] => None
  | _ => Some (Py.join ", " address_parts)
  end.

Definition extract_state_from_data (row : Row) : string := "Colorado".

(** [now] is the reading of [pd.Timestamp.now()].  The bare [except]
    swallows whatever the parse or the subtraction raises; the days of a
    NaT difference are nan, which is not [<= 90]. *)
Definition get_license_status (now : timestamp) (date_updated : option string)
  : string :=
  if otruthy date_updated
  then
    match to_datetime (oval date_updated) with
    | DtStamp update_date =>
        match days_between now update_date with
        | Some days_since_update =>
            if (days_since_update <=? 90)%Z then "Active" else "Unknown"
        | None => "Active"
        end
    | DtNaT => "Unknown"
    | DtNone => "Active"
    | DtRaise => "Active"
    end
  else "Active".

(** [a or b] on [Optional[str]]. *)
Definition oor (a b : option string) : option string :=
  if otruthy a then a else b.

Definition transform_row_to_schema (now : timestamp) (row : Row) : Res Doc :=
  let license_number := clean_string (row_get "License Number" row) in
  let facility_name := clean_string (row_get "Facility Name" row) in
  let dba := clean_string (row_get "DBA" row) in
  let facility_type := clean_string (row_get "Facility Type" row) in
  let city := clean_string (row_get "City" row) in
  let date_updated := clean_string (row_get "Date Updated" row) in
  let business_name := oor facility_name dba in
  let business_address := create_full_address row in
  let state_name := extract_state_from_data row in
  let license_type := determine_license_type facility_type dba in
  let license_status := get_license_status now date_updated in
  let smoke_shop := is_smoke_shop business_name dba in
  let issue_date := parse_date (oval date_updated) in
  Ok [ ("googlePlaceId", dnone);
       ("business_name", dopt business_name);
       ("license_number", dopt license_number);
       ("stateName", dstr state_name);
       ("city", dopt city);
       ("business_address", dopt business_address);
       ("contact_information", contact_information None None);
       ("owner", owner None None None);
       ("operator_name", dnone);
       ("issue_date", dopt issue_date);
       ("expiration_date", dnone);
       ("license_type", dstr license_type);
       ("license_status", dstr license_status);
       ("jurisdiction", dstr state_name);
       ("regulatory_body", dstr "Colorado Department of Revenue");
       ("entity_type", DList [dstr license_type]);
       ("filing_documents_url", dnone);
       ("license_conditions", DList []);
       ("claimed", dbool false);
       ("claimedBy", dnone);
       ("claimedAt", dnone);
       ("canojaVerified", dbool true);
       ("adminVerificationRequired", dbool false);
       ("featured", dbool false);
       ("dba", dopt dba);
       ("state_license_document", dnone);
       ("utility_bill", dnone);
       ("gps_validation", dbool false);
       ("location", location []);
       ("smoke_shop", dbool smoke_shop) ].

(** [document['business_name'] and document['license_number']]. *)
Definition gate (document : Doc) : bool :=
  doc_truthy "business_name" document && doc_truthy "license_number" document.

(** The rows come with the clock reading at the time each is transformed. *)
Definition scrape_batch (rows : list (timestamp * Row)) : Batch :=
  fold_left
    (step_gated (fun r => transform_row_to_schema (fst r) (snd r)) gate)
    rows empty_batch.

Definition scrape_all_data (load : option (list (timestamp * Row))) : list Doc :=
  match load with
  | None => []
  | Some rows => documents (scrape_batch rows)
  end.

End WithRuntime.
End Colorado.

(* ===================================================================== *)
(** ** Michigan (src/scrapers/michigan.py) *)
(* ===================================================================== *)

Module Michigan.
Section WithRuntime.
Context {R : PyRuntime}.

Definition clean_string (v : value) : option string :=
  if isna v || eq_empty v
     || Py.mem (Py.lower (py_str v)) ["none"; "null"; "n/a"; "nan"]
  then None
  else Some (Py.strip (py_str v)).

(** Returns a datetime object, not a string. *)
Definition parse_date (date_value : value) : option timestamp :=
  if isna date_value || negb (truthy date_value) then None
  else
    let parsed_date :=
      if is_str date_value then to_datetime_coerce date_value
      else to_datetime date_value in
    match parsed_date with
    | DtStamp t => Some (to_pydatetime t)
    | DtNaT | DtNone => None
    | DtRaise => None
    end.

Definition determine_license_type (record_type : option string) : string :=
  if negb (otruthy record_type) then "other"
  else
    let record_lower := Py.lower (oget record_type) in
    if Py.contains "retailer" record_lower || Py.contains "retail" record_lower
    then "retail"
    else if Py.contains "processor" record_lower
            || Py.contains "processing" record_lower then "processing"
    else if Py.contains "grower" record_lower
            || Py.contains "cultivation" record_lower then "cultivation"
    else if Py.contains "transporter" record_lower
            || Py.contains "transport" record_lower then "distribution"
    else if Py.contains "testing" record_lower
            || Py.contains "lab" record_lower then "testing"
    else if Py.contains "entity" record_lower then "entity"
    else if Py.contains "secure transport" record_lower then "transport"
    else "other".

Definition parse_license_status (status : option string) : string :=
  if negb (otruthy status) then "Unknown"
  else
    let status_lower := Py.lower (oget status) in
    if Py.contains "active" status_lower
    then if Py.contains "prequalified" status_lower
         then "Prequalified" else "Active"
    else if Py.contains "inactive" status_lower then "Inactive"
    else if Py.contains "expired" status_lower then "Expired"
    else if Py.contains "pending" status_lower then "Pending"
    else if Py.contains "suspended" status_lower then "Suspended"
    else "Unknown".

(** The tail [\s+MI\s+\d{5}] of the city pattern at the head of [l]. *)
Definition mi_tail (l : list ascii) : bool :=
  match l with
  | w :: _ =>
      Py.is_space w &&
      match Py.lstrip_chars l with
      | m :: i :: l2 =>
          Ascii.eqb m "M" && Ascii.eqb i "I" &&
          match l2 with
          | w' :: _ =>
              Py.is_space w' &&
              match Py.lstrip_chars l2 with
              | d1 :: d2 :: d3 :: d4 :: d5 :: _ =>
                  Py.is_digit d1 && Py.is_digit d2 && Py.is_digit d3
                  && Py.is_digit d4 && Py.is_digit d5
              | _ => false
              end
          | [] => false
          end
      | _ => false
      end
  | [] => false
  end.

(** Group 1 of [^(.+?)\s+MI\s+\d{5}]: the shortest non-empty prefix
    without a newline that the tail follows. *)
Fixpoint city_group (seen : list ascii) (l : list ascii) : option (list ascii) :=
  match l with
  | [] => None
  | c :: l' =>
      if Ascii.eqb c "010" then None
      else if mi_tail l' then Some (rev (c :: seen))
      else city_group (c :: seen) l'
  end.

(** [parts[-1]]. *)
Definition last_part (parts : list string) : string := last parts "".

(** [parts[:-2]]. *)
Definition drop_last2 (parts : list string) : list string :=
  firstn (length parts - 2) parts.

Definition parse_address (address_str : option string)
  : option string * option string :=
  if negb (otruthy address_str) then (None, None)
  else
    let parts := Py.split_on "," (oget address_str) in
    let city :=
      if 2 <=? length parts
      then
        let city_state_zip := Py.strip (last_part parts) in
        match city_group [] (Py.chars city_state_zip) with
        | Some g => Some (Py.strip (Py.str_of g))
        | None =>
            let city_parts := Py.split_ws city_state_zip in
            if 2 <=? length city_parts
            then if 2 <? length city_parts
                 then Some (Py.join " " (drop_last2 city_parts))
                 else Some (hd "" city_parts)
            else None
        end
      else None in
    (address_str, city).

Definition is_smoke_shop (business_name : option string) : bool :=
  if negb (otruthy business_name) then false
  else
    let name_lower := Py.lower (oget business_name) in
    Py.any_in ["smoke"; "tobacco"; "vape"; "cigar"; "head shop"] name_lower.

Definition transform_row_to_schema (row : Row) : Res Doc :=
  let record_number :=
    clean_string (py_or (row_get "Record Number" row) (row_get "RecordNumber" row)) in
  let record_type :=
    clean_string (py_or (row_get "Record Type" row) (row_get "RecordType" row)) in
  let license_name :=
    clean_string (py_or (row_get "License Name" row) (row_get "LicenseName" row)) in
  let address := clean_string (row_get "Address" row) in
  let expiration_date :=
    clean_string (py_or (row_get "Expiration Date" row)
                        (row_get "ExpirationDate" row)) in
  let status := clean_string (row_get "Status" row) in
  let notes := clean_string (row_get "Notes" row) in
  let disciplinary_action :=
    clean_string (py_or (row_get "Disciplinary Action" row)
                        (row_get "DisciplinaryAction" row)) in
  let address_info := parse_address address in
  let license_type := determine_license_type record_type in
  let license_status := parse_license_status status in
  let smoke_shop := is_smoke_shop license_name in
  let expiry_date := parse_date (oval expiration_date) in
  Ok [ ("googlePlaceId", dnone);
       ("business_name", dopt license_name);
       ("license_number", dopt record_number);
       ("stateName", dstr "Michigan");
       ("city", dopt (snd address_info));
       ("business_address", dopt (fst address_info));
       ("contact_information", contact_information None None);
       ("owner", owner None None None);
       ("operator_name", dnone);
       ("issue_date", dnone);
       ("expiration_date",
          match expiry_date with Some t => DVal (PTime t) | None => dnone end);
       ("license_type", dstr license_type);
       ("license_status", dstr license_status);
       ("jurisdiction", dstr "Michigan");
       ("regulatory_body", dstr "Cannabis Regulatory Agency (CRA)");
       ("entity_type", DList [dstr license_type]);
       ("filing_documents_url", dnone);
       ("license_conditions", DList []);
       ("claimed", dbool false);
       ("claimedBy", dnone);
       ("claimedAt", dnone);
       ("canojaVerified", dbool false);
       ("adminVerificationRequired", dbool false);
       ("featured", dbool false);
       ("dba", dnone);
       ("state_license_document", dnone);
       ("utility_bill", dnone);
       ("gps_validation", dbool false);
       ("location", location []);
       ("smoke_shop", dbool smoke_shop);
       ("_michigan_record_number", dopt record_number);
       ("_michigan_record_type", dopt record_type);
       ("_michigan_notes", dopt notes);
       ("_michigan_disciplinary_action", dopt disciplinary_action);
       ("_michigan_raw_status", dopt status) ].

Definition gate (document : Doc) : bool :=
  doc_truthy "business_name" document && doc_truthy "license_number" document.

Definition process_batch (rows : list Row) : Batch :=
  fold_left (step_gated transform_row_to_schema gate) rows empty_batch.

Definition process_all_data (load : option (list Row)) : list Doc :=
  match load with
  | None => []
  | Some rows => documents (process_batch rows)
  end.

End WithRuntime.
End Michigan.

(* ===================================================================== *)
(** ** Ontario (src/scrapers/ontario.py) *)
(* ===================================================================== *)

Module Ontario.
Section WithRuntime.
Context {R : PyRuntime}.

(** What a key of a feature holds: a scalar, an object with scalar
    members, or an array. *)
Inductive json : Type :=
| JVal (v : value)
| JObj (o : Row)
| JArr.

(** One element of the [features] array. *)
Definition Feature : Type := list (string * json).

Fixpoint feature_get (key : string) (record : Feature) : option json :=
  match record with
  | [] => None
  | (k, j) :: record' =>
      if String.eqb k key then Some j else feature_get key record'
  end.

(** [record.get('attributes', {})], ready for the first [attributes.get]:
    only an object has a [get]. *)
Definition attributes_of (record : Feature) : Res Row :=
  match feature_get "attributes" record with
  | None => Ok []
  | Some (JObj o) => Ok o
  | Some (JVal _) => Raise AttributeError
  | Some JArr => Raise AttributeError
  end.

Definition clean_string (v : value) : option string :=
  match v with
  | PNone => None
  | _ =>
      if eq_empty v
         || Py.mem (Py.lower (py_str v)) ["none"; "null"; "n/a"; "nan"; "."]
      then None
      else Some (Py.strip (py_str v))
  end.

(** [date_value in [None, '', 'null', 'None', '.']]. *)
Definition in_null_words (v : value) : bool :=
  match v with
  | PNone => true
  | PStr s => Py.mem s [""; "null"; "None"; "."]
  | _ => false
  end.

Definition parse_date (date_value : value) : option string :=
  if negb (truthy date_value) || in_null_words date_value then None
  else
    let parsed_date :=
      if is_str date_value then to_datetime_coerce date_value
      else to_datetime date_value in
    match parsed_date with
    | DtStamp t => Some (ts_isoformat t)
    | DtNaT | DtNone => None
    | DtRaise => None
    end.

Definition determine_license_type (premises_name : option string) : string :=
  if negb (otruthy premises_name) then "retail"
  else
    let name_lower := Py.lower (oget premises_name) in
    if Py.any_in ["cultivation"; "cultivator"; "grow"; "farm"] name_lower
    then "cultivation"
    else if Py.any_in ["processing"; "processor"; "extraction"; "manufacturing"]
              name_lower then "processing"
    else if Py.any_in ["distribution"; "distributor"; "transport"; "delivery"]
              name_lower then "distribution"
    else if Py.any_in ["testing"; "lab"; "laboratory"] name_lower then "testing"
    else "retail".

Definition is_smoke_shop (business_name : option string) : bool :=
  if negb (otruthy business_name) then false
  else
    let name_lower := Py.lower (oget business_name) in
    Py.any_in ["smoke"; "tobacco"; "vape"; "cigar"; "head shop"] name_lower.

Definition get_license_status (application_status : option string) : string :=
  if negb (otruthy application_status) then "Active"
  else
    let status_lower := Py.lower (oget application_status) in
    if Py.contains "authorized to open" status_lower then "Active"
    else if Py.contains "pending" status_lower then "Pending"
    else if Py.contains "denied" status_lower
            || Py.contains "rejected" status_lower then "Denied"
    else if Py.contains "suspended" status_lower then "Suspended"
    else "Active".

(** The least magnitude of an int that [float] refuses: halfway between
    the largest double and 2^1024. *)
Definition float_overflow : Z := (2 ^ 1024 - 2 ^ 970)%Z.

(** [float(v)]. *)
Definition py_float (v : value) : Res (flt pyfloat) :=
  match v with
  | PNone => Raise TypeError
  | PNaN => Ok FNaN
  | PBool b => Ok (FNum (float_of_int (if b then 1 else 0)%Z))
  | PInt z =>
      if (Z.abs z <? float_overflow)%Z then Ok (FNum (float_of_int z))
      else Raise OverflowError
  | PFloat f => Ok (FNum f)
  | PStr s =>
      match float_of_str s with
      | Some x => Ok x
      | None => Raise ValueError
      end
  | PTime _ => Raise TypeError
  end.

Definition dfloat (x : flt pyfloat) : docval :=
  match x with
  | FNaN => DVal PNaN
  | FNum f => DVal (PFloat f)
  end.

(** The [try] around the two conversions catches ValueError and
    TypeError only. *)
Definition coordinates_of (longitude latitude : value) : Res (list docval) :=
  if truthy longitude && truthy latitude
  then
    match (x <- py_float longitude ;; y <- py_float latitude ;; Ok [dfloat x; dfloat y]) with
    | Ok c => Ok c
    | Raise ValueError => Ok []
    | Raise TypeError => Ok []
    | Raise e => Raise e
    end
  else Ok [].

Definition part (o : option string) : list string :=
  if otruthy o then [oget o] else [].

Definition transform_record_to_schema (record : Feature) : Res Doc :=
  attributes <- attributes_of record ;;
  let premises_name := clean_string (row_get "PremisesName" attributes) in
  let street_address := clean_string (row_get "StreetAddress" attributes) in
  let city := clean_string (row_get "City" attributes) in
  let province := clean_string (row_get "Province" attributes) in
  let postal_code := clean_string (row_get "PostalCode" attributes) in
  let application_status := clean_string (row_get "ApplicationStatus" attributes) in
  let website := clean_string (row_get "Website" attributes) in
  let public_notice_date := clean_string (row_get "PublicNoticeDate" attributes) in
  let address_parts := part street_address in
  let location_parts := part city ++ part province ++ part postal_code in
  let address_parts :=
    match location_parts with
    | [] => address_parts
    | _ => address_parts ++ [Py.join ", " location_parts]
    end in
  let business_address :=
    match address_parts with
    | [] => None
    | _ => Some (Py.join ", " address_parts)
    end in
  let latitude := row_get "Latitude" attributes in
  let longitude := row_get "Longitude" attributes in
  coordinates <- coordinates_of longitude latitude ;;
  let license_type := determine_license_type premises_name in
  let license_status := get_license_status application_status in
  let smoke_shop := is_smoke_shop premises_name in
  let issue_date :=
    if otruthy public_notice_date
       && negb (String.eqb (oget public_notice_date) ".")
    then parse_date (oval public_notice_date) else None in
  Ok [ ("googlePlaceId", dnone);
       ("business_name", dopt premises_name);
       ("license_number", dnone);
       ("stateName", dstr "Ontario");
       ("city", dopt city);
       ("business_address", dopt business_address);
       ("contact_information", contact_information None website);
       ("owner", owner None None None);
       ("operator_name", dnone);
       ("issue_date", dopt issue_date);
       ("expiration_date", dnone);
       ("license_type", dstr license_type);
       ("license_status", dstr license_status);
       ("jurisdiction", dstr "Ontario");
       ("regulatory_body",
          dstr "Alcohol and Gaming Commission of Ontario (AGCO)");
       ("entity_type", DList [dstr license_type]);
       ("filing_documents_url", dopt (clean_string (row_get "URLLink" attributes)));
       ("license_conditions", DList []);
       ("claimed", dbool false);
       ("claimedBy", dnone);
       ("claimedAt", dnone);
       ("canojaVerified", dbool true);
       ("adminVerificationRequired", dbool false);
       ("featured", dbool false);
       ("dba", dnone);
       ("state_license_document", dnone);
       ("utility_bill", dnone);
       ("gps_validation",
          dbool (match coordinates with [] => false | _ => true end));
       ("location", location coordinates);
       ("smoke_shop", dbool smoke_shop);
       ("application_status", dopt application_status);
       ("objectid", DVal (row_get "OBJECTID" attributes));
       ("postal_code", dopt postal_code) ].

Definition gate (document : Doc) : bool := doc_truthy "business_name" document.

Definition scrape_batch (records : list Feature) : Batch :=
  fold_left (step_gated transform_record_to_schema gate) records empty_batch.

Definition scrape_all_data (load : option (list Feature)) : list Doc :=
  match load with
  | None => []
  | Some records => documents (scrape_batch records)
  end.

End WithRuntime.
End Ontario.

(* ===================================================================== *)
(** ** British Columbia (src/scrapers/bc.py) *)
(* ===================================================================== *)

Module BC.
Section WithRuntime.
Context {R : PyRuntime}.

Definition clean_string (v : value) : option string :=
  if isna v || eq_empty v || negb (Py.nonempty (Py.strip (py_str v)))
  then None
  else Some (Py.strip (py_str v)).

Definition parse_phone_number (phone : value) : option string :=
  if negb (truthy phone) || isna phone then None
  else
    let digits_only := Py.digits_only (py_str phone) in
    if String.length digits_only =? 10
    then Some ("(" ++ Py.slice 0 3 digits_only ++ ") "
               ++ Py.slice 3 6 digits_only ++ "-"
               ++ Py.slice_from 6 digits_only)%string
    else if (String.length digits_only =? 11)
            && Py.startswith "1" digits_only
    then Some ("1-(" ++ Py.slice 1 4 digits_only ++ ") "
               ++ Py.slice 4 7 digits_only ++ "-"
               ++ Py.slice_from 7 digits_only)%string
    else if Py.nonempty digits_only then Some digits_only else None.

Definition determine_license_type (establishment_name : option string) : string :=
  if negb (otruthy establishment_name) then "retail"
  else
    let name := Py.lower (oget establishment_name) in
    if Py.any_in ["cultivation"; "grow"; "farm"; "grower"] name
    then "cultivation"
    else if Py.any_in ["processing"; "extraction"; "manufacturing"; "processor"]
              name then "processing"
    else if Py.any_in ["distribution"; "transport"; "delivery"; "distributor"]
              name then "distribution"
    else if Py.any_in ["testing"; "lab"; "laboratory"] name then "testing"
    else "retail".

Definition is_smoke_shop (establishment_name : option string) : bool :=
  if negb (otruthy establishment_name) then false
  else
    let name := Py.lower (oget establishment_name) in
    Py.any_in ["smoke"; "tobacco"; "cigar"] name
    && negb (Py.contains "cannabis" name).

(** [[str(x).strip()] if x else []] *)
Definition stripped_part (o : option string) : list string :=
  if otruthy o then [Py.strip (oget o)] else [].

Definition create_full_address (address city postal : option string) : string :=
  let address_parts := stripped_part address in
  let location_parts := stripped_part city ++ ["BC"] ++ stripped_part postal in
  let address_parts :=
    match location_parts with
    | [] => address_parts
    | _ => address_parts ++ [Py.join ", " location_parts]
    end in
  match address_parts with
  | [] => ""
  | _ => Py.join ", " address_parts
  end.

Definition extract_postal_code (postal_value : value) : option string :=
  if negb (truthy postal_value) || isna postal_value then None
  else
    let postal := Py.upper (Py.strip (py_str postal_value)) in
    if String.length postal =? 6
    then Some (Py.slice 0 3 postal ++ " " ++ Py.slice_from 3 postal)%string
    else if (String.length postal =? 7)
            && String.eqb (Py.slice 3 4 postal) " "
    then Some postal
    else if Py.nonempty postal then Some postal else None.

Definition transform_row_to_schema (row : Row) : Res Doc :=
  let license_number := clean_string (row_get "Licence" row) in
  let establishment_name := clean_string (row_get "Establishment Name" row) in
  let phone := parse_phone_number (row_get "Phone" row) in
  let address := clean_string (row_get "Address" row) in
  let city := clean_string (row_get "City" row) in
  let postal := extract_postal_code (row_get "Postal" row) in
  let status := clean_string (row_get "Status" row) in
  let business_address := create_full_address address city postal in
  let license_type := determine_license_type establishment_name in
  let smoke_shop := is_smoke_shop establishment_name in
  let license_status :=
    if otruthy status && String.eqb (Py.lower (oget status)) "open"
    then "Active" else "Inactive" in
  Ok [ ("business_name", dopt establishment_name);
       ("license_number", dopt license_number);
       ("stateName", dstr "British Columbia");
       ("city", dopt city);
       ("business_address", dstr business_address);
       ("contact_information", contact_information phone None);
       ("owner", owner None None phone);
       ("operator_name", dnone);
       ("issue_date", dnone);
       ("expiration_date", dnone);
       ("license_type", dstr license_type);
       ("license_status", dstr license_status);
       ("jurisdiction", dstr "British Columbia");
       ("regulatory_body", dstr "Liquor and Cannabis Regulation Branch");
       ("entity_type", DList [dstr license_type]);
       ("filing_documents_url", dnone);
       ("license_conditions", DList []);
       ("claimed", dbool false);
       ("claimedBy", dnone);
       ("claimedAt", dnone);
       ("canojaVerified", dbool true);
       ("adminVerificationRequired", dbool false);
       ("featured", dbool false);
       ("dba", dopt establishment_name);
       ("state_license_document", dnone);
       ("utility_bill", dnone);
       ("gps_validation", dbool false);
       ("location", location []);
       ("smoke_shop", dbool smoke_shop) ].

Definition scrape_all_data (load : option (list Row)) : list Doc :=
  match load with
  | None => []
  | Some rows => fold_left (step_plain transform_row_to_schema) rows []
  end.

End WithRuntime.
End BC.

(* ===================================================================== *)
(** ** Saskatchewan (src/scrapers/saskatchewan.py) *)
(* ===================================================================== *)

Module Saskatchewan.
Section WithRuntime.
Context {R : PyRuntime}.

Definition clean_string (v : value) : option string :=
  if isna v || eq_empty v then None
  else Some (Py.strip (py_str v)).

Definition parse_date (date_value : value) : option string :=
  if isna date_value then None
  else
    match to_datetime date_value with
    | DtStamp t => Some (ts_isoformat t)
    | DtNaT => Some "NaT"
    | DtNone => None
    | DtRaise => None
    end.

Definition extract_phone_from_website_or_name
    (website business_name : option string) : option string := None.

Definition determine_license_type_from_name (operating_name : option string)
  : string :=
  if negb (otruthy operating_name) then "retail"
  else
    let name := Py.lower (oget operating_name) in
    if Py.any_in ["dispensary"; "cannabis"; "weed"; "shop"; "store"] name
    then "retail"
    else if Py.contains "smoke" name then "retail"
    else "retail".

Definition is_smoke_shop (operating_name : option string) : bool :=
  if negb (otruthy operating_name) then false
  else
    let name := Py.lower (oget operating_name) in
    Py.any_in ["smoke"; "tobacco"; "vape"; "cigar"] name.

(** [[x.strip()] if x and x.strip() else []] *)
Definition stripped_part (o : option string) : list string :=
  if otruthy o && Py.nonempty (Py.strip (oget o))
  then [Py.strip (oget o)] else [].

Definition create_full_address (street_address city : option string) : string :=
  let address_parts := stripped_part street_address ++ stripped_part city in
  let address_parts :=
    match address_parts with
    | [] => address_parts
    | _ => address_parts ++ ["Saskatchewan"; "Canada"]
    end in
  Py.join ", " address_parts.

(** [website.lower()] is reached by every truthy value that is not nan;
    only a str has the method. *)
Definition clean_website_url (website : value) : Res (option string) :=
  if negb (truthy website) || isna website then Ok None
  else
    match website with
    | PStr s =>
        if Py.mem (Py.lower s) ["n/a"; "none"; ""] then Ok None
        else
          let website := Py.strip s in
          if Py.nonempty website
             && negb (Py.startswith "http://" website
                      || Py.startswith "https://" website)
          then Ok (Some ("https://" ++ website)%string)
          else Ok (Some website)
    | _ => Raise AttributeError
    end.

Definition transform_row_to_schema (row : Row) : Res Doc :=
  let permit_number := clean_string (row_get "Permit Number" row) in
  let status := clean_string (row_get "Status" row) in
  let city := clean_string (row_get "City" row) in
  let operating_name := clean_string (row_get "Operating Name" row) in
  let street_address := clean_string (row_get "Street Address" row) in
  website <- clean_website_url (row_get "Website" row) ;;
  let last_updated := parse_date (row_get "Last Updated" row) in
  let business_address := create_full_address street_address city in
  let license_type := determine_license_type_from_name operating_name in
  let smoke_shop := is_smoke_shop operating_name in
  let phone := extract_phone_from_website_or_name website operating_name in
  Ok [ ("business_name", dopt operating_name);
       ("license_number", dopt permit_number);
       ("stateName", dstr "Saskatchewan");
       ("city", dopt city);
       ("business_address", dstr business_address);
       ("contact_information", contact_information phone website);
       ("owner", owner None None phone);
       ("operator_name", dopt operating_name);
       ("issue_date", dnone);
       ("expiration_date", dnone);
       ("license_type", dstr license_type);
       ("license_status", dopt status);
       ("jurisdiction", dstr "Saskatchewan");
       ("regulatory_body",
          dstr "Saskatchewan Liquor and Gaming Authority (SLGA)");
       ("entity_type", DList [dstr license_type]);
       ("filing_documents_url", dnone);
       ("license_conditions", DList []);
       ("claimed", dbool false);
       ("claimedBy", dnone);
       ("claimedAt", dnone);
       ("canojaVerified", dbool true);
       ("adminVerificationRequired", dbool false);
       ("featured", dbool false);
       ("dba", dopt operating_name);
       ("state_license_document", dnone);
       ("utility_bill", dnone);
       ("gps_validation", dbool false);
       ("location", location []);
       ("smoke_shop", dbool smoke_shop);
       ("permit_number", dopt permit_number);
       ("last_updated", dopt last_updated);
       ("data_source", dstr "SLGA Cannabis Retailers Registry") ].

Definition scrape_all_data (load : option (list Row)) : list Doc :=
  match load with
  | None => []
  | Some rows => fold_left (step_plain transform_row_to_schema) rows []
  end.

End WithRuntime.
End Saskatchewan.

(* ===================================================================== *)
(** ** Federal / Health Canada (src/scrapers/federal.py) *)
(* ===================================================================== *)

Module Federal.
Section WithRuntime.
Context {R : PyRuntime}.

Definition parse_license_types (license_cell_text : string) : list string :=
  if negb (Py.nonempty license_cell_text) then []
  else
    let text := Py.lower license_cell_text in
    let license_types :=
      (if Py.contains "micro-processing" text then ["micro-processing"]
       else if Py.contains "processing" text then ["processing"] else [])
      ++ (if Py.contains "micro-cultivation" text then ["micro-cultivation"]
          else if Py.contains "cultivation" text then ["cultivation"] else [])
      ++ (if Py.contains "sale" text then ["retail"] else []) in
    match license_types with
    | [] => ["other"]
    | _ => license_types
    end.

Definition parse_authorized_products (products_text : string) : list string :=
  if negb (Py.nonempty products_text) then []
  else
    let text := Py.lower products_text in
    (if Py.contains "plants" text || Py.contains "seeds" text
     then ["plants_seeds"] else [])
    ++ (if Py.contains "dried" text || Py.contains "fresh" text
        then ["dried_fresh"] else [])
    ++ (if Py.contains "extracts" text then ["extracts"] else [])
    ++ (if Py.contains "edible" text then ["edibles"] else [])
    ++ (if Py.contains "topical" text then ["topicals"] else []).

Definition clean_phone_number (phone : string) : option string :=
  if negb (Py.nonempty phone) || Py.mem (Py.lower phone) ["n/a"; "none"]
  then None
  else
    let digits_only := Py.digits_only phone in
    if String.length digits_only =? 10
    then Some ("(" ++ Py.slice 0 3 digits_only ++ ") "
               ++ Py.slice 3 6 digits_only ++ "-"
               ++ Py.slice_from 6 digits_only)%string
    else if (String.length digits_only =? 11)
            && Py.startswith "1" digits_only
    then Some ("1-(" ++ Py.slice 1 4 digits_only ++ ") "
               ++ Py.slice 4 7 digits_only ++ "-"
               ++ Py.slice_from 7 digits_only)%string
    else if Py.nonempty digits_only then Some digits_only else None.

Definition digit_val (c : ascii) : nat := Py.code c - 48.

(** [re.match(r'\d{4}-\d{2}-\d{2}', s)]: a test on the first ten
    characters. *)
Definition ymd_prefix (l : list ascii) : bool :=
  match l with
  | y1 :: y2 :: y3 :: y4 :: h1 :: m1 :: m2 :: h2 :: d1 :: d2 :: _ =>
      Py.is_digit y1 && Py.is_digit y2 && Py.is_digit y3 && Py.is_digit y4
      && Ascii.eqb h1 "-" && Py.is_digit m1 && Py.is_digit m2
      && Ascii.eqb h2 "-" && Py.is_digit d1 && Py.is_digit d2
  | _ => false
  end.

(** The alternatives of [%m], [1[0-2]|0[1-9]|[1-9]], in order: the value
    read and what is left. *)
Definition month_alts (l : list ascii) : list (nat * list ascii) :=
  (match l with
   | a :: b :: r =>
       (if Ascii.eqb a "1" && Py.is_digit b && (digit_val b <=? 2)
        then [(10 + digit_val b, r)] else [])
       ++ (if Ascii.eqb a "0" && Py.is_digit b && (1 <=? digit_val b)
           then [(digit_val b, r)] else [])
   | _ => []
   end)
  ++ (match l with
      | a :: r =>
          if Py.is_digit a && (1 <=? digit_val a) then [(digit_val a, r)] else []
      | [] => []
      end).

(** The alternatives of [%d], [3[01]|[12]\d|0[1-9]|[1-9]| [1-9]]. *)
Definition day_alts (l : list ascii) : list (nat * list ascii) :=
  (match l with
   | a :: b :: r =>
       (if Ascii.eqb a "3" && Py.is_digit b && (digit_val b <=? 1)
        then [(30 + digit_val b, r)] else [])
       ++ (if Py.is_digit a && (1 <=? digit_val a) && (digit_val a <=? 2)
              && Py.is_digit b
           then [(10 * digit_val a + digit_val b, r)] else [])
       ++ (if Ascii.eqb a "0" && Py.is_digit b && (1 <=? digit_val b)
           then [(digit_val b, r)] else [])
   | _ => []
   end)
  ++ (match l with
      | a :: r =>
          if Py.is_digit a && (1 <=? digit_val a) then [(digit_val a, r)] else []
      | [] => []
      end)
  ++ (match l with
      | a :: b :: r =>
          if Ascii.eqb a " " && Py.is_digit b && (1 <=? digit_val b)
          then [(digit_val b, r)] else []
      | _ => []
      end).

Definition is_leap (y : nat) : bool :=
  ((y mod 4 =? 0) && negb (y mod 100 =? 0)) || (y mod 400 =? 0).

Definition days_in_month (y m : nat) : nat :=
  match m with
  | 2 => if is_leap y then 29 else 28
  | 4 | 6 | 9 | 11 => 30
  | _ => 31
  end.

(** [datetime.strptime(s, '%Y-%m-%d')]: the format's regular expression
    picks the first alternatives under which it matches a prefix; the
    match has to reach the end of the string and name a date of the
    calendar, from year 1 on.  [None] is ValueError. *)
Definition strptime_ymd (l : list ascii) : option (nat * nat * nat) :=
  match l with
  | y1 :: y2 :: y3 :: y4 :: h1 :: r1 =>
      if Py.is_digit y1 && Py.is_digit y2 && Py.is_digit y3 && Py.is_digit y4
         && Ascii.eqb h1 "-"
      then
        let year := 1000 * digit_val y1 + 100 * digit_val y2
                    + 10 * digit_val y3 + digit_val y4 in
        let after_month :=
          flat_map (fun mr =>
                      match snd mr with
                      | h2 :: r2 =>
                          if Ascii.eqb h2 "-"
                          then map (fun dr => (fst mr, fst dr, snd dr)) (day_alts r2)
                          else []
                      | [] => []
                      end) (month_alts r1) in
        match after_month with
        | (month, day, rest) :: _ =>
            match rest with
            | [] =>
                if (1 <=? year) && (day <=? days_in_month year month)
                then Some (year, month, day) else None
            | _ => None
            end
        | [] => None
        end
      else None
  | _ => None
  end.

(** [n] in decimal, left-padded with zeros to [width] digits. *)
Definition zero_pad (width n : nat) : string :=
  let s := Py.str_of_Z (Z.of_nat n) in
  (Py.str_of (repeat "0"%char (width - String.length s)) ++ s)%string.

(** [isoformat()] of a datetime at midnight. *)
Definition isoformat_midnight (d : nat * nat * nat) : string :=
  let '(y, m, dd) := d in
  (zero_pad 4 y ++ "-" ++ zero_pad 2 m ++ "-" ++ zero_pad 2 dd ++ "T00:00:00")%string.

Definition parse_date (date_str : string) : option string :=
  if negb (Py.nonempty date_str) || Py.mem (Py.lower date_str) ["n/a"; "none"]
  then None
  else
    if ymd_prefix (Py.chars date_str)
    then
      match strptime_ymd (Py.chars date_str) with
      | Some d => Some (isoformat_midnight d)
      | None => None
      end
    else None.

Definition determine_license_status (license_text : string) : string :=
  if negb (Py.nonempty license_text) then "Unknown"
  else
    let text := Py.lower license_text in
    if Py.contains "revoked" text then "Revoked" else "Active".

(** [cells[i].get_text(strip=True) if len(cells) > i else ""]. *)
Definition cell (i : nat) (cells : list string) : string := nth i cells "".

(** The body of the row loop for a row of at least four cells. *)
Definition row_document (cells : list string) : Res Doc :=
  let license_holder := cell 0 cells in
  let province := cell 1 cells in
  let licenses := cell 2 cells in
  let authorized_products := cell 3 cells in
  let registered_patients := cell 4 cells in
  let client_care_phone := cell 5 cells in
  let initial_license_date := cell 6 cells in
  let license_types := parse_license_types licenses in
  let products := parse_authorized_products authorized_products in
  let phone := clean_phone_number client_care_phone in
  let issue_date := parse_date initial_license_date in
  let license_status := determine_license_status licenses in
  Ok [ ("business_name", dstr license_holder);
       ("license_number", dnone);
       ("stateName", dstr "Federal");
       ("city", dnone);
       ("business_address", dnone);
       ("contact_information", contact_information phone None);
       ("owner", owner None None phone);
       ("operator_name", dstr license_holder);
       ("issue_date", dopt issue_date);
       ("expiration_date", dnone);
       ("license_type", dstr (hd "other" license_types));
       ("license_status", dstr license_status);
       ("jurisdiction", dstr province);
       ("regulatory_body", dstr "Health Canada");
       ("entity_type", DList (map dstr license_types));
       ("filing_documents_url", dnone);
       ("license_conditions", DList []);
       ("claimed", dbool false);
       ("claimedBy", dnone);
       ("claimedAt", dnone);
       ("canojaVerified", dbool true);
       ("adminVerificationRequired", dbool false);
       ("featured", dbool false);
       ("dba", dstr license_holder);
       ("state_license_document", dnone);
       ("utility_bill", dnone);
       ("gps_validation", dbool false);
       ("location", location []);
       ("smoke_shop", dbool false);
       ("authorized_products", DList (map dstr products));
       ("registered_patients_authorized", dstr registered_patients);
       ("source", dstr "Health Canada Official Registry") ].

(** One turn of the row loop: short rows are passed over. *)
Definition step (scraped_data : list Doc) (cells : list string) : list Doc :=
  if length cells <? 4 then scraped_data
  else step_plain row_document scraped_data cells.

(** [table] is the data rows of the page's table, each as the texts of its
    cells; [None] when the page or the table could not be had. *)
Definition scrape_table_data (table : option (list (list string))) : list Doc :=
  match table with
  | None => []
  | Some rows => fold_left step rows []
  end.

End WithRuntime.
End Federal.

(* ===================================================================== *)
(** ** Jamaica (src/scrapers/jamaica_cla.py) *)
(* ===================================================================== *)

Module Jamaica.
Section WithRuntime.
Context {R : PyRuntime}.

Definition parse_date (date_str : value) : option string :=
  if negb (truthy date_str) || isna date_str then None
  else
    match to_datetime_coerce date_str with
    | DtStamp t => Some (ts_isoformat t)
    | DtNaT | DtNone => None
    | DtRaise => None
    end.

Definition clean_string (v : value) : option string :=
  if negb (truthy v) || isna v then None
  else Some (Py.strip (py_str v)).

Definition determine_license_type (license_type_str : option string) : string :=
  if negb (otruthy license_type_str) then "other"
  else
    let license_type := Py.lower (oget license_type_str) in
    if Py.contains "retail" license_type && Py.contains "therapeutic" license_type
    then "retail"
    else if Py.contains "retail" license_type
            && Py.contains "herb house" license_type then "retail"
    else if Py.contains "processing" license_type then "processing"
    else if Py.contains "cultivator" license_type
            || Py.contains "cultivation" license_type then "cultivation"
    else if Py.contains "transport" license_type then "distribution"
    else "retail".

Definition parishes : list string :=
  [ "Kingston"; "St. Andrew"; "Saint Andrew"; "St Andrew";
    "St. Catherine"; "Saint Catherine"; "St Catherine";
    "Clarendon"; "Manchester"; "Westmoreland"; "St. James";
    "Saint James"; "St James"; "Hanover"; "Trelawny";
    "St. Ann"; "Saint Ann"; "St Ann"; "St. Mary"; "Saint Mary"; "St Mary";
    "Portland"; "St. Thomas"; "Saint Thomas"; "St Thomas" ].

Definition extract_city_from_address (address : option string) : option string :=
  if negb (otruthy address) then None
  else
    let address_lower := Py.lower (oget address) in
    match find (fun parish => Py.contains (Py.lower parish) address_lower) parishes with
    | Some parish => Some parish
    | None =>
        if Py.contains "p.o." address_lower
        then
          find (fun part =>
                  existsb (fun parish => Py.contains (Py.lower parish) (Py.lower part))
                          parishes)
               (map Py.strip (Py.split_on "," (oget address)))
        else None
    end.

(** The body of the row loop for a row of at least four cells; the cells
    are given by their text. *)
Definition row_document (cells : list string) : Res Doc :=
  let licensee := clean_string (PStr (nth 0 cells "")) in
  let license_type := clean_string (PStr (nth 1 cells "")) in
  let business_address := clean_string (PStr (nth 2 cells "")) in
  let expiry_date := clean_string (PStr (nth 3 cells "")) in
  let city := extract_city_from_address business_address in
  let mapped_license_type := determine_license_type license_type in
  let parsed_expiry := parse_date (oval expiry_date) in
  Ok [ ("business_name", dopt licensee);
       ("license_number", dnone);
       ("stateName", dstr "Jamaica");
       ("city", dopt city);
       ("business_address", dopt business_address);
       ("contact_information", contact_information None None);
       ("owner", owner licensee (Some "Owner") None);
       ("operator_name", dopt licensee);
       ("issue_date", dnone);
       ("expiration_date", dopt parsed_expiry);
       ("license_type", dstr mapped_license_type);
       ("license_status", dstr "Active");
       ("jurisdiction", dstr "Jamaica");
       ("regulatory_body", dstr "Cannabis Licensing Authority (CLA)");
       ("entity_type", DList [dstr mapped_license_type]);
       ("filing_documents_url", dnone);
       ("license_conditions", DList []);
       ("claimed", dbool false);
       ("claimedBy", dnone);
       ("claimedAt", dnone);
       ("canojaVerified", dbool true);
       ("adminVerificationRequired", dbool false);
       ("featured", dbool false);
       ("dba", dopt licensee);
       ("state_license_document", dnone);
       ("utility_bill", dnone);
       ("gps_validation", dbool false);
       ("location", location []);
       ("smoke_shop", dbool false);
       ("original_license_type", dopt license_type) ].

Definition step (licenses : list Doc) (cells : list string) : list Doc :=
  if 4 <=? length cells then step_plain row_document licenses cells
  else licenses.

(** A fetched page, as far as the scraper looks at it: the [tr] rows of its
    first table (with the header row; [None] without a table), each as the
    texts of its [td] cells, and whether an anchor with a "next" text is
    on it. *)
Record Soup : Type := mkSoup {
  table_rows : option (list (list string));
  next_link : bool
}.

Definition scrape_table_data (soup : Soup) : list Doc :=
  match table_rows soup with
  | None => []
  | Some trs => fold_left step (tl trs) []
  end.

(** The state of the [while True] loop of [scrape_all_pages]: the
    licences so far, the page counter, the URLs requested and the lines
    printed. *)
Record Loop : Type := mkLoop {
  all_licenses : list Doc;
  page_num : nat;
  fetched : list string;
  printed : list string
}.

Definition num (n : nat) : string := Py.str_of_Z (Z.of_nat n).

Definition page_url (base_url : string) (page_num : nat) : string :=
  if page_num =? 1 then base_url
  else (base_url ++ "?page=" ++ num page_num)%string.

(** One turn of the loop body: [inl] goes round again, [inr] is a
    [break].  [fetch_page] is the site: the soup behind a URL, or [None]
    when the request fails. *)
Definition loop_body (fetch_page : string -> option Soup) (base_url : string)
    (st : Loop) : Loop + Loop :=
  let n := page_num st in
  let out := printed st ++ [("Scraping page " ++ num n ++ "...")%string] in
  let url := page_url base_url n in
  let req := fetched st ++ [url] in
  match fetch_page url with
  | None =>
      inr (mkLoop (all_licenses st) n req
             (out ++ [("Failed to fetch page " ++ num n)%string]))
  | Some soup =>
      let page_licenses := scrape_table_data soup in
      match page_licenses with
      | [] =>
          inr (mkLoop (all_licenses st) n req
                 (out ++ [("No licenses found on page " ++ num n
                           ++ ", stopping.")%string]))
      | _ =>
          let all := all_licenses st ++ page_licenses in
          let out := out ++ [("Found " ++ num (length page_licenses)
                              ++ " licenses on page " ++ num n)%string] in
          if negb (next_link soup)
          then inr (mkLoop all n req (out ++ ["No more pages found."]))
          else
            let n' := n + 1 in
            if 50 <? n'
            then inr (mkLoop all n' req
                        (out ++ ["Reached maximum page limit (50), stopping."]))
            else inl (mkLoop all n' req out)
      end
  end.

(** The loop, run for at most [fuel] turns; [None] when it has not left
    the loop by then. *)
Fixpoint run (fetch_page : string -> option Soup) (base_url : string)
    (fuel : nat) (st : Loop) : option Loop :=
  match fuel with
  | 0 => None
  | S fuel' =>
      match loop_body fetch_page base_url st with
      | inr final => Some final
      | inl st' => run fetch_page base_url fuel' st'
      end
  end.

Definition start : Loop := mkLoop [] 1 [] [].

(** [scrape_all_pages], given enough turns. *)
Definition scrape_all_pages (fetch_page : string -> option Soup)
    (base_url : string) (fuel : nat) : option (list Doc) :=
  option_map all_licenses (run fetch_page base_url fuel start).

End WithRuntime.
End Jamaica.

(* ===================================================================== *)
(** ** A small runtime for the worked examples *)
(* ===================================================================== *)

(** A runtime cut down to what the examples below use: the floats are the
    whole numbers, the timestamps are the calendar dates at midnight, and
    [pd.to_datetime] reads the [YYYY-MM-DD] form only.  On the inputs of the
    examples it answers as Python and pandas do. *)
Module Example.

Definition date : Type := (nat * nat * nat)%type.

(** Days from 1970-01-01 to the date, in the proleptic Gregorian
    calendar. *)
Definition days_from_civil (d : date) : Z :=
  let '(y, m, dd) := d in
  let y := Z.of_nat y in
  let m := Z.of_nat m in
  let dd := Z.of_nat dd in
  let y' := if (m <=? 2)%Z then (y - 1)%Z else y in
  let era := (y' / 400)%Z in
  let yoe := (y' - era * 400)%Z in
  let mp := ((m + 9) mod 12)%Z in
  let doy := ((153 * mp + 2) / 5 + dd - 1)%Z in
  let doe := (yoe * 365 + yoe / 4 - yoe / 100 + doy)%Z in
  (era * 146097 + doe - 719468)%Z.

Definition date_str (sep : string) (d : date) : string :=
  let '(y, m, dd) := d in
  (Federal.zero_pad 4 y ++ "-" ++ Federal.zero_pad 2 m ++ "-"
   ++ Federal.zero_pad 2 dd ++ sep ++ "00:00:00")%string.

Definition read_date (s : string) : option date :=
  if Federal.ymd_prefix (Py.chars s) then Federal.strptime_ymd (Py.chars s)
  else None.

Definition whole_of_str (s : string) : option (flt Z) :=
  if String.eqb s "nan" then Some FNaN
  else
    match NilZero.int_of_string s with
    | Some i => Some (FNum (Z.of_int i))
    | None => None
    end.

Definition read_datetime (strict : bool) (v : pyval Z date) : dt_outcome date :=
  match v with
  | PNone => DtNone
  | PNaN => DtNaT
  | PTime t => DtStamp t
  | PStr s =>
      match read_date s with
      | Some d => DtStamp d
      | None => if strict then DtRaise else DtNaT
      end
  | _ => DtRaise
  end.

Lemma zero_str (f : Z) :
  negb (f =? 0)%Z = false ->
  Py.digits_only (Py.str_of_Z f ++ ".0") = "00".
Proof.
  intros H. apply negb_false_iff in H. apply Z.eqb_eq in H. subst f.
  reflexivity.
Qed.

Definition runtime : PyRuntime := {|
  pyfloat := Z;
  timestamp := date;
  float_str := fun f => (Py.str_of_Z f ++ ".0")%string;
  float_nonzero := fun f => negb (f =? 0)%Z;
  float_of_int := fun z => z;
  float_of_str := whole_of_str;
  ts_str := date_str " ";
  ts_isoformat := date_str "T";
  to_datetime := read_datetime true;
  to_datetime_coerce := read_datetime false;
  to_pydatetime := fun t => t;
  days_between := fun now t => Some (days_from_civil now - days_from_civil t)%Z;
  float_zero_str := zero_str
|}.

End Example.

(* ===================================================================== *)
(** ** Definitions used to state the properties *)
(* ===================================================================== *)

Section Statements.
Context {R : PyRuntime}.

(** The results of the calls that did not raise, in order. *)
Fixpoint oks {A : Type} (l : list (Res A)) : list A :=
  match l with
  | [] => []
  | Ok a :: l' => a :: oks l'
  | Raise _ :: l' => oks l'
  end.

(** The number of calls that raised. *)
Fixpoint raises {A : Type} (l : list (Res A)) : nat :=
  match l with
  | [] => 0
  | Ok _ :: l' => raises l'
  | Raise _ :: l' => S (raises l')
  end.

(** The records a loader delivered: none when it failed. *)
Definition records_of {A : Type} (load : option (list A)) : list A :=
  match load with
  | Some rows => rows
  | None => []
  end.

(** The document has the key and holds a non-empty str under it: the
    field is not absent. *)
Definition present (key : string) (d : Doc) : bool :=
  match doc_get key d with
  | Some (DVal (PStr s)) => Py.nonempty s
  | _ => false
  end.

(** The value under [key] is a dict that has every one of [subkeys]. *)
Definition has_subkeys (key : string) (subkeys : list string) (d : Doc) : bool :=
  match doc_get key d with
  | Some (DDict sub) =>
      forallb (fun k => match doc_get k sub with Some _ => true | None => false end)
              subkeys
  | _ => false
  end.

Definition has_key (key : string) (d : Doc) : bool :=
  match doc_get key d with
  | Some _ => true
  | None => false
  end.

(** The keys of the canonical document of the data model. *)
Definition schema_keys : list string :=
  [ "business_name"; "license_number"; "dba"; "operator_name";
    "stateName"; "jurisdiction"; "city"; "business_address"; "location";
    "contact_information"; "owner";
    "license_type"; "entity_type"; "license_status"; "issue_date";
    "expiration_date"; "regulatory_body"; "license_conditions";
    "smoke_shop"; "canojaVerified"; "gps_validation";
    "claimed"; "claimedBy"; "claimedAt"; "adminVerificationRequired";
    "featured"; "state_license_document"; "utility_bill";
    "filing_documents_url" ].

(** Structural completeness: every schema key is there, and so are the
    members of the three sub-documents. *)
Definition structurally_complete (d : Doc) : bool :=
  forallb (fun k => has_key k d) schema_keys
  && has_subkeys "contact_information" ["phone"; "email"; "website"] d
  && has_subkeys "owner" ["name"; "email"; "role"; "phone"; "govt_issued_id"] d
  && has_subkeys "location" ["coordinates"] d.

(** The absent sentinels: None, the empty str, the empty list. *)
Definition is_sentinel (v : docval) : bool :=
  match v with
  | DVal PNone => true
  | DVal (PStr s) => negb (Py.nonempty s)
  | DList l => match l with [] => true | _ => false end
  | _ => false
  end.

(** The value at a path of one or two keys. *)
Definition doc_path (path : list string) (d : Doc) : option docval :=
  match path with
  | [k] => doc_get k d
  | [k; k'] =>
      match doc_get k d with
      | Some (DDict sub) => doc_get k' sub
      | _ => None
      end
  | _ => None
  end.

(** The fields a source can supply; a record that supplies none leaves
    the sentinel in each. *)
Definition source_fields : list (list string) :=
  [ ["business_name"]; ["license_number"]; ["dba"]; ["operator_name"];
    ["city"]; ["issue_date"]; ["expiration_date"];
    ["contact_information"; "phone"]; ["contact_information"; "email"];
    ["contact_information"; "website"];
    ["owner"; "name"]; ["owner"; "email"]; ["owner"; "phone"];
    ["owner"; "govt_issued_id"];
    ["location"; "coordinates"]; ["license_conditions"];
    ["claimedBy"]; ["claimedAt"]; ["state_license_document"];
    ["utility_bill"]; ["filing_documents_url"] ].

Definition all_sentinels (d : Doc) : bool :=
  forallb (fun p => match doc_path p d with
                    | Some v => is_sentinel v
                    | None => false
                    end) source_fields.

(** The phone rule in the words of the specification, for the digits that
    remain and a minimum length. *)
Definition phone_rule (min_len : nat) (digits : string) : option string :=
  if String.length digits =? 10
  then Some ("(" ++ substring 0 3 digits ++ ") " ++ substring 3 3 digits
             ++ "-" ++ substring 6 4 digits)%string
  else if (String.length digits =? 11) && String.eqb (substring 0 1 digits) "1"
  then Some ("1-(" ++ substring 1 3 digits ++ ") " ++ substring 4 3 digits
             ++ "-" ++ substring 7 4 digits)%string
  else if min_len <=? String.length digits then Some digits
  else None.

(** An int or float that is zero. *)
Definition numeric_zero (v : value) : bool :=
  match v with
  | PInt z => (z =? 0)%Z
  | PFloat f => negb (float_nonzero f)
  | _ => false
  end.

(** Ordered keyword rules: the category of the first group with a keyword
    in the text, or the default. *)
Definition first_match (groups : list (string * list string))
    (default text : string) : string :=
  match find (fun g => Py.any_in (snd g) text) groups with
  | Some g => fst g
  | None => default
  end.

Definition alberta_groups : list (string * list string) :=
  [ ("cultivation", ["cultivation"; "grow"; "farm"]);
    ("retail", ["dispensary"; "retail"; "store"]);
    ("processing", ["processing"; "extraction"; "manufacturing"]);
    ("distribution", ["distribution"; "transport"; "delivery"]);
    ("testing", ["testing"; "lab"; "laboratory"]) ].

Definition colorado_groups : list (string * list string) :=
  [ ("cultivation", ["cultivation"; "cultivatio"]);
    ("retail", ["retail"; "dispensary"; "store"]);
    ("processing", ["processing"; "extraction"; "manufacturing"; "infusion"]);
    ("distribution", ["distribution"; "transport"; "delivery"]);
    ("testing", ["testing"; "lab"; "laboratory"]);
    ("medical", ["medical marijuana"]);
    ("optional_premises", ["optional premises"]) ].

Definition michigan_groups : list (string * list string) :=
  [ ("retail", ["retailer"; "retail"]);
    ("processing", ["processor"; "processing"]);
    ("cultivation", ["grower"; "cultivation"]);
    ("distribution", ["transporter"; "transport"]);
    ("testing", ["testing"; "lab"]);
    ("entity", ["entity"]);
    ("transport", ["secure transport"]) ].

Definition bc_groups : list (string * list string) :=
  [ ("cultivation", ["cultivation"; "grow"; "farm"; "grower"]);
    ("processing", ["processing"; "extraction"; "manufacturing"; "processor"]);
    ("distribution", ["distribution"; "transport"; "delivery"; "distributor"]);
    ("testing", ["testing"; "lab"; "laboratory"]) ].

Definition ontario_groups : list (string * list string) :=
  [ ("cultivation", ["cultivation"; "cultivator"; "grow"; "farm"]);
    ("processing", ["processing"; "processor"; "extraction"; "manufacturing"]);
    ("distribution", ["distribution"; "distributor"; "transport"; "delivery"]);
    ("testing", ["testing"; "lab"; "laboratory"]) ].

(** The position of a category in a rule table. *)
Fixpoint rank (category : string) (groups : list (string * list string)) : option nat :=
  match groups with
  | [] => None
  | g :: groups' =>
      if String.eqb (fst g) category then Some 0
      else option_map S (rank category groups')
  end.

(** The shape of a Canadian postal code as the pattern reads it: letter,
    digit, letter, at most one white-space character, digit, letter,
    digit. *)
Definition postal_shape (m : list ascii) : bool :=
  match m with
  | [a; b; c; d; e; f] =>
      Py.is_letter a && Py.is_digit b && Py.is_letter c
      && Py.is_digit d && Py.is_letter e && Py.is_digit f
  | [a; b; c; w; d; e; f] =>
      Py.is_letter a && Py.is_digit b && Py.is_letter c && Py.is_space w
      && Py.is_digit d && Py.is_letter e && Py.is_digit f
  | _ => false
  end.

(** [m] occurs in [l] after [pre]. *)
Definition occurs_at (pre m l : list ascii) : Prop :=
  exists post, l = pre ++ m ++ post.

(** An int too large for a double. *)
Definition int_overflows (v : value) : bool :=
  match v with
  | PInt z => negb (Z.abs z <? Ontario.float_overflow)%Z
  | _ => false
  end.

(** The eight jurisdictions, the raw record each reads, and its transform
    seen as a function of the clock reading and the record. *)
Inductive jurisdiction : Type :=
| JAlberta
| JBritishColumbia
| JColorado
| JFederal
| JJamaica
| JMichigan
| JOntario
| JSaskatchewan.

Definition raw_record (j : jurisdiction) : Type :=
  match j with
  | JFederal | JJamaica => list string
  | JOntario => Ontario.Feature
  | _ => Row
  end.

Definition transform (j : jurisdiction) (now : timestamp)
  : raw_record j -> Res Doc :=
  match j with
  | JAlberta => Alberta.transform_row_to_schema
  | JBritishColumbia => BC.transform_row_to_schema
  | JColorado => Colorado.transform_row_to_schema now
  | JFederal => Federal.row_document
  | JJamaica => Jamaica.row_document
  | JMichigan => Michigan.transform_row_to_schema
  | JOntario => Ontario.transform_record_to_schema
  | JSaskatchewan => Saskatchewan.transform_row_to_schema
  end.

(** What the pandas-based parsers ask of pandas: a str is parsed with
    [errors='coerce'], any other value without. *)
Definition pandas_parse (v : value) : dt_outcome timestamp :=
  if is_str v then to_datetime_coerce v else to_datetime v.

(** A date of the calendar from year 1 to year 9999. *)
Definition calendar_date (d : nat * nat * nat) : Prop :=
  let '(y, m, dd) := d in
  1 <= y <= 9 * 1111 /\ 1 <= m <= 12 /\ 1 <= dd <= Federal.days_in_month y m.

(** Whether the loop of [scrape_all_pages] goes round again after the page
    at hand: the page was fetched, gave licences, has a next link, and the
    counter stays within fifty. *)
Definition continues (fetch_page : string -> option Jamaica.Soup)
    (base_url : string) (st : Jamaica.Loop) : bool :=
  match fetch_page (Jamaica.page_url base_url (Jamaica.page_num st)) with
  | None => false
  | Some soup =>
      match Jamaica.scrape_table_data soup with
      | [] => false
      | _ => Jamaica.next_link soup && (Jamaica.page_num st + 1 <=? 50)
      end
  end.

(** Both coordinates are truthy and [float] converts them. *)
Definition convertible (longitude latitude : value) (x y : flt pyfloat) : Prop :=
  truthy longitude = true /\ truthy latitude = true
  /\ Ontario.py_float longitude = Ok x /\ Ontario.py_float latitude = Ok y.

(** The line printed when the page counter passes the limit. *)
Definition limit_line : string := "Reached maximum page limit (50), stopping.".

(** The URLs requested before the loop reaches page [n]: those of the pages
    1 to [n - 1]. *)
Definition requested_urls (base_url : string) (n : nat) : list string :=
  map (Jamaica.page_url base_url) (seq 1 (n - 1)).

(** [l] holds [m] as a run of consecutive characters. *)
Definition infix (m l : list ascii) : Prop := exists pre post, l = pre ++ m ++ post.

(** Neither end of [l] is white space. *)
Definition trimmed (l : list ascii) : Prop :=
  Py.lstrip_chars l = l /\ Py.lstrip_chars (rev l) = rev l.

(** The [", "]-join of the parts, or None when there is none. *)
Definition join_or_none (parts : list string) : option string :=
  match parts with
  | [] => None
  | _ => Some (Py.join ", " parts)
  end.

(** What a page contributes to the result of [scrape_all_pages]. *)
Definition page_licenses (fetch_page : string -> option Jamaica.Soup)
    (url : string) : list Doc :=
  match fetch_page url with
  | Some soup => Jamaica.scrape_table_data soup
  | None => []
  end.

(** [l] is [reference] with some elements left out. *)
Fixpoint subsequence (l reference : list string) : bool :=
  match l, reference with
  | [], _ => true
  | _ :: _, [] => false
  | x :: l', y :: reference' =>
      if String.eqb x y then subsequence l' reference'
      else subsequence l reference'
  end.

(** The ten decimal digits. *)
Definition decimal_digits : list ascii :=
  ["0"; "1"; "2"; "3"; "4"; "5"; "6"; "7"; "8"; "9"]%char.

(** The text is in the ASCII range, where [lower] and [upper] act on the
    letters A-Z and a-z alone. *)
Definition ascii_text (s : string) : bool :=
  forallb (fun c => Py.code c <? 128) (Py.chars s).

End Statements.

(* ===================================================================== *)
(** ** The driver loops *)
(* ===================================================================== *)

Section Drivers.
Context {R : PyRuntime}.

Lemma oks_app {A} (l1 l2 : list (Res A)) : oks (l1 ++ l2) = oks l1 ++ oks l2.
Proof.
  induction l1 as [|[a|e] l1 IH]; simpl; [reflexivity | f_equal; exact IH | exact IH].
Qed.

Lemma raises_app {A} (l1 l2 : list (Res A)) :
  raises (l1 ++ l2) = raises l1 + raises l2.
Proof.
  induction l1 as [|[a|e] l1 IH]; simpl; [reflexivity | exact IH | f_equal; exact IH].
Qed.

Lemma oks_length {A} (l : list (Res A)) : length (oks l) + raises l = length l.
Proof.
  induction l as [|[a|e] l IH]; simpl; lia.
Qed.

(** A loop without a gate collects the documents of the records whose
    transform returned, in order. *)
Lemma fold_step_plain {Rec} (t : Rec -> Res Doc) (rows : list Rec) (acc : list Doc) :
  fold_left (step_plain t) rows acc = acc ++ oks (map t rows).
Proof.
  revert acc. induction rows as [|r rows IH]; intros acc; simpl.
  - symmetry. apply app_nil_r.
  - rewrite IH. unfold step_plain. destruct (t r) as [d|e].
    + rewrite <- app_assoc. reflexivity.
    + reflexivity.
Qed.

(** A gated loop collects those of them that pass the gate, counts them,
    and counts the records whose transform raised. *)
Lemma fold_step_gated {Rec} (t : Rec -> Res Doc) (g : Doc -> bool)
    (rows : list Rec) (b : Batch) :
  fold_left (step_gated t g) rows b =
  mkBatch (documents b ++ filter g (oks (map t rows)))
          (processed_count b + length (filter g (oks (map t rows))))
          (error_count b + raises (map t rows)).
Proof.
  revert b. induction rows as [|r rows IH]; intros [ds pc ec]; simpl.
  - rewrite app_nil_r, !Nat.add_0_r. reflexivity.
  - rewrite IH. unfold step_gated. simpl. destruct (t r) as [d|e]; simpl.
    + destruct (g d); simpl.
      * rewrite <- app_assoc. simpl. f_equal. lia.
      * reflexivity.
    + f_equal. lia.
Qed.

Lemma filter_agree {A} (f g : A -> bool) (l : list A) :
  Forall (fun a => f a = g a) l -> filter f l = filter g l.
Proof.
  induction 1 as [|a l Ha _ IH]; simpl; [reflexivity|].
  rewrite Ha, IH. reflexivity.
Qed.

Lemma Forall_oks_map {Rec A} (t : Rec -> Res A) (P : A -> Prop) (rows : list Rec) :
  (forall r a, t r = Ok a -> P a) -> Forall P (oks (map t rows)).
Proof.
  intros H. induction rows as [|r rows IH]; simpl; [constructor|].
  destruct (t r) as [a|e] eqn:E; [constructor; eauto | exact IH].
Qed.

(** What the gates of Colorado and Michigan test on a document their
    transform built. *)
Lemma present_dopt (key : string) (o : option string) (d : Doc) :
  doc_get key d = Some (dopt o) -> present key d = otruthy o.
Proof.
  unfold present. intros ->. destruct o; reflexivity.
Qed.

Lemma doc_truthy_dopt (key : string) (o : option string) (d : Doc) :
  doc_get key d = Some (dopt o) -> doc_truthy key d = otruthy o.
Proof.
  unfold doc_truthy. intros ->. destruct o; reflexivity.
Qed.

Lemma colorado_gate_present now row d :
  Colorado.transform_row_to_schema now row = Ok d ->
  Colorado.gate d = present "business_name" d && present "license_number" d.
Proof.
  unfold Colorado.transform_row_to_schema. intros [= <-]. unfold Colorado.gate.
  erewrite !doc_truthy_dopt, !present_dopt by reflexivity. reflexivity.
Qed.

Lemma michigan_gate_present row d :
  Michigan.transform_row_to_schema row = Ok d ->
  Michigan.gate d = present "business_name" d && present "license_number" d.
Proof.
  unfold Michigan.transform_row_to_schema. intros [= <-]. unfold Michigan.gate.
  erewrite !doc_truthy_dopt, !present_dopt by reflexivity. reflexivity.
Qed.

Lemma ontario_gate_present record d :
  Ontario.transform_record_to_schema record = Ok d ->
  Ontario.gate d = present "business_name" d.
Proof.
  unfold Ontario.transform_record_to_schema, bind.
  destruct (Ontario.attributes_of record) as [attributes|]; [|discriminate].
  destruct (Ontario.coordinates_of _ _) as [coordinates|]; [|discriminate].
  intros [= <-]. unfold Ontario.gate.
  erewrite doc_truthy_dopt, present_dopt by reflexivity. reflexivity.
Qed.

Lemma federal_fold (rows : list (list string)) (acc : list Doc) :
  fold_left Federal.step rows acc =
  acc ++ oks (map Federal.row_document
                (filter (fun cells => 4 <=? length cells) rows)).
Proof.
  revert acc. induction rows as [|r rows IH]; intros acc; cbn [fold_left filter].
  - symmetry. apply app_nil_r.
  - rewrite IH. unfold Federal.step.
    destruct (Nat.ltb_spec (length r) 4) as [E|E];
      destruct (Nat.leb_spec 4 (length r)) as [E'|E']; try lia.
    + reflexivity.
    + cbn [map oks]. unfold step_plain. destruct (Federal.row_document r).
      * rewrite <- app_assoc. reflexivity.
      * reflexivity.
Qed.

Lemma jamaica_fold (rows : list (list string)) (acc : list Doc) :
  fold_left Jamaica.step rows acc =
  acc ++ oks (map Jamaica.row_document
                (filter (fun cells => 4 <=? length cells) rows)).
Proof.
  revert acc. induction rows as [|r rows IH]; intros acc; cbn [fold_left filter].
  - symmetry. apply app_nil_r.
  - rewrite IH. unfold Jamaica.step.
    destruct (4 <=? length r).
    + cbn [map oks]. unfold step_plain. destruct (Jamaica.row_document r).
      * rewrite <- app_assoc. reflexivity.
      * reflexivity.
    + reflexivity.
Qed.

Lemma colorado_batch load :
  Colorado.scrape_all_data load =
  filter (fun d => present "business_name" d && present "license_number" d)
    (oks (map (fun r => Colorado.transform_row_to_schema (fst r) (snd r))
              (records_of load))).
Proof.
  destruct load as [rows|]; simpl; [|reflexivity].
  unfold Colorado.scrape_batch. rewrite fold_step_gated. simpl.
  apply filter_agree.
  apply (Forall_oks_map (fun r => Colorado.transform_row_to_schema (fst r) (snd r))).
  intros r d. apply colorado_gate_present.
Qed.

Lemma michigan_batch load :
  Michigan.process_all_data load =
  filter (fun d => present "business_name" d && present "license_number" d)
    (oks (map Michigan.transform_row_to_schema (records_of load))).
Proof.
  destruct load as [rows|]; simpl; [|reflexivity].
  unfold Michigan.process_batch. rewrite fold_step_gated. simpl.
  apply filter_agree. apply Forall_oks_map. exact michigan_gate_present.
Qed.

Lemma ontario_batch load :
  Ontario.scrape_all_data load =
  filter (present "business_name")
    (oks (map Ontario.transform_record_to_schema (records_of load))).
Proof.
  destruct load as [rows|]; simpl; [|reflexivity].
  unfold Ontario.scrape_batch. rewrite fold_step_gated. simpl.
  apply filter_agree. apply Forall_oks_map. exact ontario_gate_present.
Qed.

Lemma alberta_batch load :
  Alberta.scrape_all_data load =
  oks (map Alberta.transform_row_to_schema (records_of load)).
Proof.
  destruct load as [rows|]; simpl; [|reflexivity].
  rewrite fold_step_plain. reflexivity.
Qed.

Lemma bc_batch load :
  BC.scrape_all_data load = oks (map BC.transform_row_to_schema (records_of load)).
Proof.
  destruct load as [rows|]; simpl; [|reflexivity].
  rewrite fold_step_plain. reflexivity.
Qed.

Lemma saskatchewan_batch load :
  Saskatchewan.scrape_all_data load =
  oks (map Saskatchewan.transform_row_to_schema (records_of load)).
Proof.
  destruct load as [rows|]; simpl; [|reflexivity].
  rewrite fold_step_plain. reflexivity.
Qed.

Lemma federal_batch table :
  Federal.scrape_table_data table =
  oks (map Federal.row_document
         (filter (fun cells => 4 <=? length cells) (records_of table))).
Proof.
  destruct table as [rows|];
    cbn [Federal.scrape_table_data records_of filter map oks]; [|reflexivity].
  rewrite federal_fold. reflexivity.
Qed.

Lemma jamaica_batch soup :
  Jamaica.scrape_table_data soup =
  oks (map Jamaica.row_document
         (filter (fun cells => 4 <=? length cells)
                 (tl (records_of (Jamaica.table_rows soup))))).
Proof.
  destruct soup as [trs next]. unfold Jamaica.scrape_table_data. simpl.
  destruct trs as [trs|]; cbn [records_of]; [|reflexivity].
  rewrite jamaica_fold. reflexivity.
Qed.

(** C1, as amended.  The batch a driver returns, per jurisdiction: Colorado
    and Michigan keep the successfully transformed documents in which both
    business_name and license_number are present, Ontario those in which
    business_name is present; Alberta, British Columbia, Saskatchewan,
    Federal and Jamaica have no completeness check and keep every
    successfully transformed document (Federal and Jamaica: of every table
    row with at least four cells). *)
Theorem C1_completeness_gates :
  (forall load,
     Colorado.scrape_all_data load =
     filter (fun d => present "business_name" d && present "license_number" d)
       (oks (map (fun r => Colorado.transform_row_to_schema (fst r) (snd r))
                 (records_of load))))
  /\ (forall load,
        Michigan.process_all_data load =
        filter (fun d => present "business_name" d && present "license_number" d)
          (oks (map Michigan.transform_row_to_schema (records_of load))))
  /\ (forall load,
        Ontario.scrape_all_data load =
        filter (present "business_name")
          (oks (map Ontario.transform_record_to_schema (records_of load))))
  /\ (forall load,
        Alberta.scrape_all_data load =
        oks (map Alberta.transform_row_to_schema (records_of load)))
  /\ (forall load,
        BC.scrape_all_data load =
        oks (map BC.transform_row_to_schema (records_of load)))
  /\ (forall load,
        Saskatchewan.scrape_all_data load =
        oks (map Saskatchewan.transform_row_to_schema (records_of load)))
  /\ (forall table,
        Federal.scrape_table_data table =
        oks (map Federal.row_document
               (filter (fun cells => 4 <=? length cells) (records_of table))))
  /\ (forall soup,
        Jamaica.scrape_table_data soup =
        oks (map Jamaica.row_document
               (filter (fun cells => 4 <=? length cells)
                       (tl (records_of (Jamaica.table_rows soup)))))).
Proof.
  repeat split.
  - exact colorado_batch.
  - exact michigan_batch.
  - exact ontario_batch.
  - exact alberta_batch.
  - exact bc_batch.
  - exact saskatchewan_batch.
  - exact federal_batch.
  - exact jamaica_batch.
Qed.

Lemma map_skip {A B} (t : A -> Res B) rows1 r rows2 e :
  t r = Raise e ->
  oks (map t (rows1 ++ r :: rows2)) = oks (map t (rows1 ++ rows2))
  /\ raises (map t (rows1 ++ r :: rows2)) = S (raises (map t (rows1 ++ rows2))).
Proof.
  intros E. rewrite !map_app, !oks_app, !raises_app. simpl. rewrite E.
  split; [reflexivity | lia].
Qed.

Lemma filter_length_le {A} (f : A -> bool) (l : list A) :
  length (filter f l) <= length l.
Proof.
  induction l as [|a l IH]; simpl; [lia|]. destruct (f a); simpl; lia.
Qed.

Lemma oks_map_length {A B} (t : A -> Res B) (rows : list A) :
  length (oks (map t rows)) <= length rows.
Proof.
  pose proof (oks_length (map t rows)) as H. rewrite length_map in H. lia.
Qed.


End Drivers.

(* ===================================================================== *)
(** ** The shape of the documents *)
(* ===================================================================== *)

Section Shape.
Context {R : PyRuntime}.

Lemma alberta_total row :
  exists d, Alberta.transform_row_to_schema row = Ok d
            /\ structurally_complete d = true.
Proof. eexists. split; reflexivity. Qed.

Lemma bc_total row :
  exists d, BC.transform_row_to_schema row = Ok d /\ structurally_complete d = true.
Proof. eexists. split; reflexivity. Qed.

Lemma colorado_total now row :
  exists d, Colorado.transform_row_to_schema now row = Ok d
            /\ structurally_complete d = true.
Proof. eexists. split; reflexivity. Qed.

Lemma michigan_total row :
  exists d, Michigan.transform_row_to_schema row = Ok d
            /\ structurally_complete d = true.
Proof. eexists. split; reflexivity. Qed.

Lemma federal_total cells :
  exists d, Federal.row_document cells = Ok d /\ structurally_complete d = true.
Proof. eexists. split; reflexivity. Qed.

Lemma jamaica_total cells :
  exists d, Jamaica.row_document cells = Ok d /\ structurally_complete d = true.
Proof. eexists. split; reflexivity. Qed.

Lemma saskatchewan_complete row d :
  Saskatchewan.transform_row_to_schema row = Ok d -> structurally_complete d = true.
Proof.
  unfold Saskatchewan.transform_row_to_schema, bind.
  destruct (Saskatchewan.clean_website_url _); [|discriminate].
  intros [= <-]. reflexivity.
Qed.

Lemma ontario_complete record d :
  Ontario.transform_record_to_schema record = Ok d -> structurally_complete d = true.
Proof.
  unfold Ontario.transform_record_to_schema, bind.
  destruct (Ontario.attributes_of record); [|discriminate].
  destruct (Ontario.coordinates_of _ _); [|discriminate].
  intros [= <-]. reflexivity.
Qed.

(** [clean_website_url] returns for None, nan, a falsy value and any str. *)
Lemma clean_website_url_returns (website : value) :
  is_str website || negb (truthy website) || isna website = true ->
  exists w, Saskatchewan.clean_website_url website = Ok w.
Proof.
  unfold Saskatchewan.clean_website_url.
  destruct (negb (truthy website) || isna website) eqn:E; [eauto|].
  destruct website; simpl in *; try discriminate;
    try (rewrite E; discriminate).
  - intros _. repeat match goal with |- context [if ?c then _ else _] => destruct c end; eauto.
Qed.

Lemma saskatchewan_total row :
  let website := row_get "Website" row in
  is_str website || negb (truthy website) || isna website = true ->
  exists d, Saskatchewan.transform_row_to_schema row = Ok d
            /\ structurally_complete d = true.
Proof.
  intros website H. destruct (clean_website_url_returns website H) as [w Hw].
  unfold Saskatchewan.transform_row_to_schema, bind. fold website. rewrite Hw.
  eexists. split; reflexivity.
Qed.

(** The conversions of the coordinates raise past their [try] only on an
    int that overflows. *)
Lemma coordinates_of_returns (longitude latitude : value) :
  int_overflows longitude = false -> int_overflows latitude = false ->
  exists c, Ontario.coordinates_of longitude latitude = Ok c.
Proof.
  intros Hx Hy. unfold Ontario.coordinates_of.
  destruct (truthy longitude && truthy latitude); [|eauto].
  assert (Hf : forall v, int_overflows v = false ->
                         (exists x, Ontario.py_float v = Ok x)
                         \/ Ontario.py_float v = Raise TypeError
                         \/ Ontario.py_float v = Raise ValueError).
  { intros v Hv. destruct v; simpl in *; eauto.
    - apply negb_false_iff in Hv. rewrite Hv. eauto.
    - destruct (float_of_str s); eauto. }
  destruct (Hf _ Hx) as [[x ->]|[->| ->]]; simpl; eauto.
  destruct (Hf _ Hy) as [[y ->]|[->| ->]]; simpl; eauto.
Qed.

Lemma ontario_total record attributes :
  Ontario.attributes_of record = Ok attributes ->
  int_overflows (row_get "Longitude" attributes) = false ->
  int_overflows (row_get "Latitude" attributes) = false ->
  exists d, Ontario.transform_record_to_schema record = Ok d
            /\ structurally_complete d = true.
Proof.
  intros Ha Hx Hy. destruct (coordinates_of_returns _ _ Hx Hy) as [c Hc].
  unfold Ontario.transform_record_to_schema, bind. rewrite Ha, Hc.
  eexists. split; reflexivity.
Qed.


End Shape.

(* ===================================================================== *)
(** ** Dependence on the clock *)
(* ===================================================================== *)

Section Clock.
Context {R : PyRuntime}.

(** The Colorado document with the status left open. *)
Lemma colorado_document (now : timestamp) (row : Row) :
  exists pre post,
    forall now',
      Colorado.transform_row_to_schema now' row =
      Ok (pre ++ ("license_status",
                  dstr (Colorado.get_license_status now'
                          (Colorado.clean_string (row_get "Date Updated" row))))
              :: post).
Proof.
  eexists (firstn 12 (match Colorado.transform_row_to_schema now row with
                      | Ok d => d | Raise _ => [] end)).
  eexists (skipn 13 (match Colorado.transform_row_to_schema now row with
                     | Ok d => d | Raise _ => [] end)).
  intros now'. reflexivity.
Qed.

Lemma doc_get_middle (k key : string) (pre post : Doc) (v w : docval) :
  k <> key -> doc_get k (pre ++ (key, v) :: post) = doc_get k (pre ++ (key, w) :: post).
Proof.
  intros Hk. induction pre as [|[k' v'] pre IH]; simpl.
  - destruct (String.eqb_spec key k); [congruence | reflexivity].
  - destruct (String.eqb k' k); [reflexivity | exact IH].
Qed.

Lemma colorado_status_only now1 now2 row d1 d2 k :
  Colorado.transform_row_to_schema now1 row = Ok d1 ->
  Colorado.transform_row_to_schema now2 row = Ok d2 ->
  k <> "license_status" ->
  doc_get k d1 = doc_get k d2.
Proof.
  destruct (colorado_document now1 row) as (pre & post & H).
  rewrite (H now1), (H now2).
  intros [= <-] [= <-] Hk. apply doc_get_middle. exact Hk.
Qed.

Lemma colorado_same_status now1 now2 row :
  Colorado.get_license_status now1 (Colorado.clean_string (row_get "Date Updated" row)) =
  Colorado.get_license_status now2 (Colorado.clean_string (row_get "Date Updated" row)) ->
  Colorado.transform_row_to_schema now1 row = Colorado.transform_row_to_schema now2 row.
Proof.
  intros H. unfold Colorado.transform_row_to_schema. rewrite H. reflexivity.
Qed.


End Clock.

(* ===================================================================== *)
(** ** Phone numbers *)
(* ===================================================================== *)

Section Phone.
Context {R : PyRuntime}.

Lemma chars_str_of (l : list ascii) : Py.chars (Py.str_of l) = l.
Proof. apply list_ascii_of_string_of_list_ascii. Qed.

Lemma str_of_chars (s : string) : Py.str_of (Py.chars s) = s.
Proof. apply string_of_list_ascii_of_string. Qed.

Lemma startswith_one (d : string) :
  Py.startswith "1" d = String.eqb (substring 0 1 d) "1".
Proof.
  destruct d as [|c d]; [reflexivity|].
  unfold Py.startswith. simpl. destruct d; simpl;
    destruct (Ascii.eqb_spec "1" c) as [<-|Hc]; simpl; try reflexivity;
    symmetry; apply not_true_is_false; rewrite andb_true_iff;
    intros [H _]; apply Ascii.eqb_eq in H; congruence.
Qed.

Lemma nonempty_length (d : string) : Py.nonempty d = (1 <=? String.length d).
Proof. destruct d; reflexivity. Qed.

(** The two formatted cases of the parsers are those of the rule. *)
Lemma phone_format (d : string) (rest : option string) :
  (if String.length d =? 10
   then Some ("(" ++ Py.slice 0 3 d ++ ") " ++ Py.slice 3 6 d ++ "-"
              ++ Py.slice_from 6 d)%string
   else if (String.length d =? 11) && Py.startswith "1" d
   then Some ("1-(" ++ Py.slice 1 4 d ++ ") " ++ Py.slice 4 7 d ++ "-"
              ++ Py.slice_from 7 d)%string
   else rest)
  =
  (if String.length d =? 10
   then Some ("(" ++ substring 0 3 d ++ ") " ++ substring 3 3 d
              ++ "-" ++ substring 6 4 d)%string
   else if (String.length d =? 11) && String.eqb (substring 0 1 d) "1"
   then Some ("1-(" ++ substring 1 3 d ++ ") " ++ substring 4 3 d
              ++ "-" ++ substring 7 4 d)%string
   else rest).
Proof.
  rewrite startswith_one. unfold Py.slice, Py.slice_from.
  destruct (Nat.eqb_spec (String.length d) 10) as [E|_].
  - rewrite E. reflexivity.
  - destruct (Nat.eqb_spec (String.length d) 11) as [E|_]; [|reflexivity].
    rewrite E. reflexivity.
Qed.

(** What is left of a falsy or missing value has no digits to speak of. *)
Lemma falsy_digits (v : value) :
  negb (truthy v) || isna v = true ->
  Py.digits_only (py_str v) = ""
  \/ (numeric_zero v = true
      /\ (Py.digits_only (py_str v) = "0" \/ Py.digits_only (py_str v) = "00")).
Proof.
  destruct v as [| |[|]|z|f|s|t]; simpl; try discriminate; auto.
  - rewrite orb_false_r, negb_involutive. intros H. right. split; [exact H|].
    apply Z.eqb_eq in H. subst z. left. reflexivity.
  - rewrite orb_false_r. intros H. right. split; [exact H|].
    apply negb_true_iff in H. right. apply float_zero_str. exact H.
  - destruct s; simpl; [auto | discriminate].
Qed.

Lemma colorado_phone (v : value) :
  Colorado.parse_phone_number v = phone_rule 7 (Py.digits_only (py_str v)).
Proof.
  unfold Colorado.parse_phone_number, phone_rule.
  destruct (negb (truthy v) || isna v) eqn:E.
  - destruct (falsy_digits v E) as [-> | [_ [-> | ->]]]; reflexivity.
  - destruct (Py.digits_only (py_str v)) as [|c d] eqn:D; [reflexivity|].
    cbn [Py.nonempty negb]. apply phone_format.
Qed.

Lemma alberta_phone (v : value) :
  numeric_zero v = false ->
  Alberta.parse_phone_number v = phone_rule 1 (Py.digits_only (py_str v)).
Proof.
  intros Hz. unfold Alberta.parse_phone_number, phone_rule.
  destruct (negb (truthy v) || isna v) eqn:E.
  - destruct (falsy_digits v E) as [-> | [Hz' _]]; [reflexivity | congruence].
  - rewrite nonempty_length. apply phone_format.
Qed.

Lemma bc_phone (v : value) :
  numeric_zero v = false ->
  BC.parse_phone_number v = phone_rule 1 (Py.digits_only (py_str v)).
Proof.
  intros Hz. unfold BC.parse_phone_number, phone_rule.
  destruct (negb (truthy v) || isna v) eqn:E.
  - destruct (falsy_digits v E) as [-> | [Hz' _]]; [reflexivity | congruence].
  - rewrite nonempty_length. apply phone_format.
Qed.

Lemma federal_phone (s : string) :
  Federal.clean_phone_number s = phone_rule 1 (Py.digits_only s).
Proof.
  unfold Federal.clean_phone_number, phone_rule.
  destruct (negb (Py.nonempty s) || Py.mem (Py.lower s) ["n/a"; "none"]) eqn:E.
  - apply orb_true_iff in E as [E|E].
    + destruct s; [reflexivity | discriminate].
    + assert (Hd : Py.digits_only s = "").
      { unfold Py.mem in E. simpl in E. rewrite orb_false_r in E.
        unfold Py.digits_only.
        assert (Hl : forall l, filter Py.is_digit (map Py.lower_char l) = []
                               -> filter Py.is_digit l = []).
        { induction l as [|c l IH]; simpl; [reflexivity|].
          unfold Py.lower_char at 1.
          destruct (Py.is_upper c) eqn:U.
          - destruct (Py.is_digit (ascii_of_nat (Py.code c + 32))); [discriminate|].
            intros H. rewrite (IH H).
            destruct (Py.is_digit c) eqn:Dg; [|reflexivity].
            unfold Py.is_upper, Py.is_digit in *.
            apply andb_true_iff in U as [U1 _]. apply andb_true_iff in Dg as [_ D2].
            apply Nat.leb_le in U1, D2. lia.
          - destruct (Py.is_digit c); [discriminate|]. exact IH. }
        rewrite Hl; [reflexivity|].
        apply orb_true_iff in E as [E|E]; apply String.eqb_eq in E;
          unfold Py.lower in E;
          apply (f_equal Py.chars) in E; rewrite chars_str_of in E;
          rewrite E; reflexivity. }
      rewrite Hd. reflexivity.
  - rewrite nonempty_length. apply phone_format.
Qed.


End Phone.

(* ===================================================================== *)
(** ** Dates *)
(* ===================================================================== *)

Section Dates.
Context {R : PyRuntime}.

Lemma digit_val_le (c : ascii) : Py.is_digit c = true -> Federal.digit_val c <= 9.
Proof.
  unfold Py.is_digit, Federal.digit_val. intros H.
  apply andb_true_iff in H as [_ H]. apply Nat.leb_le in H. lia.
Qed.

Ltac alts_cases H :=
  repeat match type of H with
         | context [match ?l with [] => _ | _ :: _ => _ end] =>
             destruct l; cbn [app In] in H
         | context [if ?c then _ else _] => destruct c eqn:?; cbn [app In] in H
         end;
  repeat match goal with
         | E : _ && _ = true |- _ => apply andb_true_iff in E as [? ?]
         | E : (_ <=? _) = true |- _ => apply Nat.leb_le in E
         | E : Py.is_digit _ = true |- _ => apply digit_val_le in E
         end;
  repeat match goal with
         | H' : _ \/ _ |- _ => destruct H' as [H'|H']
         | H' : False |- _ => destruct H'
         | H' : (_, _) = (_, _) |- _ => injection H' as <- <-
         end.

Lemma month_alts_range (l : list ascii) (m : nat) (r : list ascii) :
  In (m, r) (Federal.month_alts l) -> 1 <= m <= 12.
Proof.
  unfold Federal.month_alts. intros H. alts_cases H; lia.
Qed.

Lemma day_alts_range (l : list ascii) (d : nat) (r : list ascii) :
  In (d, r) (Federal.day_alts l) -> 1 <= d.
Proof.
  unfold Federal.day_alts. intros H. alts_cases H; lia.
Qed.

(** What [strptime] accepts is a date of the calendar. *)
Lemma strptime_ymd_date (l : list ascii) (d : nat * nat * nat) :
  Federal.strptime_ymd l = Some d -> calendar_date d.
Proof.
  unfold Federal.strptime_ymd.
  destruct l as [|y1 [|y2 [|y3 [|y4 [|h1 r1]]]]]; try discriminate.
  destruct (Py.is_digit y1 && Py.is_digit y2 && Py.is_digit y3 && Py.is_digit y4
            && Ascii.eqb h1 "-") eqn:E; [|discriminate].
  apply andb_true_iff in E as [E _].
  apply andb_true_iff in E as [E D4]. apply andb_true_iff in E as [E D3].
  apply andb_true_iff in E as [D1 D2].
  apply digit_val_le in D1, D2, D3, D4.
  remember (1000 * Federal.digit_val y1 + 100 * Federal.digit_val y2
            + 10 * Federal.digit_val y3 + Federal.digit_val y4) as year eqn:Hy.
  assert (Hyear : year <= 9 * 1111) by lia. clear Hy.
  set (cands := flat_map _ (Federal.month_alts r1)).
  assert (Hc : forall m dd rest, In (m, dd, rest) cands -> 1 <= m <= 12 /\ 1 <= dd).
  { intros m dd rest Hin. unfold cands in Hin.
    apply in_flat_map in Hin as ([m' r'] & Hm & Hin). simpl in Hin.
    destruct r' as [|h2 r2]; [destruct Hin|].
    destruct (Ascii.eqb h2 "-"); [|destruct Hin].
    apply in_map_iff in Hin as ([d' r3] & [= <- <- <-] & Hd).
    split; [eapply month_alts_range | eapply day_alts_range]; eassumption. }
  destruct cands as [|[[m dd] rest] cands']; [discriminate|].
  destruct (Hc m dd rest (or_introl eq_refl)) as [Hm Hd].
  destruct rest; [|discriminate].
  destruct ((1 <=? year) && (dd <=? Federal.days_in_month year m)) eqn:Ev;
    [|discriminate].
  intros Heq. injection Heq as <-. apply andb_true_iff in Ev as [Ey Ed].
  apply Nat.leb_le in Ey, Ed.
  unfold calendar_date. repeat split; try assumption; apply Hm.
Qed.

Lemma colorado_date (v : value) :
  Colorado.parse_date v =
  if isna v || negb (truthy v) then None
  else match pandas_parse v with
       | DtStamp t => Some (ts_isoformat t)
       | _ => None
       end.
Proof.
  unfold Colorado.parse_date, pandas_parse.
  destruct (isna v || negb (truthy v)); [reflexivity|].
  destruct (if is_str v then _ else _); reflexivity.
Qed.

Lemma ontario_date (v : value) :
  Ontario.parse_date v =
  if negb (truthy v) || Ontario.in_null_words v then None
  else match pandas_parse v with
       | DtStamp t => Some (ts_isoformat t)
       | _ => None
       end.
Proof.
  unfold Ontario.parse_date, pandas_parse.
  destruct (negb (truthy v) || Ontario.in_null_words v); [reflexivity|].
  destruct (if is_str v then _ else _); reflexivity.
Qed.

Lemma jamaica_date (v : value) :
  Jamaica.parse_date v =
  if negb (truthy v) || isna v then None
  else match to_datetime_coerce v with
       | DtStamp t => Some (ts_isoformat t)
       | _ => None
       end.
Proof.
  unfold Jamaica.parse_date.
  destruct (negb (truthy v) || isna v); [reflexivity|].
  destruct (to_datetime_coerce v); reflexivity.
Qed.

Lemma michigan_date (v : value) :
  Michigan.parse_date v =
  if isna v || negb (truthy v) then None
  else match pandas_parse v with
       | DtStamp t => Some (to_pydatetime t)
       | _ => None
       end.
Proof.
  unfold Michigan.parse_date, pandas_parse.
  destruct (isna v || negb (truthy v)); [reflexivity|].
  destruct (if is_str v then _ else _); reflexivity.
Qed.

Lemma alberta_date :
  (forall v, isna v = true -> Alberta.parse_date v = None)
  /\ (forall v t, isna v = false -> to_datetime v = DtStamp t ->
                  Alberta.parse_date v = Some (ts_isoformat t))
  /\ (forall v, to_datetime v = DtRaise \/ to_datetime v = DtNone ->
                Alberta.parse_date v = None).
Proof.
  unfold Alberta.parse_date. repeat split.
  - intros v ->. reflexivity.
  - intros v t -> ->. reflexivity.
  - intros v [-> | ->]; destruct (isna v); reflexivity.
Qed.

Lemma saskatchewan_date :
  (forall v, isna v = true -> Saskatchewan.parse_date v = None)
  /\ (forall v t, isna v = false -> to_datetime v = DtStamp t ->
                  Saskatchewan.parse_date v = Some (ts_isoformat t))
  /\ (forall v, to_datetime v = DtRaise \/ to_datetime v = DtNone ->
                Saskatchewan.parse_date v = None).
Proof.
  unfold Saskatchewan.parse_date. repeat split.
  - intros v ->. reflexivity.
  - intros v t -> ->. reflexivity.
  - intros v [-> | ->]; destruct (isna v); reflexivity.
Qed.

Lemma michigan_expiration row d exp :
  Michigan.transform_row_to_schema row = Ok d ->
  doc_get "expiration_date" d = Some exp ->
  exp = DVal PNone \/ exists t, exp = DVal (PTime t).
Proof.
  unfold Michigan.transform_row_to_schema. intros [= <-].
  cbn [doc_get String.eqb Ascii.eqb Bool.eqb]. intros [= <-].
  destruct (Michigan.parse_date _); eauto.
Qed.

Lemma federal_date_accepts (s r : string) :
  Federal.parse_date s = Some r ->
  Federal.ymd_prefix (Py.chars s) = true
  /\ exists d, Federal.strptime_ymd (Py.chars s) = Some d
               /\ calendar_date d /\ r = Federal.isoformat_midnight d.
Proof.
  unfold Federal.parse_date.
  destruct (negb (Py.nonempty s) || _); [discriminate|].
  destruct (Federal.ymd_prefix _); [|discriminate].
  destruct (Federal.strptime_ymd _) as [d|] eqn:E; [|discriminate].
  intros [= <-]. split; [reflexivity|]. exists d.
  repeat split. eapply strptime_ymd_date; eassumption.
Qed.


End Dates.

(* ===================================================================== *)
(** ** Classification of the licence type *)
(* ===================================================================== *)

Section Classification.
Context {R : PyRuntime}.

Lemma any_in_two (a b text : string) :
  Py.contains a text || Py.contains b text = Py.any_in [a; b] text.
Proof. unfold Py.any_in. simpl. rewrite orb_false_r. reflexivity. Qed.

Lemma any_in_one (a text : string) : Py.contains a text = Py.any_in [a] text.
Proof. unfold Py.any_in. simpl. rewrite orb_false_r. reflexivity. Qed.

Ltac rule_chain :=
  cbn [find snd fst];
  repeat match goal with
         | |- context [if Py.any_in ?w ?t then _ else _] => destruct (Py.any_in w t)
         end;
  reflexivity.

Lemma alberta_rules (name : option string) :
  Alberta.determine_license_type name =
  if otruthy name
  then first_match alberta_groups "other" (Py.lower (oget name))
  else "other".
Proof.
  unfold Alberta.determine_license_type, first_match, alberta_groups.
  destruct (otruthy name); cbn [negb]; [|reflexivity]. rule_chain.
Qed.

Lemma colorado_rules (facility_type dba : option string) :
  Colorado.determine_license_type facility_type dba =
  first_match colorado_groups "other"
    (Py.lower (Colorado.or_empty facility_type ++ " " ++ Colorado.or_empty dba)).
Proof.
  unfold Colorado.determine_license_type, first_match, colorado_groups,
    Colorado.or_empty.
  rewrite any_in_two, (any_in_one "medical marijuana"),
    (any_in_one "optional premises").
  destruct (otruthy facility_type), (otruthy dba); cbn [negb]; rule_chain.
Qed.

Lemma michigan_rules (record_type : option string) :
  Michigan.determine_license_type record_type =
  if otruthy record_type
  then first_match michigan_groups "other" (Py.lower (oget record_type))
  else "other".
Proof.
  unfold Michigan.determine_license_type, first_match, michigan_groups.
  destruct (otruthy record_type); cbn [negb]; [|reflexivity].
  rewrite !any_in_two, (any_in_one "entity"), (any_in_one "secure transport").
  rule_chain.
Qed.

Lemma bc_rules (name : option string) :
  BC.determine_license_type name =
  if otruthy name
  then first_match bc_groups "retail" (Py.lower (oget name))
  else "retail".
Proof.
  unfold BC.determine_license_type, first_match, bc_groups.
  destruct (otruthy name); cbn [negb]; [|reflexivity]. rule_chain.
Qed.

Lemma ontario_rules (name : option string) :
  Ontario.determine_license_type name =
  if otruthy name
  then first_match ontario_groups "retail" (Py.lower (oget name))
  else "retail".
Proof.
  unfold Ontario.determine_license_type, first_match, ontario_groups.
  destruct (otruthy name); cbn [negb]; [|reflexivity]. rule_chain.
Qed.

Lemma saskatchewan_rules (name : option string) :
  Saskatchewan.determine_license_type_from_name name = "retail".
Proof.
  unfold Saskatchewan.determine_license_type_from_name.
  repeat match goal with |- context [if ?c then _ else _] => destruct c end;
    reflexivity.
Qed.

(** First match wins: a group none of whose predecessors matches decides. *)
Lemma first_match_priority (before after : list (string * list string))
    (category : string) (keywords : list string) (default text : string) :
  Forall (fun g => Py.any_in (snd g) text = false) before ->
  Py.any_in keywords text = true ->
  first_match (before ++ (category, keywords) :: after) default text = category.
Proof.
  intros Hb Hk. unfold first_match.
  induction Hb as [|g before Hg _ IH]; simpl.
  - rewrite Hk. reflexivity.
  - rewrite Hg. exact IH.
Qed.

Lemma first_match_default (groups : list (string * list string))
    (default text : string) :
  Forall (fun g => Py.any_in (snd g) text = false) groups ->
  first_match groups default text = default.
Proof.
  intros H. unfold first_match. induction H as [|g groups Hg _ IH]; simpl.
  - reflexivity.
  - rewrite Hg. exact IH.
Qed.

(** C7, as amended.  Each classifier is its own ordered rule table read
    first match first, with its own default: "other" in Alberta, Colorado
    and Michigan, "retail" in British Columbia, Ontario and Saskatchewan.
    In a table the first group with a keyword in the text decides, whatever
    later groups contain.  Alberta and Colorado put cultivation before
    retail; Michigan puts retail first, before processing and cultivation. *)
Theorem C7_classification_order :
  (forall name,
     Alberta.determine_license_type name =
     if otruthy name
     then first_match alberta_groups "other" (Py.lower (oget name))
     else "other")
  /\ (forall facility_type dba,
        Colorado.determine_license_type facility_type dba =
        first_match colorado_groups "other"
          (Py.lower (Colorado.or_empty facility_type ++ " "
                     ++ Colorado.or_empty dba)))
  /\ (forall record_type,
        Michigan.determine_license_type record_type =
        if otruthy record_type
        then first_match michigan_groups "other" (Py.lower (oget record_type))
        else "other")
  /\ (forall name,
        BC.determine_license_type name =
        if otruthy name
        then first_match bc_groups "retail" (Py.lower (oget name))
        else "retail")
  /\ (forall name,
        Ontario.determine_license_type name =
        if otruthy name
        then first_match ontario_groups "retail" (Py.lower (oget name))
        else "retail")
  /\ (forall name, Saskatchewan.determine_license_type_from_name name = "retail")
  /\ (forall before after category keywords default text,
        Forall (fun g => Py.any_in (snd g) text = false) before ->
        Py.any_in keywords text = true ->
        first_match (before ++ (category, keywords) :: after) default text
        = category)
  /\ (forall groups default text,
        Forall (fun g => Py.any_in (snd g) text = false) groups ->
        first_match groups default text = default)
  /\ (rank "cultivation" alberta_groups = Some 0
      /\ rank "retail" alberta_groups = Some 1)
  /\ (rank "cultivation" colorado_groups = Some 0
      /\ rank "retail" colorado_groups = Some 1)
  /\ (rank "retail" michigan_groups = Some 0
      /\ rank "cultivation" michigan_groups = Some 2).
Proof.
  split; [exact alberta_rules|].
  split; [exact colorado_rules|].
  split; [exact michigan_rules|].
  split; [exact bc_rules|].
  split; [exact ontario_rules|].
  split; [exact saskatchewan_rules|].
  split; [exact first_match_priority|].
  split; [exact first_match_default|].
  repeat split.
Qed.

End Classification.

(* ===================================================================== *)
(** ** Postal codes *)
(* ===================================================================== *)

Section Postal.
Context {R : PyRuntime}.

Lemma postal_at_shape (l m : list ascii) :
  Alberta.postal_at l = Some m ->
  postal_shape m = true /\ exists rest, l = m ++ rest.
Proof.
  unfold Alberta.postal_at.
  destruct l as [|a [|b [|c rest]]]; try discriminate.
  destruct (Py.is_letter a && Py.is_digit b && Py.is_letter c) eqn:E; [|discriminate].
  assert (Ht : forall m,
             match rest with
             | d :: e :: f :: _ =>
                 if Py.is_digit d && Py.is_letter e && Py.is_digit f
                 then Some [a; b; c; d; e; f] else None
             | _ => None
             end = Some m ->
             postal_shape m = true /\ exists rest', a :: b :: c :: rest = m ++ rest').
  { intros m0. destruct rest as [|d [|e [|f rest']]]; try discriminate.
    destruct (Py.is_digit d && Py.is_letter e && Py.is_digit f) eqn:E'; [|discriminate].
    intros [= <-]. split; [|exists rest'; reflexivity].
    unfold postal_shape.
    apply andb_true_iff in E as [E Hc]. apply andb_true_iff in E as [Ha Hb].
    apply andb_true_iff in E' as [E' Hf]. apply andb_true_iff in E' as [Hd He].
    rewrite Ha, Hb, Hc, Hd, He, Hf. reflexivity. }
  destruct rest as [|w [|d [|e [|f rest']]]]; try (apply Ht).
  destruct (Py.is_space w && Py.is_digit d && Py.is_letter e && Py.is_digit f) eqn:E';
    [|apply Ht].
  intros [= <-]. split; [|exists rest'; reflexivity].
  unfold postal_shape.
  apply andb_true_iff in E as [E Hc]. apply andb_true_iff in E as [Ha Hb].
  apply andb_true_iff in E' as [E' Hf]. apply andb_true_iff in E' as [E' He].
  apply andb_true_iff in E' as [Hw Hd].
  rewrite Ha, Hb, Hc, Hw, Hd, He, Hf. reflexivity.
Qed.

Lemma postal_at_complete (m rest : list ascii) :
  postal_shape m = true -> exists m', Alberta.postal_at (m ++ rest) = Some m'.
Proof.
  unfold postal_shape.
  destruct m as [|a [|b [|c [|d [|e [|f [|g [|h m]]]]]]]]; try discriminate.
  - intros E.
    apply andb_true_iff in E as [E Hf]. apply andb_true_iff in E as [E He].
    apply andb_true_iff in E as [E Hd]. apply andb_true_iff in E as [E Hc].
    apply andb_true_iff in E as [Ha Hb].
    unfold Alberta.postal_at. cbn [app]. rewrite Ha, Hb, Hc, Hd, He, Hf.
    cbn [andb]. destruct rest as [|x rest]; [eauto|].
    destruct (Py.is_space d && Py.is_digit e && Py.is_letter f && Py.is_digit x);
      eauto.
  - intros E.
    apply andb_true_iff in E as [E Hg]. apply andb_true_iff in E as [E Hf].
    apply andb_true_iff in E as [E He]. apply andb_true_iff in E as [E Hd].
    apply andb_true_iff in E as [E Hc]. apply andb_true_iff in E as [Ha Hb].
    unfold Alberta.postal_at. cbn [app]. rewrite Ha, Hb, Hc, Hd, He, Hf, Hg.
    cbn [andb]. eauto.
Qed.

Lemma postal_search_eq (l : list ascii) :
  Alberta.postal_search l =
  match Alberta.postal_at l with
  | Some m => Some m
  | None => match l with
            | [] => None
            | _ :: l' => Alberta.postal_search l'
            end
  end.
Proof. destruct l; reflexivity. Qed.

(** [re.search] finds an occurrence of the pattern, the leftmost one. *)
Lemma postal_search_sound (l m : list ascii) :
  Alberta.postal_search l = Some m ->
  exists pre post,
    l = pre ++ m ++ post
    /\ postal_shape m = true
    /\ forall pre' m' post',
         l = pre' ++ m' ++ post' -> postal_shape m' = true ->
         length pre <= length pre'.
Proof.
  induction l as [|c l IH]; rewrite postal_search_eq.
  - discriminate.
  - destruct (Alberta.postal_at (c :: l)) as [m0|] eqn:E.
    + intros [= <-]. apply postal_at_shape in E as [Hs [rest Hr]].
      exists [], rest. simpl. repeat split; [exact Hr | exact Hs |].
      intros. lia.
    + intros Hl. destruct (IH Hl) as (pre & post & -> & Hs & Hleft).
      exists (c :: pre), post. repeat split; [exact Hs|].
      intros pre' m' post' Heq Hs'. destruct pre' as [|c' pre'].
      * simpl in Heq. destruct (postal_at_complete m' post' Hs') as [m'' Hm''].
        rewrite <- Heq in Hm''. congruence.
      * simpl in Heq. injection Heq as _ Heq. simpl.
        apply le_n_S. eapply Hleft; eassumption.
Qed.

Lemma postal_search_complete (l : list ascii) :
  Alberta.postal_search l = None ->
  forall pre m post, l = pre ++ m ++ post -> postal_shape m = false.
Proof.
  induction l as [|c l IH]; rewrite postal_search_eq.
  - intros _ pre m post H. symmetry in H.
    apply app_eq_nil in H as [_ H]. apply app_eq_nil in H as [-> _]. reflexivity.
  - destruct (Alberta.postal_at (c :: l)) as [m0|] eqn:E; [discriminate|].
    intros Hl pre m post Heq.
    destruct (postal_shape m) eqn:Hs; [|reflexivity].
    destruct pre as [|c' pre].
    + simpl in Heq. destruct (postal_at_complete m post Hs) as [m' Hm'].
      rewrite <- Heq in Hm'. congruence.
    + simpl in Heq. injection Heq as _ Heq.
      rewrite (IH Hl pre m post Heq) in Hs. discriminate.
Qed.

Lemma alberta_postal_some (address site_postal : value) (r : string) :
  Alberta.extract_postal_code address site_postal = Some r ->
  (truthy site_postal = true /\ Py.nonempty r = true
   /\ r = Py.strip (py_str site_postal))
  \/ (truthy site_postal && Py.nonempty (Py.strip (py_str site_postal)) = false
      /\ truthy address = true
      /\ exists pre m post,
           Py.chars (py_str address) = pre ++ m ++ post
           /\ postal_shape m = true
           /\ (forall pre' m' post',
                 Py.chars (py_str address) = pre' ++ m' ++ post' ->
                 postal_shape m' = true -> length pre <= length pre')
           /\ r = Py.upper (Py.str_of m)).
Proof.
  unfold Alberta.extract_postal_code.
  destruct (truthy site_postal && Py.nonempty (Py.strip (py_str site_postal))) eqn:E.
  - intros [= <-]. left. apply andb_true_iff in E as [Ht Hn]. auto.
  - destruct (truthy address) eqn:Ha; [|discriminate].
    destruct (Alberta.postal_search _) as [m|] eqn:Hs; [|discriminate].
    intros [= <-]. right. repeat split.
    apply postal_search_sound in Hs as (pre & post & Hl & Hshape & Hleft).
    exists pre, m, post. auto.
Qed.

Lemma alberta_postal_none (address site_postal : value) :
  Alberta.extract_postal_code address site_postal = None ->
  truthy site_postal && Py.nonempty (Py.strip (py_str site_postal)) = false
  /\ (truthy address = false
      \/ forall pre m post,
           Py.chars (py_str address) = pre ++ m ++ post -> postal_shape m = false).
Proof.
  unfold Alberta.extract_postal_code.
  destruct (truthy site_postal && Py.nonempty (Py.strip (py_str site_postal)));
    [discriminate|].
  destruct (truthy address); [|auto].
  destruct (Alberta.postal_search _) as [m|] eqn:Hs; [discriminate|].
  intros _. split; [reflexivity|]. right. apply postal_search_complete. exact Hs.
Qed.

Lemma bc_postal (postal_value : value) :
  BC.extract_postal_code postal_value =
  if negb (truthy postal_value) || isna postal_value then None
  else
    let postal := Py.upper (Py.strip (py_str postal_value)) in
    if String.length postal =? 6
    then Some (substring 0 3 postal ++ " " ++ substring 3 3 postal)%string
    else if Py.nonempty postal then Some postal else None.
Proof.
  unfold BC.extract_postal_code.
  destruct (negb (truthy postal_value) || isna postal_value); [reflexivity|].
  cbv zeta. unfold Py.slice, Py.slice_from.
  generalize (Py.upper (Py.strip (py_str postal_value))). intros postal.
  destruct (Nat.eqb_spec (String.length postal) 6) as [E|_].
  - rewrite E. reflexivity.
  - destruct postal; [reflexivity|].
    destruct (_ && _); reflexivity.
Qed.

(** C8, as amended.  Alberta's [extract_postal_code] returns the trimmed
    explicit field when that is non-empty; otherwise the leftmost occurrence
    of the pattern in the address, uppercased and with the separator as it
    stands in the address (none, or the one white-space character); and
    absent exactly when the explicit field gives nothing and the address is
    empty or holds no occurrence.  British Columbia's variant reads the
    explicit field only: trimmed and uppercased, with a space put after the
    third character when six characters remain. *)
Theorem C8_postal_extraction :
  (forall address site_postal r,
     Alberta.extract_postal_code address site_postal = Some r ->
     (truthy site_postal = true /\ Py.nonempty r = true
      /\ r = Py.strip (py_str site_postal))
     \/ (truthy site_postal && Py.nonempty (Py.strip (py_str site_postal)) = false
         /\ truthy address = true
         /\ exists pre m post,
              Py.chars (py_str address) = pre ++ m ++ post
              /\ postal_shape m = true
              /\ (forall pre' m' post',
                    Py.chars (py_str address) = pre' ++ m' ++ post' ->
                    postal_shape m' = true -> length pre <= length pre')
              /\ r = Py.upper (Py.str_of m)))
  /\ (forall address site_postal,
        Alberta.extract_postal_code address site_postal = None ->
        truthy site_postal && Py.nonempty (Py.strip (py_str site_postal)) = false
        /\ (truthy address = false
            \/ forall pre m post,
                 Py.chars (py_str address) = pre ++ m ++ post ->
                 postal_shape m = false))
  /\ (forall address site_postal,
        truthy site_postal = true ->
        Py.nonempty (Py.strip (py_str site_postal)) = true ->
        Alberta.extract_postal_code address site_postal
        = Some (Py.strip (py_str site_postal)))
  /\ (forall postal_value,
        BC.extract_postal_code postal_value =
        if negb (truthy postal_value) || isna postal_value then None
        else
          let postal := Py.upper (Py.strip (py_str postal_value)) in
          if String.length postal =? 6
          then Some (substring 0 3 postal ++ " " ++ substring 3 3 postal)%string
          else if Py.nonempty postal then Some postal else None)
  /\ Alberta.extract_postal_code (PStr "123 Main St, Calgary T2P 1J9") PNone
     = Some "T2P 1J9".
Proof.
  split; [exact alberta_postal_some|].
  split; [exact alberta_postal_none|].
  split.
  { intros address site_postal Ht Hn. unfold Alberta.extract_postal_code.
    rewrite Ht, Hn. reflexivity. }
  split; [exact bc_postal|].
  reflexivity.
Qed.

End Postal.

(* ===================================================================== *)
(** ** The page loop of the Jamaica scraper *)
(* ===================================================================== *)

Section Pagination.
Context {R : PyRuntime}.
Variable fetch_page : string -> option Jamaica.Soup.
Variable base_url : string.

#[local] Abbreviation body := (Jamaica.loop_body fetch_page base_url).
#[local] Abbreviation run := (Jamaica.run fetch_page base_url).
#[local] Abbreviation url := (Jamaica.page_url base_url).
#[local] Abbreviation requested := (requested_urls base_url).

Lemma last_snoc {A} (l : list A) (a d : A) : last (l ++ [a]) d = a.
Proof.
  induction l as [|b l IH]; [reflexivity|].
  simpl. destruct (l ++ [a]) eqn:E; [|exact IH].
  destruct l; discriminate.
Qed.

Lemma body_again st st' :
  body st = inl st' ->
  continues fetch_page base_url st = true
  /\ Jamaica.page_num st' = Jamaica.page_num st + 1
  /\ Jamaica.page_num st' <= 50
  /\ Jamaica.fetched st' = Jamaica.fetched st ++ [url (Jamaica.page_num st)].
Proof.
  unfold Jamaica.loop_body, continues.
  destruct (fetch_page _) as [soup|]; [|discriminate].
  destruct (Jamaica.scrape_table_data soup) as [|d ds]; [discriminate|].
  destruct (Jamaica.next_link soup); cbn [negb andb]; [|discriminate].
  destruct (Nat.ltb_spec 50 (Jamaica.page_num st + 1)) as [H|H]; [discriminate|].
  intros [= <-]. cbn [Jamaica.page_num Jamaica.fetched].
  destruct (Nat.leb_spec (Jamaica.page_num st + 1) 50); [auto | lia].
Qed.

Lemma body_break st final :
  body st = inr final ->
  continues fetch_page base_url st = false
  /\ Jamaica.fetched final = Jamaica.fetched st ++ [url (Jamaica.page_num st)]
  /\ (Jamaica.page_num final = Jamaica.page_num st
      \/ (Jamaica.page_num final = Jamaica.page_num st + 1
          /\ 50 < Jamaica.page_num final
          /\ last (Jamaica.printed final) "" = limit_line)).
Proof.
  unfold Jamaica.loop_body, continues.
  destruct (fetch_page _) as [soup|]; [|intros [= <-]; auto].
  destruct (Jamaica.scrape_table_data soup) as [|d ds]; [intros [= <-]; auto|].
  destruct (Jamaica.next_link soup); cbn [negb andb]; [|intros [= <-]; auto].
  destruct (Nat.ltb_spec 50 (Jamaica.page_num st + 1)) as [H|H]; [|discriminate].
  intros [= <-]. cbn [Jamaica.page_num Jamaica.fetched Jamaica.printed].
  destruct (Nat.leb_spec (Jamaica.page_num st + 1) 50); [lia|].
  repeat split. right. repeat split; [exact H|]. apply last_snoc.
Qed.

Lemma body_cases st :
  (exists st', body st = inl st') \/ (exists final, body st = inr final).
Proof. destruct (body st); eauto. Qed.

Lemma requested_next (n : nat) :
  1 <= n -> requested n ++ [url n] = requested (n + 1).
Proof.
  intros Hn. unfold requested_urls.
  replace (n + 1 - 1) with (n - 1 + 1) by lia.
  rewrite seq_app, map_app. cbn [seq map].
  replace (1 + (n - 1)) with n by lia. reflexivity.
Qed.

(** From a state at page [n] with the pages before it requested, the loop
    is left within [51 - n] turns. *)
Lemma run_terminates (k : nat) :
  forall st,
    1 <= Jamaica.page_num st ->
    Jamaica.page_num st + k = 50 ->
    Jamaica.fetched st = requested (Jamaica.page_num st) ->
    exists final,
      (forall fuel, S k <= fuel -> run fuel st = Some final)
      /\ Jamaica.fetched final = requested (length (Jamaica.fetched final) + 1)
      /\ length (Jamaica.fetched final) <= 50
      /\ (50 < Jamaica.page_num final ->
          last (Jamaica.printed final) "" = limit_line).
Proof.
  assert (Hstop : forall st final,
             1 <= Jamaica.page_num st <= 50 ->
             Jamaica.fetched st = requested (Jamaica.page_num st) ->
             body st = inr final ->
             Jamaica.fetched final = requested (length (Jamaica.fetched final) + 1)
             /\ length (Jamaica.fetched final) <= 50
             /\ (50 < Jamaica.page_num final ->
                 last (Jamaica.printed final) "" = limit_line)).
  { intros st final Hlo Hreq Hb.
    assert (Hlen : length (requested (Jamaica.page_num st + 1)) = Jamaica.page_num st).
    { unfold requested_urls. rewrite length_map, length_seq. lia. }
    pose proof (body_break _ _ Hb) as (_ & H3 & H4).
    rewrite H3, Hreq, requested_next by lia. rewrite Hlen.
    repeat split; [lia|].
    intros Hp. destruct H4 as [H4|(_ & _ & H4)]; [lia | exact H4]. }
  induction k as [|k IH]; intros st Hlo Hk Hreq.
  - destruct (body_cases st) as [[st' Hb]|[final Hb]].
    + apply body_again in Hb as (_ & H1 & H2 & _). lia.
    + exists final. split; [|apply (Hstop st); [lia | exact Hreq | exact Hb]].
      intros [|fuel] Hfuel; [lia|]. simpl. rewrite Hb. reflexivity.
  - destruct (body_cases st) as [[st' Hb]|[final Hb]].
    + pose proof (body_again _ _ Hb) as (_ & H1 & H2 & H3).
      destruct (IH st') as (final & Hrun & Hf); [lia | lia | |].
      { rewrite H3, H1, Hreq. apply requested_next. exact Hlo. }
      exists final. split; [|exact Hf].
      intros [|fuel] Hfuel; [lia|]. simpl. rewrite Hb. apply Hrun. lia.
    + exists final. split; [|apply (Hstop st); [lia | exact Hreq | exact Hb]].
      intros [|fuel] Hfuel; [lia|]. simpl. rewrite Hb. reflexivity.
Qed.


End Pagination.

(* ===================================================================== *)
(** ** The coordinates of the Ontario scraper *)
(* ===================================================================== *)

Section Coordinates.
Context {R : PyRuntime}.

Lemma coordinates_of_spec (longitude latitude : value) (c : list docval) :
  Ontario.coordinates_of longitude latitude = Ok c ->
  (exists x y, convertible longitude latitude x y
               /\ c = [Ontario.dfloat x; Ontario.dfloat y])
  \/ (c = [] /\ forall x y, ~ convertible longitude latitude x y).
Proof.
  unfold Ontario.coordinates_of, convertible.
  destruct (truthy longitude) eqn:Tx; cbn [andb].
  - destruct (truthy latitude) eqn:Ty.
    + unfold bind.
      destruct (Ontario.py_float longitude) as [x|ex] eqn:Ex.
      * destruct (Ontario.py_float latitude) as [y|ey] eqn:Ey.
        -- intros [= <-]. left. exists x, y. auto.
        -- destruct ey; try discriminate; intros [= <-]; right;
             (split; [reflexivity|]); intros x' y' (_ & _ & _ & H); discriminate.
      * destruct ex; try discriminate; intros [= <-]; right;
          (split; [reflexivity|]); intros x' y' (_ & _ & H & _); discriminate.
    + intros [= <-]. right. split; [reflexivity|].
      intros x y (_ & H & _). discriminate.
  - intros [= <-]. right. split; [reflexivity|].
    intros x y (H & _). discriminate.
Qed.

Lemma ontario_coordinates record d :
  Ontario.transform_record_to_schema record = Ok d ->
  exists attributes coordinates,
    Ontario.attributes_of record = Ok attributes
    /\ Ontario.coordinates_of (row_get "Longitude" attributes)
         (row_get "Latitude" attributes) = Ok coordinates
    /\ doc_get "location" d = Some (location coordinates)
    /\ doc_get "gps_validation" d
       = Some (dbool (match coordinates with [] => false | _ => true end)).
Proof.
  unfold Ontario.transform_record_to_schema, bind.
  destruct (Ontario.attributes_of record) as [attributes|]; [|discriminate].
  destruct (Ontario.coordinates_of _ _) as [coordinates|] eqn:E; [|discriminate].
  intros [= <-]. exists attributes, coordinates. repeat split. exact E.
Qed.

(** C10.  In a document the Ontario transform returns, gps_validation is
    true exactly when location.coordinates is not empty; the coordinates are
    the pair [float(Longitude), float(Latitude)] when both attributes are
    truthy and convertible to floats, and the empty list in every other
    case.  The transform returns a document whenever attributes is a mapping
    and neither coordinate is an int beyond the range of a float. *)
Theorem C10_ontario_coordinates :
  (forall record d,
     Ontario.transform_record_to_schema record = Ok d ->
     exists attributes coordinates,
       Ontario.attributes_of record = Ok attributes
       /\ doc_path ["location"; "coordinates"] d = Some (DList coordinates)
       /\ doc_get "gps_validation" d
          = Some (dbool (match coordinates with [] => false | _ => true end))
       /\ ((exists x y,
              convertible (row_get "Longitude" attributes)
                (row_get "Latitude" attributes) x y
              /\ coordinates = [Ontario.dfloat x; Ontario.dfloat y])
           \/ (coordinates = []
               /\ forall x y,
                    ~ convertible (row_get "Longitude" attributes)
                        (row_get "Latitude" attributes) x y)))
  /\ (forall record attributes,
        Ontario.attributes_of record = Ok attributes ->
        int_overflows (row_get "Longitude" attributes) = false ->
        int_overflows (row_get "Latitude" attributes) = false ->
        exists d, Ontario.transform_record_to_schema record = Ok d).
Proof.
  split.
  - intros record d H.
    destruct (ontario_coordinates record d H) as (attributes & c & Ha & Hc & Hl & Hg).
    exists attributes, c. split; [exact Ha|]. split.
    { unfold doc_path. rewrite Hl. reflexivity. }
    split; [exact Hg|]. apply coordinates_of_spec. exact Hc.
  - intros record attributes Ha Hx Hy.
    destruct (ontario_total record attributes Ha Hx Hy) as [d [Hd _]]. eauto.
Qed.

End Coordinates.

(* ===================================================================== *)
(** ** Facts about the string primitives *)
(* ===================================================================== *)

Section Strings.

Lemma starts_with_spec (p l : list ascii) :
  Py.starts_with p l = true <-> exists post, l = p ++ post.
Proof.
  revert l. induction p as [|a p IH]; intros l; simpl.
  - split; [intros _; exists l; reflexivity | reflexivity].
  - destruct l as [|b l].
    + split; [discriminate | intros [post H]; discriminate].
    + rewrite andb_true_iff, IH. split.
      * intros [Hab [post ->]]. apply Ascii.eqb_eq in Hab. subst b.
        exists post. reflexivity.
      * intros [post [= -> ->]]. split; [apply Ascii.eqb_refl | eauto].
Qed.

Lemma find_sub_spec (p l : list ascii) :
  Py.find_sub p l = true <-> exists pre post, l = pre ++ p ++ post.
Proof.
  induction l as [|c l IH].
  - simpl. rewrite orb_false_r, starts_with_spec. split.
    + intros [post H]. exists [], post. exact H.
    + intros (pre & post & H). destruct pre; [eauto | discriminate].
  - cbn [Py.find_sub]. rewrite orb_true_iff, starts_with_spec, IH. split.
    + intros [[post H] | (pre & post & H)].
      * exists [], post. exact H.
      * exists (c :: pre), post. rewrite H. reflexivity.
    + intros (pre & post & H). destruct pre as [|c' pre].
      * left. exists post. exact H.
      * right. injection H as _ H. eauto.
Qed.

Lemma infix_trans (a b c : list ascii) : infix a b -> infix b c -> infix a c.
Proof.
  intros (p1 & q1 & ->) (p2 & q2 & ->).
  exists (p2 ++ p1), (q1 ++ q2). rewrite <- !app_assoc. reflexivity.
Qed.

Lemma infix_map (f : ascii -> ascii) (a b : list ascii) :
  infix a b -> infix (map f a) (map f b).
Proof.
  intros (p & q & ->). exists (map f p), (map f q). rewrite !map_app. reflexivity.
Qed.

Lemma infix_refl (a : list ascii) : infix a a.
Proof. exists [], []. rewrite app_nil_r. reflexivity. Qed.

Lemma contains_infix (word text : string) :
  Py.contains word text = true <-> infix (Py.chars word) (Py.chars text).
Proof. apply find_sub_spec. Qed.

Lemma contains_trans (a b t : string) :
  Py.contains a b = true -> Py.contains b t = true -> Py.contains a t = true.
Proof.
  rewrite !contains_infix. apply infix_trans.
Qed.

Lemma lower_upper_char (c : ascii) :
  Py.lower_char (Py.upper_char c) = Py.lower_char c.
Proof. destruct c as [[] [] [] [] [] [] [] []]; reflexivity. Qed.

Lemma upper_upper_char (c : ascii) :
  Py.upper_char (Py.upper_char c) = Py.upper_char c.
Proof. destruct c as [[] [] [] [] [] [] [] []]; reflexivity. Qed.

Lemma lower_lower_char (c : ascii) :
  Py.lower_char (Py.lower_char c) = Py.lower_char c.
Proof. destruct c as [[] [] [] [] [] [] [] []]; reflexivity. Qed.

Lemma space_upper_char (c : ascii) : Py.is_space (Py.upper_char c) = Py.is_space c.
Proof. destruct c as [[] [] [] [] [] [] [] []]; reflexivity. Qed.

Lemma chars_inj (s t : string) : Py.chars s = Py.chars t -> s = t.
Proof. intros H. rewrite <- (str_of_chars s), <- (str_of_chars t), H. reflexivity. Qed.

Lemma lower_upper (s : string) : Py.lower (Py.upper s) = Py.lower s.
Proof.
  unfold Py.lower, Py.upper. rewrite chars_str_of, map_map. f_equal.
  apply map_ext. exact lower_upper_char.
Qed.

Lemma lower_lower (s : string) : Py.lower (Py.lower s) = Py.lower s.
Proof.
  unfold Py.lower. rewrite chars_str_of, map_map. f_equal.
  apply map_ext. exact lower_lower_char.
Qed.

Lemma upper_upper (s : string) : Py.upper (Py.upper s) = Py.upper s.
Proof.
  unfold Py.upper. rewrite chars_str_of, map_map. f_equal.
  apply map_ext. exact upper_upper_char.
Qed.

Lemma nonempty_chars (s : string) :
  Py.nonempty s = match Py.chars s with [] => false | _ => true end.
Proof. destruct s; reflexivity. Qed.

Lemma nonempty_upper (s : string) : Py.nonempty (Py.upper s) = Py.nonempty s.
Proof.
  rewrite !nonempty_chars. unfold Py.upper. rewrite chars_str_of.
  destruct (Py.chars s); reflexivity.
Qed.

Lemma nonempty_lower (s : string) : Py.nonempty (Py.lower s) = Py.nonempty s.
Proof.
  rewrite !nonempty_chars. unfold Py.lower. rewrite chars_str_of.
  destruct (Py.chars s); reflexivity.
Qed.

(** *** Stripping *)

Lemma lstrip_idem (l : list ascii) :
  Py.lstrip_chars (Py.lstrip_chars l) = Py.lstrip_chars l.
Proof.
  induction l as [|c l IH]; [reflexivity|]. simpl.
  destruct (Py.is_space c) eqn:E; [exact IH|]. simpl. rewrite E. reflexivity.
Qed.

Lemma lstrip_suffix (l : list ascii) :
  exists sp, l = sp ++ Py.lstrip_chars l /\ forallb Py.is_space sp = true.
Proof.
  induction l as [|c l (sp & IH & Hsp)].
  - exists []. split; reflexivity.
  - simpl. destruct (Py.is_space c) eqn:E.
    + exists (c :: sp). simpl. rewrite E, Hsp. split; [f_equal; exact IH | reflexivity].
    + exists []. split; reflexivity.
Qed.

Lemma lstrip_fixed (l : list ascii) :
  Py.lstrip_chars l = l <-> match l with [] => True | c :: _ => Py.is_space c = false end.
Proof.
  destruct l as [|c l]; simpl; [tauto|].
  destruct (Py.is_space c) eqn:E.
  - split; [|discriminate]. intros H.
    destruct (lstrip_suffix l) as (sp & Hl & _).
    apply (f_equal (@length ascii)) in H. rewrite Hl in H at 2.
    simpl in H. rewrite length_app in H. lia.
  - tauto.
Qed.

(** Stripping the right end keeps a left end that is not white space. *)
Lemma lstrip_snoc_head (l : list ascii) (c : ascii) :
  Py.is_space c = false ->
  exists l', Py.lstrip_chars (l ++ [c]) = l' ++ [c].
Proof.
  intros Hc. induction l as [|a l [l' IH]]; simpl.
  - rewrite Hc. exists []. reflexivity.
  - destruct (Py.is_space a); [eauto|]. exists (a :: l). reflexivity.
Qed.

Lemma strip_trimmed (l : list ascii) : trimmed (Py.strip_chars l).
Proof.
  unfold trimmed, Py.strip_chars. rewrite rev_involutive, lstrip_idem.
  split; [|reflexivity].
  apply lstrip_fixed.
  destruct (Py.lstrip_chars l) as [|c m] eqn:E; [reflexivity|].
  assert (Hc : Py.is_space c = false).
  { assert (H := lstrip_idem l). rewrite E in H. apply lstrip_fixed in H. exact H. }
  simpl rev. destruct (lstrip_snoc_head (rev m) c Hc) as [l' ->].
  rewrite rev_app_distr. simpl. exact Hc.
Qed.

Lemma trimmed_strip (l : list ascii) : trimmed l -> Py.strip_chars l = l.
Proof.
  intros [H1 H2]. unfold Py.strip_chars. rewrite H1, H2. apply rev_involutive.
Qed.

Lemma strip_idem_chars (l : list ascii) :
  Py.strip_chars (Py.strip_chars l) = Py.strip_chars l.
Proof. apply trimmed_strip, strip_trimmed. Qed.

Lemma strip_idem (s : string) : Py.strip (Py.strip s) = Py.strip s.
Proof.
  unfold Py.strip. rewrite chars_str_of, strip_idem_chars. reflexivity.
Qed.

Lemma strip_infix (l : list ascii) : infix (Py.strip_chars l) l.
Proof.
  unfold Py.strip_chars.
  destruct (lstrip_suffix l) as (sp1 & H1 & _).
  destruct (lstrip_suffix (rev (Py.lstrip_chars l))) as (sp2 & H2 & _).
  exists sp1, (rev sp2).
  rewrite <- rev_app_distr, <- H2, rev_involutive. exact H1.
Qed.

End Strings.

(* ===================================================================== *)
(** ** Phone numbers: what formatting keeps *)
(* ===================================================================== *)

Section PhoneDigits.
Context {R : PyRuntime}.

Lemma chars_app (a b : string) : Py.chars (a ++ b) = Py.chars a ++ Py.chars b.
Proof.
  unfold Py.chars. induction a as [|c a IH]; simpl; [reflexivity|].
  rewrite IH. reflexivity.
Qed.

Lemma digits_only_all (s : string) :
  forallb Py.is_digit (Py.chars (Py.digits_only s)) = true.
Proof.
  unfold Py.digits_only. rewrite chars_str_of.
  induction (Py.chars s) as [|c l IH]; [reflexivity|]. simpl.
  destruct (Py.is_digit c) eqn:E; [simpl; rewrite E; exact IH | exact IH].
Qed.

Lemma digits_only_fixed (d : string) :
  forallb Py.is_digit (Py.chars d) = true -> Py.digits_only d = d.
Proof.
  intros H. unfold Py.digits_only. rewrite <- (str_of_chars d) at 2. f_equal.
  induction (Py.chars d) as [|c l IH]; [reflexivity|]. simpl in *.
  apply andb_true_iff in H as [Hc Hl]. rewrite Hc, (IH Hl). reflexivity.
Qed.

Ltac digit_facts H :=
  cbn [Py.chars list_ascii_of_string forallb] in H;
  repeat (let Hd := fresh "Hd" in apply andb_true_iff in H as [Hd H]).

(** The formatted text holds the digits it was made from, in order. *)
Lemma phone_rule_digits (min_len : nat) (d r : string) :
  forallb Py.is_digit (Py.chars d) = true ->
  phone_rule min_len d = Some r -> Py.digits_only r = d.
Proof.
  intros Hd. unfold phone_rule.
  destruct (Nat.eqb_spec (String.length d) 10) as [E10|_].
  - do 10 (destruct d as [|? d]; [discriminate E10|]).
    destruct d; [|discriminate E10].
    intros [= <-]. digit_facts Hd.
    unfold Py.digits_only.
    cbn [substring append Py.chars list_ascii_of_string filter].
    repeat match goal with
           | H : Py.is_digit ?c = true |- context [Py.is_digit ?c] => rewrite H
           end.
    reflexivity.
  - destruct (Nat.eqb_spec (String.length d) 11) as [E11|_]; cbn [andb].
    + destruct (String.eqb_spec (substring 0 1 d) "1") as [E1|_].
      * do 11 (destruct d as [|? d]; [discriminate E11|]).
        destruct d; [|discriminate E11].
        cbn [substring] in E1. injection E1 as ->.
        intros [= <-]. digit_facts Hd.
        unfold Py.digits_only.
        cbn [substring append Py.chars list_ascii_of_string filter].
        repeat match goal with
               | H : Py.is_digit ?c = true |- context [Py.is_digit ?c] => rewrite H
               end.
        reflexivity.
      * destruct (min_len <=? String.length d); [|discriminate].
        intros [= <-]. apply digits_only_fixed. exact Hd.
    + destruct (min_len <=? String.length d); [|discriminate].
      intros [= <-]. apply digits_only_fixed. exact Hd.
Qed.

Lemma phone_rule_weaker (d r : string) :
  phone_rule 7 d = Some r -> phone_rule 1 d = Some r.
Proof.
  unfold phone_rule.
  destruct (String.length d =? 10); [auto|].
  destruct ((String.length d =? 11) && _); [auto|].
  destruct (Nat.leb_spec 7 (String.length d)) as [H|H]; [|discriminate].
  destruct (Nat.leb_spec 1 (String.length d)); [auto | lia].
Qed.

Lemma parsed_not_zero (v : value) :
  negb (truthy v) || isna v = false -> numeric_zero v = false.
Proof.
  destruct v; simpl; try reflexivity.
  - rewrite orb_false_r. intros H. apply negb_false_iff in H.
    apply negb_true_iff in H. exact H.
  - rewrite orb_false_r. intros H. apply negb_false_iff in H. rewrite H. reflexivity.
Qed.

Lemma alberta_parsed_not_zero (v : value) (r : string) :
  Alberta.parse_phone_number v = Some r -> numeric_zero v = false.
Proof.
  unfold Alberta.parse_phone_number.
  destruct (negb (truthy v) || isna v) eqn:E; [discriminate|].
  intros _. apply parsed_not_zero. exact E.
Qed.

Lemma bc_parsed_not_zero (v : value) (r : string) :
  BC.parse_phone_number v = Some r -> numeric_zero v = false.
Proof.
  unfold BC.parse_phone_number.
  destruct (negb (truthy v) || isna v) eqn:E; [discriminate|].
  intros _. apply parsed_not_zero. exact E.
Qed.

(** X1.  A phone parser never loses or alters a digit: whenever it returns
    a text, the digits of that text are the digits of the input, and parsing
    the returned text again returns it unchanged. *)
Theorem phone_digits_kept :
  (forall v r,
     Alberta.parse_phone_number v = Some r ->
     Py.digits_only r = Py.digits_only (py_str v)
     /\ Alberta.parse_phone_number (PStr r) = Some r)
  /\ (forall v r,
        BC.parse_phone_number v = Some r ->
        Py.digits_only r = Py.digits_only (py_str v)
        /\ BC.parse_phone_number (PStr r) = Some r)
  /\ (forall v r,
        Colorado.parse_phone_number v = Some r ->
        Py.digits_only r = Py.digits_only (py_str v)
        /\ Colorado.parse_phone_number (PStr r) = Some r)
  /\ (forall s r,
        Federal.clean_phone_number s = Some r ->
        Py.digits_only r = Py.digits_only s
        /\ Federal.clean_phone_number r = Some r).
Proof.
  split; [|split; [|split]]; intros v r H; split.
  - rewrite (alberta_phone v (alberta_parsed_not_zero v r H)) in H.
    eapply phone_rule_digits; [apply digits_only_all | exact H].
  - pose proof H as H'.
    rewrite (alberta_phone v (alberta_parsed_not_zero v r H)) in H'.
    rewrite (alberta_phone (PStr r) eq_refl). cbn [py_str].
    rewrite (phone_rule_digits _ _ _ (digits_only_all _) H'). exact H'.
  - rewrite (bc_phone v (bc_parsed_not_zero v r H)) in H.
    eapply phone_rule_digits; [apply digits_only_all | exact H].
  - pose proof H as H'.
    rewrite (bc_phone v (bc_parsed_not_zero v r H)) in H'.
    rewrite (bc_phone (PStr r) eq_refl). cbn [py_str].
    rewrite (phone_rule_digits _ _ _ (digits_only_all _) H'). exact H'.
  - rewrite colorado_phone in H.
    eapply phone_rule_digits; [apply digits_only_all | exact H].
  - rewrite colorado_phone in H. rewrite colorado_phone. cbn [py_str].
    rewrite (phone_rule_digits _ _ _ (digits_only_all _) H). exact H.
  - rewrite federal_phone in H.
    eapply phone_rule_digits; [apply digits_only_all | exact H].
  - rewrite federal_phone in H. rewrite federal_phone.
    rewrite (phone_rule_digits _ _ _ (digits_only_all _) H). exact H.
Qed.

(** X2.  Colorado's parser is a restriction of the others: what it returns
    for a value, Alberta's and British Columbia's return as well. *)
Theorem colorado_phone_stricter (v : value) (r : string) :
  Colorado.parse_phone_number v = Some r ->
  Alberta.parse_phone_number v = Some r /\ BC.parse_phone_number v = Some r.
Proof.
  intros H.
  assert (Hz : numeric_zero v = false).
  { revert H. unfold Colorado.parse_phone_number.
    destruct (negb (truthy v) || isna v) eqn:E; [discriminate|].
    intros _. apply parsed_not_zero. exact E. }
  rewrite colorado_phone in H. apply phone_rule_weaker in H.
  rewrite (alberta_phone v Hz), (bc_phone v Hz). auto.
Qed.

End PhoneDigits.

(* ===================================================================== *)
(** ** Assembled addresses *)
(* ===================================================================== *)

Section Addresses.
Context {R : PyRuntime}.

(** Joining a list that ends with an already joined tail is joining the
    whole list. *)
Lemma join_cons (sep x : string) (l : list string) :
  l <> [] -> Py.join sep (x :: l) = (x ++ sep ++ Py.join sep l)%string.
Proof. destruct l; [contradiction | reflexivity]. Qed.

Lemma join_nested (sep : string) (a b : list string) :
  b <> [] -> Py.join sep (a ++ [Py.join sep b]) = Py.join sep (a ++ b).
Proof.
  intros Hb. induction a as [|x a IH]; [reflexivity|].
  cbn [app]. rewrite !join_cons, IH; [reflexivity | |].
  - destruct a; [exact Hb | discriminate].
  - destruct a; discriminate.
Qed.

Lemma join_tail (sep : string) (a b : list string) :
  Py.join sep match b with
              | [] => a
              | _ => a ++ [Py.join sep b]
              end = Py.join sep (a ++ b).
Proof.
  destruct b as [|y b]; [rewrite app_nil_r; reflexivity|].
  apply join_nested. discriminate.
Qed.

Lemma join_nonempty (sep : string) (parts : list string) :
  parts <> [] -> Forall (fun p => Py.nonempty p = true) parts ->
  Py.nonempty (Py.join sep parts) = true.
Proof.
  intros Hne Hall. destruct Hall as [|p parts Hp _]; [contradiction|].
  destruct parts; cbn [Py.join]; [exact Hp|].
  destruct p; [discriminate | reflexivity].
Qed.

Lemma part_truthy (o : option string) :
  Colorado.part o = Alberta.truthy_parts [o].
Proof.
  unfold Colorado.part, Alberta.truthy_parts. simpl.
  destruct o as [s|]; simpl; [|reflexivity].
  destruct (Py.nonempty s); reflexivity.
Qed.

Lemma truthy_parts_app (a b : list (option string)) :
  Alberta.truthy_parts (a ++ b) = Alberta.truthy_parts a ++ Alberta.truthy_parts b.
Proof. unfold Alberta.truthy_parts. apply flat_map_app. Qed.

Lemma truthy_parts_nonempty (l : list (option string)) :
  Forall (fun p => Py.nonempty p = true) (Alberta.truthy_parts l).
Proof.
  induction l as [|[s|] l IH]; simpl; [constructor | | exact IH].
  destruct (Py.nonempty s) eqn:E; [constructor; assumption | exact IH].
Qed.

Lemma flat_or_none (street loc : list string) :
  match match loc with
        | [] => street
        | _ => street ++ [Py.join ", " loc]
        end with
  | [] => None
  | _ => Some (Py.join ", " match loc with
                            | [] => street
                            | _ => street ++ [Py.join ", " loc]
                            end)
  end
  = join_or_none (street ++ loc).
Proof.
  unfold join_or_none. destruct loc as [|y loc].
  - rewrite app_nil_r. reflexivity.
  - destruct street as [|x street]; [reflexivity|].
    cbn [app]. f_equal. apply (join_nested ", " (x :: street) (y :: loc)).
    discriminate.
Qed.

Lemma alberta_address_flat (row : Row) :
  Alberta.create_address_string row =
  Py.join ", "
    (Alberta.truthy_parts
       [ Alberta.clean_string (row_get "Site Address Line 1" row);
         Alberta.clean_string (row_get "Site City Name" row);
         Alberta.clean_string (row_get "Site" row);
         Alberta.clean_string (row_get "Site Postal" row) ]).
Proof.
  unfold Alberta.create_address_string.
  rewrite join_tail, <- truthy_parts_app. reflexivity.
Qed.

(** X3.  An assembled address is the [", "]-join of its non-empty
    components in the fixed order street, city, region, postal code: an
    absent component leaves no separator behind.  Colorado and Ontario
    return None instead of the empty text when there is no component. *)
Theorem address_is_flat_join :
  (forall row,
     Alberta.create_address_string row =
     Py.join ", "
       (Alberta.truthy_parts
          [ Alberta.clean_string (row_get "Site Address Line 1" row);
            Alberta.clean_string (row_get "Site City Name" row);
            Alberta.clean_string (row_get "Site" row);
            Alberta.clean_string (row_get "Site Postal" row) ]))
  /\ (forall row,
        Colorado.create_full_address row =
        join_or_none
          (Alberta.truthy_parts
             [ Colorado.clean_string (row_get "Street" row);
               Colorado.clean_string (row_get "City" row);
               Colorado.clean_string (row_get "ZIP Code" row) ]))
  /\ (forall record attributes d,
        Ontario.attributes_of record = Ok attributes ->
        Ontario.transform_record_to_schema record = Ok d ->
        doc_get "business_address" d =
        Some (dopt (join_or_none
                      (Alberta.truthy_parts
                         [ Ontario.clean_string (row_get "StreetAddress" attributes);
                           Ontario.clean_string (row_get "City" attributes);
                           Ontario.clean_string (row_get "Province" attributes);
                           Ontario.clean_string (row_get "PostalCode" attributes) ])))).
Proof.
  split; [|split].
  - exact alberta_address_flat.
  - intros row. unfold Colorado.create_full_address.
    rewrite !part_truthy, flat_or_none, <- !truthy_parts_app. reflexivity.
  - intros record attributes d Ha. unfold Ontario.transform_record_to_schema, bind.
    rewrite Ha. destruct (Ontario.coordinates_of _ _); [|discriminate].
    intros [= <-]. cbn [doc_get String.eqb Ascii.eqb Bool.eqb]. f_equal. f_equal.
    change Ontario.part with Colorado.part.
    rewrite !part_truthy, flat_or_none, <- !truthy_parts_app. reflexivity.
Qed.

(** A joined text holds each of its parts. *)
Lemma join_holds_item (sep x : string) (l1 l2 : list string) :
  infix (Py.chars x) (Py.chars (Py.join sep (l1 ++ x :: l2))).
Proof.
  induction l1 as [|y l1 IH].
  - cbn [app]. destruct l2 as [|z l2]; cbn [Py.join].
    + apply infix_refl.
    + rewrite chars_app. exists [], (Py.chars (sep ++ Py.join sep (z :: l2))).
      reflexivity.
  - cbn [app]. rewrite join_cons by (destruct l1; discriminate).
    rewrite !chars_app.
    eapply infix_trans; [apply IH|].
    exists (Py.chars y ++ Py.chars sep), []. rewrite <- !app_assoc, app_nil_r.
    reflexivity.
Qed.

(** X4.  Alberta's address is the empty text exactly when the row has
    none of the four components; British Columbia's is never empty, since
    the province is always part of it. *)
Theorem address_empty_iff_no_part :
  (forall row,
     Py.nonempty (Alberta.create_address_string row) = false <->
     Alberta.truthy_parts
       [ Alberta.clean_string (row_get "Site Address Line 1" row);
         Alberta.clean_string (row_get "Site City Name" row);
         Alberta.clean_string (row_get "Site" row);
         Alberta.clean_string (row_get "Site Postal" row) ] = [])
  /\ (forall address city postal,
        Py.contains "BC" (BC.create_full_address address city postal) = true).
Proof.
  split.
  - intros row. rewrite alberta_address_flat.
    set (parts := Alberta.truthy_parts _).
    assert (Hall : Forall (fun p => Py.nonempty p = true) parts)
      by apply truthy_parts_nonempty.
    destruct parts as [|p ps].
    + split; reflexivity.
    + rewrite (join_nonempty ", " (p :: ps)) by (discriminate || assumption).
      split; discriminate.
  - intros address city postal. unfold BC.create_full_address.
    apply contains_infix.
    set (a := BC.stripped_part address). set (c := BC.stripped_part city).
    set (p := BC.stripped_part postal).
    assert (Hloc : c ++ ["BC"] ++ p <> []) by (destruct c; discriminate).
    destruct (c ++ ["BC"] ++ p) as [|y loc] eqn:El; [contradiction|].
    assert (Ha : a ++ [Py.join ", " (y :: loc)] <> []) by (destruct a; discriminate).
    destruct (a ++ [Py.join ", " (y :: loc)]) as [|z zs] eqn:Ea; [contradiction|].
    rewrite <- Ea, join_nested by discriminate. rewrite <- El.
    replace (a ++ c ++ ["BC"] ++ p) with ((a ++ c) ++ "BC" :: p)
      by (rewrite <- app_assoc; reflexivity).
    apply join_holds_item.
Qed.

End Addresses.

(* ===================================================================== *)
(** ** Keyword tests: dead branches and letter case *)
(* ===================================================================== *)

Section Keywords.
Context {R : PyRuntime}.

(** X5.  Two branches of the Michigan classifiers can never be taken, as an
    earlier keyword is part of theirs: the licence type is never
    "transport" and the status is never "Inactive"; a status text that
    contains "inactive" is reported as Active or Prequalified. *)
Theorem michigan_dead_branches :
  (forall record_type, Michigan.determine_license_type record_type <> "transport")
  /\ (forall status, Michigan.parse_license_status status <> "Inactive")
  /\ (forall status,
        Py.contains "inactive" (Py.lower status) = true ->
        Michigan.parse_license_status (Some status) = "Active"
        \/ Michigan.parse_license_status (Some status) = "Prequalified").
Proof.
  split; [|split].
  - intros record_type. unfold Michigan.determine_license_type.
    destruct (negb (otruthy record_type)); [discriminate|].
    set (t := Py.lower (oget record_type)).
    destruct (Py.contains "retailer" t || Py.contains "retail" t); [discriminate|].
    destruct (Py.contains "processor" t || Py.contains "processing" t);
      [discriminate|].
    destruct (Py.contains "grower" t || Py.contains "cultivation" t);
      [discriminate|].
    destruct (Py.contains "transporter" t || Py.contains "transport" t) eqn:E;
      [discriminate|].
    destruct (Py.contains "testing" t || Py.contains "lab" t); [discriminate|].
    destruct (Py.contains "entity" t); [discriminate|].
    destruct (Py.contains "secure transport" t) eqn:E'; [|discriminate].
    apply orb_false_iff in E as [_ E].
    rewrite (contains_trans "transport" "secure transport" t eq_refl E') in E.
    discriminate.
  - intros status. unfold Michigan.parse_license_status.
    destruct (negb (otruthy status)); [discriminate|].
    set (t := Py.lower (oget status)).
    destruct (Py.contains "active" t) eqn:E.
    + destruct (Py.contains "prequalified" t); discriminate.
    + destruct (Py.contains "inactive" t) eqn:E'.
      * rewrite (contains_trans "active" "inactive" t eq_refl E') in E. discriminate.
      * repeat match goal with
               | |- context [if ?c then _ else _] => destruct c
               end; discriminate.
  - intros status H. unfold Michigan.parse_license_status.
    assert (Ht : otruthy (Some status) = true).
    { cbn [otruthy]. rewrite <- nonempty_lower.
      destruct (Py.lower status); [discriminate H | reflexivity]. }
    rewrite Ht. cbn [negb oget].
    rewrite (contains_trans "active" "inactive" _ eq_refl H).
    destruct (Py.contains "prequalified" _); auto.
Qed.

Lemma otruthy_upper (s : string) : otruthy (Some (Py.upper s)) = otruthy (Some s).
Proof. apply nonempty_upper. Qed.

Ltac fold_case :=
  rewrite ?otruthy_upper; cbn [oget]; rewrite ?lower_upper; reflexivity.

(** X6.  The keyword classifiers do not depend on the letter case of an
    ASCII text: a name or status in capitals is classified as the
    original. *)
Theorem classifiers_ignore_case (s : string) :
  ascii_text s = true ->
  Alberta.determine_license_type (Some (Py.upper s))
  = Alberta.determine_license_type (Some s)
  /\ BC.determine_license_type (Some (Py.upper s))
     = BC.determine_license_type (Some s)
  /\ Michigan.determine_license_type (Some (Py.upper s))
     = Michigan.determine_license_type (Some s)
  /\ Ontario.determine_license_type (Some (Py.upper s))
     = Ontario.determine_license_type (Some s)
  /\ Jamaica.determine_license_type (Some (Py.upper s))
     = Jamaica.determine_license_type (Some s)
  /\ Alberta.is_smoke_shop (Some (Py.upper s)) = Alberta.is_smoke_shop (Some s)
  /\ BC.is_smoke_shop (Some (Py.upper s)) = BC.is_smoke_shop (Some s)
  /\ Michigan.is_smoke_shop (Some (Py.upper s)) = Michigan.is_smoke_shop (Some s)
  /\ Michigan.parse_license_status (Some (Py.upper s))
     = Michigan.parse_license_status (Some s)
  /\ Ontario.get_license_status (Some (Py.upper s))
     = Ontario.get_license_status (Some s)
  /\ Federal.parse_license_types (Py.upper s) = Federal.parse_license_types s
  /\ Federal.determine_license_status (Py.upper s)
     = Federal.determine_license_status s.
Proof.
  intros _. repeat split.
  - unfold Alberta.determine_license_type. fold_case.
  - unfold BC.determine_license_type. fold_case.
  - unfold Michigan.determine_license_type. fold_case.
  - unfold Ontario.determine_license_type. fold_case.
  - unfold Jamaica.determine_license_type. fold_case.
  - unfold Alberta.is_smoke_shop. fold_case.
  - unfold BC.is_smoke_shop. fold_case.
  - unfold Michigan.is_smoke_shop. fold_case.
  - unfold Michigan.parse_license_status. fold_case.
  - unfold Ontario.get_license_status. fold_case.
  - unfold Federal.parse_license_types. rewrite nonempty_upper, lower_upper.
    reflexivity.
  - unfold Federal.determine_license_status. rewrite nonempty_upper, lower_upper.
    reflexivity.
Qed.

(** X7.  British Columbia never flags a name that mentions cannabis, in
    any letter case, as a smoke shop, and flags only names that Alberta's
    test flags as well. *)
Theorem bc_smoke_shop_excludes_cannabis (name : string) :
  (Py.contains "cannabis" (Py.lower name) = true ->
   BC.is_smoke_shop (Some name) = false)
  /\ (BC.is_smoke_shop (Some name) = true ->
      Alberta.is_smoke_shop (Some name) = true).
Proof.
  unfold BC.is_smoke_shop, Alberta.is_smoke_shop. cbn [oget].
  destruct (negb (otruthy (Some name))); [split; [reflexivity | discriminate]|].
  split.
  - intros ->. apply andb_false_r.
  - intros H. apply andb_true_iff in H as [H _].
    unfold Py.any_in in *. cbn [existsb] in *.
    repeat (apply orb_true_iff in H as [H|H]); try discriminate H;
      rewrite H; rewrite ?orb_true_r; reflexivity.
Qed.

End Keywords.

(* ===================================================================== *)
(** ** Cleaned cells *)
(* ===================================================================== *)

Section Cleaning.
Context {R : PyRuntime}.

Ltac clean_case :=
  match goal with
  | |- (if ?c then _ else _) = Some _ -> _ =>
      destruct c; [discriminate|]; intros [= <-]; apply strip_idem
  end.

(** X8.  Whatever a [clean_string] returns is trimmed: stripping it again
    changes nothing.  British Columbia's never returns the empty text;
    Alberta's, Saskatchewan's and Jamaica's return it, not None, for a cell
    that holds white space only. *)
Theorem clean_string_trimmed :
  (forall v s, Alberta.clean_string v = Some s -> Py.strip s = s)
  /\ (forall v s, BC.clean_string v = Some s ->
                  Py.strip s = s /\ Py.nonempty s = true)
  /\ (forall v s, Colorado.clean_string v = Some s -> Py.strip s = s)
  /\ (forall v s, Michigan.clean_string v = Some s -> Py.strip s = s)
  /\ (forall v s, Ontario.clean_string v = Some s -> Py.strip s = s)
  /\ (forall v s, Saskatchewan.clean_string v = Some s -> Py.strip s = s)
  /\ (forall v s, Jamaica.clean_string v = Some s -> Py.strip s = s)
  /\ (forall s, Py.nonempty s = true -> Py.strip s = "" ->
                Alberta.clean_string (PStr s) = Some ""
                /\ Saskatchewan.clean_string (PStr s) = Some ""
                /\ Jamaica.clean_string (PStr s) = Some ""
                /\ BC.clean_string (PStr s) = None).
Proof.
  split; [|split; [|split; [|split; [|split; [|split; [|split]]]]]].
  - intros v s. unfold Alberta.clean_string. clean_case.
  - intros v s. unfold BC.clean_string.
    destruct (isna v || eq_empty v || negb (Py.nonempty (Py.strip (py_str v))))
      eqn:E; [discriminate|].
    intros [= <-]. split; [apply strip_idem|].
    apply orb_false_iff in E as [_ E]. apply negb_false_iff in E. exact E.
  - intros v s. unfold Colorado.clean_string. clean_case.
  - intros v s. unfold Michigan.clean_string. clean_case.
  - intros v s. unfold Ontario.clean_string. destruct v; try discriminate; clean_case.
  - intros v s. unfold Saskatchewan.clean_string. clean_case.
  - intros v s. unfold Jamaica.clean_string. clean_case.
  - intros s Hs Hstrip.
    unfold Alberta.clean_string, Saskatchewan.clean_string, Jamaica.clean_string,
      BC.clean_string.
    cbn [isna eq_empty truthy py_str orb]. rewrite Hs, Hstrip. repeat split.
Qed.

End Cleaning.

(* ===================================================================== *)
(** ** Normal forms: web addresses and postal codes *)
(* ===================================================================== *)

Section NormalForms.
Context {R : PyRuntime}.

Lemma strip_chars_eq (s : string) : Py.chars (Py.strip s) = Py.strip_chars (Py.chars s).
Proof. unfold Py.strip. apply chars_str_of. Qed.

Lemma strip_fixed_trimmed (s : string) : Py.strip s = s <-> trimmed (Py.chars s).
Proof.
  split.
  - intros H. rewrite <- H, strip_chars_eq. apply strip_trimmed.
  - intros H. apply chars_inj. rewrite strip_chars_eq. apply trimmed_strip. exact H.
Qed.

Lemma trimmed_head (l : list ascii) :
  trimmed l -> match l with [] => True | c :: _ => Py.is_space c = false end.
Proof. intros [H _]. apply lstrip_fixed. exact H. Qed.

Lemma trimmed_last (l : list ascii) :
  trimmed l -> match rev l with [] => True | c :: _ => Py.is_space c = false end.
Proof. intros [_ H]. apply lstrip_fixed. exact H. Qed.

Lemma trimmed_intro (l : list ascii) :
  match l with [] => True | c :: _ => Py.is_space c = false end ->
  match rev l with [] => True | c :: _ => Py.is_space c = false end ->
  trimmed l.
Proof. intros H1 H2. split; apply lstrip_fixed; assumption. Qed.

(** A prefix in front of a trimmed, non-empty text: the result is trimmed
    when the prefix starts with something else than white space. *)
Lemma trimmed_prefixed (p x : list ascii) :
  match p with [] => False | c :: _ => Py.is_space c = false end ->
  x <> [] -> trimmed x -> trimmed (p ++ x).
Proof.
  intros Hp Hx Ht. apply trimmed_intro.
  - destruct p; [contradiction | exact Hp].
  - rewrite rev_app_distr. pose proof (trimmed_last x Ht) as Hl.
    destruct (rev x) eqn:E; [|exact Hl].
    apply (f_equal (@rev ascii)) in E. rewrite rev_involutive in E. contradiction.
Qed.

Lemma lower_length (s : string) :
  length (Py.chars (Py.lower s)) = length (Py.chars s).
Proof. unfold Py.lower. rewrite chars_str_of. apply length_map. Qed.

Lemma startswith_length (p s : string) :
  Py.startswith p s = true -> length (Py.chars p) <= length (Py.chars s).
Proof.
  unfold Py.startswith. intros H. apply starts_with_spec in H as [post ->].
  rewrite length_app. lia.
Qed.

Lemma website_form (s w : string) :
  Saskatchewan.clean_website_url (PStr s) = Ok (Some w) ->
  Py.strip w = w
  /\ (Py.nonempty w = true ->
      Py.startswith "http://" w || Py.startswith "https://" w = true).
Proof.
  unfold Saskatchewan.clean_website_url. cbn [truthy isna orb].
  destruct (negb (Py.nonempty s)); [discriminate|]. cbn [orb].
  destruct (Py.mem (Py.lower s) ["n/a"; "none"; ""]); [discriminate|].
  destruct (Py.nonempty (Py.strip s)) eqn:Hn; cbn [andb].
  - destruct (Py.startswith "http://" (Py.strip s)
              || Py.startswith "https://" (Py.strip s)) eqn:Hs; cbn [negb].
    + intros [= <-]. split; [apply strip_idem | intros _; exact Hs].
    + intros [= <-]. split; [|intros _; apply orb_true_r].
      apply strip_fixed_trimmed.
      change (trimmed (Py.chars ("https://" ++ Py.strip s))).
      rewrite chars_app. apply trimmed_prefixed.
      * reflexivity.
      * rewrite nonempty_chars in Hn. destruct (Py.chars (Py.strip s));
          [discriminate Hn | discriminate].
      * rewrite strip_chars_eq. apply strip_trimmed.
  - intros [= <-]. split; [apply strip_idem|].
    rewrite Hn. discriminate.
Qed.

(** X9.  A web address that [clean_website_url] returns is trimmed and,
    unless empty, begins with [http://] or [https://]; cleaning a non-empty
    returned address again returns it unchanged. *)
Theorem website_normal_form (website : value) (w : string) :
  Saskatchewan.clean_website_url website = Ok (Some w) ->
  Py.strip w = w
  /\ (Py.nonempty w = true ->
      Py.startswith "http://" w || Py.startswith "https://" w = true)
  /\ (Py.nonempty w = true ->
      Saskatchewan.clean_website_url (PStr w) = Ok (Some w)).
Proof.
  intros H.
  assert (Hs : exists s, website = PStr s).
  { revert H. unfold Saskatchewan.clean_website_url.
    destruct (negb (truthy website) || isna website); [discriminate|].
    destruct website; try discriminate. eauto. }
  destruct Hs as [s ->]. destruct (website_form s w H) as [Hstrip Hhttp].
  split; [exact Hstrip|]. split; [exact Hhttp|].
  intros Hn. specialize (Hhttp Hn).
  unfold Saskatchewan.clean_website_url. cbn [truthy isna orb].
  rewrite Hn. cbn [negb orb].
  assert (Hlen : 7 <= length (Py.chars w)).
  { apply orb_true_iff in Hhttp as [Hh|Hh]; apply startswith_length in Hh;
      simpl in Hh; lia. }
  assert (Hmem : Py.mem (Py.lower w) ["n/a"; "none"; ""] = false).
  { unfold Py.mem. cbn [existsb]. rewrite orb_false_r.
    rewrite <- lower_length in Hlen.
    repeat match goal with
           | |- context [String.eqb ?a ?b] =>
               destruct (String.eqb_spec a b) as [E|_];
               [rewrite E in Hlen; simpl in Hlen; lia|]
           end.
    reflexivity. }
  rewrite Hmem, Hstrip, Hn, Hhttp. reflexivity.
Qed.

Lemma lstrip_map_upper (l : list ascii) :
  Py.lstrip_chars (map Py.upper_char l) = map Py.upper_char (Py.lstrip_chars l).
Proof.
  induction l as [|c l IH]; [reflexivity|]. simpl.
  rewrite space_upper_char. destruct (Py.is_space c); [exact IH | reflexivity].
Qed.

Lemma upper_trimmed (l : list ascii) :
  trimmed l -> trimmed (map Py.upper_char l).
Proof.
  intros [H1 H2]. split.
  - rewrite lstrip_map_upper, H1. reflexivity.
  - rewrite <- map_rev, lstrip_map_upper, H2. reflexivity.
Qed.

Lemma upper_chars (s : string) : Py.chars (Py.upper s) = map Py.upper_char (Py.chars s).
Proof. unfold Py.upper. apply chars_str_of. Qed.

Lemma length_chars (s : string) : String.length s = length (Py.chars s).
Proof. induction s as [|c s IH]; simpl; [reflexivity | f_equal; exact IH]. Qed.

(** X10.  A postal code that British Columbia's [extract_postal_code]
    returns is in normal form: not empty, trimmed, in capitals, and with a
    space after the third character when six characters were given (after
    trimming and capitalising);
    extracting from a returned code returns it unchanged. *)
Theorem bc_postal_normal_form (postal_value : value) (p : string) :
  BC.extract_postal_code postal_value = Some p ->
  Py.nonempty p = true
  /\ Py.strip p = p
  /\ Py.upper p = p
  /\ (String.length (Py.upper (Py.strip (py_str postal_value))) = 6 ->
      String.length p = 7 /\ substring 3 1 p = " ")
  /\ BC.extract_postal_code (PStr p) = Some p.
Proof.
  rewrite bc_postal.
  destruct (negb (truthy postal_value) || isna postal_value); [discriminate|].
  cbv zeta. set (q := Py.upper (Py.strip (py_str postal_value))).
  assert (Hq : trimmed (Py.chars q)).
  { unfold q. rewrite upper_chars. apply upper_trimmed.
    rewrite strip_chars_eq. apply strip_trimmed. }
  assert (Hup : Py.upper q = q) by apply upper_upper.
  clearbody q.
  assert (Hsame : forall x, Py.nonempty x = true -> Py.strip x = x -> Py.upper x = x ->
                            String.length x <> 6 ->
                            BC.extract_postal_code (PStr x) = Some x).
  { intros x Hn Hs Hu Hl. rewrite bc_postal. cbn [truthy isna py_str].
    rewrite Hn. cbn [negb orb]. cbv zeta. rewrite Hs, Hu, Hn.
    destruct (Nat.eqb_spec (String.length x) 6); [contradiction | reflexivity]. }
  destruct (Nat.eqb_spec (String.length q) 6) as [E6|N6].
  - do 6 (destruct q as [|? q]; [discriminate E6|]).
    destruct q; [|discriminate E6].
    intros [= <-]. cbn [substring append].
    pose proof (trimmed_head _ Hq) as Hh. pose proof (trimmed_last _ Hq) as Hl.
    cbn in Hh, Hl.
    assert (Ht : trimmed (Py.chars (String a (String a0 (String a1
                   (String " " (String a2 (String a3 (String a4 "")))))))))
      by (apply trimmed_intro; assumption).
    assert (Hu : Py.upper (String a (String a0 (String a1
                   (String " " (String a2 (String a3 (String a4 "")))))))
                 = String a (String a0 (String a1
                   (String " " (String a2 (String a3 (String a4 ""))))))).
    { unfold Py.upper, Py.chars, Py.str_of in *.
      cbn [list_ascii_of_string map string_of_list_ascii] in *.
      injection Hup as H0 H1 H2 H3 H4 H5.
      rewrite H0, H1, H2, H3, H4, H5. reflexivity. }
    split; [reflexivity|]. split; [apply strip_fixed_trimmed; exact Ht|].
    split; [exact Hu|]. split; [intros _; split; reflexivity|].
    apply Hsame; [reflexivity | apply strip_fixed_trimmed; exact Ht | exact Hu
                 | discriminate].
  - destruct (Py.nonempty q) eqn:Hn; [|discriminate].
    intros [= <-].
    split; [exact Hn|]. split; [apply strip_fixed_trimmed; exact Hq|].
    split; [exact Hup|]. split; [intros E; contradiction|].
    apply Hsame; [exact Hn | apply strip_fixed_trimmed; exact Hq | exact Hup | exact N6].
Qed.

End NormalForms.

(* ===================================================================== *)
(** ** Batches: counters, page order, document invariants *)
(* ===================================================================== *)

Section Batches.
Context {R : PyRuntime}.

Lemma gated_counters {Rec} (t : Rec -> Res Doc) (g : Doc -> bool) (rows : list Rec) :
  let b := fold_left (step_gated t g) rows empty_batch in
  processed_count b = length (documents b)
  /\ error_count b = raises (map t rows)
  /\ processed_count b + error_count b <= length rows.
Proof.
  cbv zeta. rewrite fold_step_gated. cbn [documents processed_count error_count
                                            empty_batch app plus].
  split; [reflexivity|]. split; [reflexivity|].
  pose proof (oks_length (map t rows)) as H. rewrite length_map in H.
  pose proof (filter_length_le g (oks (map t rows))). lia.
Qed.

(** X11.  The counters of the gated drivers are exact: processed_count is
    the number of documents returned, error_count the number of records
    whose transform raised, and together they never exceed the number of
    records, the difference being the records skipped by the gate. *)
Theorem batch_counters :
  (forall rows,
     processed_count (Colorado.scrape_batch rows)
     = length (documents (Colorado.scrape_batch rows))
     /\ error_count (Colorado.scrape_batch rows)
        = raises (map (fun r => Colorado.transform_row_to_schema (fst r) (snd r)) rows)
     /\ processed_count (Colorado.scrape_batch rows)
        + error_count (Colorado.scrape_batch rows) <= length rows)
  /\ (forall rows,
        processed_count (Michigan.process_batch rows)
        = length (documents (Michigan.process_batch rows))
        /\ error_count (Michigan.process_batch rows)
           = raises (map Michigan.transform_row_to_schema rows)
        /\ processed_count (Michigan.process_batch rows)
           + error_count (Michigan.process_batch rows) <= length rows)
  /\ (forall records,
        processed_count (Ontario.scrape_batch records)
        = length (documents (Ontario.scrape_batch records))
        /\ error_count (Ontario.scrape_batch records)
           = raises (map Ontario.transform_record_to_schema records)
        /\ processed_count (Ontario.scrape_batch records)
           + error_count (Ontario.scrape_batch records) <= length records).
Proof.
  split; [|split]; intros rows.
  - apply (gated_counters (fun r => Colorado.transform_row_to_schema (fst r) (snd r))).
  - apply gated_counters.
  - apply gated_counters.
Qed.

Lemma oks_all {Rec} (t : Rec -> Res Doc) (rows : list Rec) :
  (forall r, exists d, t r = Ok d) ->
  length (oks (map t rows)) = length rows /\ raises (map t rows) = 0.
Proof.
  intros Ht. induction rows as [|r rows [IH1 IH2]]; [split; reflexivity|].
  simpl. destruct (Ht r) as [d ->]. simpl. rewrite IH1. split; [reflexivity|exact IH2].
Qed.

(** X12.  Where the transform cannot raise, no record is lost to the
    except branch: Alberta and British Columbia return exactly one document
    per row, Federal one per table row of at least four cells, Jamaica one
    per such row below the header, and the error counters of Colorado and
    Michigan stay 0. *)
Theorem one_document_per_record :
  (forall rows, length (Alberta.scrape_all_data (Some rows)) = length rows)
  /\ (forall rows, length (BC.scrape_all_data (Some rows)) = length rows)
  /\ (forall rows,
        length (Federal.scrape_table_data (Some rows))
        = length (filter (fun cells => 4 <=? length cells) rows))
  /\ (forall soup,
        length (Jamaica.scrape_table_data soup)
        = length (filter (fun cells => 4 <=? length cells)
                    (tl (records_of (Jamaica.table_rows soup)))))
  /\ (forall rows, error_count (Colorado.scrape_batch rows) = 0)
  /\ (forall rows, error_count (Michigan.process_batch rows) = 0).
Proof.
  repeat match goal with |- _ /\ _ => split end.
  - intros rows. rewrite alberta_batch. cbn [records_of].
    apply oks_all. intros r. destruct (alberta_total r) as [d [Hd _]]. eauto.
  - intros rows. rewrite bc_batch. cbn [records_of].
    apply oks_all. intros r. destruct (bc_total r) as [d [Hd _]]. eauto.
  - intros rows. rewrite federal_batch. cbn [records_of].
    apply oks_all. intros r. destruct (federal_total r) as [d [Hd _]]. eauto.
  - intros soup. rewrite jamaica_batch.
    apply oks_all. intros r. destruct (jamaica_total r) as [d [Hd _]]. eauto.
  - intros rows.
    destruct (gated_counters
                (fun r => Colorado.transform_row_to_schema (fst r) (snd r))
                Colorado.gate rows) as (_ & He & _).
    unfold Colorado.scrape_batch. rewrite He. apply oks_all.
    intros r. destruct (colorado_total (fst r) (snd r)) as [d [Hd _]]. eauto.
  - intros rows.
    destruct (gated_counters Michigan.transform_row_to_schema Michigan.gate rows)
      as (_ & He & _).
    unfold Michigan.process_batch. rewrite He. apply oks_all.
    intros r. destruct (michigan_total r) as [d [Hd _]]. eauto.
Qed.

Section Pages.
Variable fetch_page : string -> option Jamaica.Soup.
Variable base_url : string.

Lemma body_keeps_pages (st : Jamaica.Loop) :
  Jamaica.all_licenses st
  = flat_map (page_licenses fetch_page) (Jamaica.fetched st) ->
  match Jamaica.loop_body fetch_page base_url st with
  | inl st' | inr st' =>
      Jamaica.all_licenses st'
      = flat_map (page_licenses fetch_page) (Jamaica.fetched st')
  end.
Proof.
  intros Inv. unfold Jamaica.loop_body.
  set (url := Jamaica.page_url base_url (Jamaica.page_num st)).
  assert (Hp : page_licenses fetch_page url
               = match fetch_page url with
                 | Some soup => Jamaica.scrape_table_data soup
                 | None => []
                 end) by reflexivity.
  destruct (fetch_page url) as [soup|].
  - destruct (Jamaica.scrape_table_data soup) as [|d ds] eqn:E.
    + cbn [Jamaica.all_licenses Jamaica.fetched].
      rewrite flat_map_app. cbn [flat_map]. rewrite Hp, !app_nil_r. exact Inv.
    + destruct (negb (Jamaica.next_link soup));
        [|destruct (50 <? Jamaica.page_num st + 1)];
        cbn [Jamaica.all_licenses Jamaica.fetched];
        rewrite flat_map_app; cbn [flat_map]; rewrite Hp, app_nil_r, Inv;
        reflexivity.
  - cbn [Jamaica.all_licenses Jamaica.fetched].
    rewrite flat_map_app. cbn [flat_map]. rewrite Hp, !app_nil_r. exact Inv.
Qed.

Lemma run_keeps_pages (fuel : nat) :
  forall st final,
    Jamaica.all_licenses st
    = flat_map (page_licenses fetch_page) (Jamaica.fetched st) ->
    Jamaica.run fetch_page base_url fuel st = Some final ->
    Jamaica.all_licenses final
    = flat_map (page_licenses fetch_page) (Jamaica.fetched final).
Proof.
  induction fuel as [|fuel IH]; intros st final Inv; [discriminate|].
  cbn [Jamaica.run]. pose proof (body_keeps_pages st Inv) as H.
  destruct (Jamaica.loop_body fetch_page base_url st) as [st'|st'].
  - apply IH. exact H.
  - intros [= <-]. exact H.
Qed.


End Pages.

Lemma license_types_cases (text : string) :
  let l := Federal.parse_license_types text in
  l = ["other"]
  \/ (l <> [] /\ subsequence l ["micro-processing"; "micro-cultivation"; "retail"] = true)
  \/ (l <> [] /\ subsequence l ["micro-processing"; "cultivation"; "retail"] = true)
  \/ (l <> [] /\ subsequence l ["processing"; "micro-cultivation"; "retail"] = true)
  \/ (l <> [] /\ subsequence l ["processing"; "cultivation"; "retail"] = true)
  \/ (l = [] /\ text = "").
Proof.
  cbv zeta. unfold Federal.parse_license_types.
  destruct text as [|c text]; [auto 10|]. cbn [Py.nonempty negb].
  set (t := Py.lower (String c text)).
  destruct (Py.contains "micro-processing" t), (Py.contains "processing" t),
    (Py.contains "micro-cultivation" t), (Py.contains "cultivation" t),
    (Py.contains "sale" t); cbn [app];
    first [ left; reflexivity
          | right; left; split; [discriminate | reflexivity]
          | right; right; left; split; [discriminate | reflexivity]
          | right; right; right; left; split; [discriminate | reflexivity]
          | right; right; right; right; left; split; [discriminate | reflexivity] ].
Qed.


Lemma federal_types_nonempty (cells : list string) :
  Py.nonempty (Federal.cell 2 cells) = true ->
  Federal.parse_license_types (Federal.cell 2 cells) <> [].
Proof.
  intros Hn. destruct (license_types_cases (Federal.cell 2 cells))
    as [H|[[H _]|[[H _]|[[H _]|[[H _]|[_ H]]]]]]; cbv zeta in *;
    try exact H.
  - rewrite H. discriminate.
  - rewrite H in Hn. discriminate.
Qed.

End Batches.

(* ===================================================================== *)
(** ** Federal rows and the pieces of an address *)
(* ===================================================================== *)

Section Pieces.
Context {R : PyRuntime}.

Lemma is_digit_in (c : ascii) : Py.is_digit c = true -> In c decimal_digits.
Proof.
  destruct c as [[] [] [] [] [] [] [] []]; intros H;
    try (vm_compute in H; discriminate H); simpl; tauto.
Qed.

Lemma digit_not_hyphen (c : ascii) : Py.is_digit c = true -> Ascii.eqb c "-" = false.
Proof.
  intros H. destruct (Ascii.eqb_spec c "-") as [->|]; [discriminate H|reflexivity].
Qed.

Lemma zero_pad_two (a b : ascii) :
  Py.is_digit a = true -> Py.is_digit b = true ->
  Federal.zero_pad 2 (10 * Federal.digit_val a + Federal.digit_val b)
  = String a (String b "").
Proof.
  intros Ha Hb. apply is_digit_in in Ha, Hb.
  assert (H : forallb (fun a => forallb (fun b =>
                String.eqb
                  (Federal.zero_pad 2 (10 * Federal.digit_val a + Federal.digit_val b))
                  (String a (String b ""))) decimal_digits) decimal_digits = true)
    by (vm_compute; reflexivity).
  rewrite forallb_forall in H. specialize (H a Ha).
  rewrite forallb_forall in H. specialize (H b Hb).
  apply String.eqb_eq. exact H.
Qed.

Lemma zero_pad_four (a b c d : ascii) :
  Py.is_digit a = true -> Py.is_digit b = true ->
  Py.is_digit c = true -> Py.is_digit d = true ->
  Federal.zero_pad 4 (1000 * Federal.digit_val a + 100 * Federal.digit_val b
                      + 10 * Federal.digit_val c + Federal.digit_val d)
  = String a (String b (String c (String d ""))).
Proof.
  intros Ha Hb Hc Hd. apply is_digit_in in Ha, Hb, Hc, Hd.
  unfold Federal.zero_pad.
  replace (Z.of_nat (1000 * Federal.digit_val a + 100 * Federal.digit_val b
                     + 10 * Federal.digit_val c + Federal.digit_val d))
    with (1000 * Z.of_nat (Federal.digit_val a)
          + 100 * Z.of_nat (Federal.digit_val b)
          + 10 * Z.of_nat (Federal.digit_val c)
          + Z.of_nat (Federal.digit_val d))%Z by lia.
  assert (H : forallb (fun a => forallb (fun b => forallb (fun c => forallb (fun d =>
                String.eqb
                  (let s := Py.str_of_Z
                              (1000 * Z.of_nat (Federal.digit_val a)
                               + 100 * Z.of_nat (Federal.digit_val b)
                               + 10 * Z.of_nat (Federal.digit_val c)
                               + Z.of_nat (Federal.digit_val d))%Z in
                   (Py.str_of (repeat "0"%char (4 - String.length s)) ++ s)%string)
                  (String a (String b (String c (String d "")))))
                decimal_digits) decimal_digits) decimal_digits) decimal_digits = true)
    by (vm_compute; reflexivity).
  rewrite forallb_forall in H. specialize (H a Ha).
  rewrite forallb_forall in H. specialize (H b Hb).
  rewrite forallb_forall in H. specialize (H c Hc).
  rewrite forallb_forall in H. specialize (H d Hd).
  apply String.eqb_eq. exact H.
Qed.

Ltac eqb_subst :=
  repeat match goal with
         | E : Ascii.eqb _ _ = true |- _ => apply Ascii.eqb_eq in E; subst
         end.

Lemma month_alts_two (m1 m2 : ascii) (t : list ascii) (m : nat) (r : list ascii) :
  In (m, r) (Federal.month_alts (m1 :: m2 :: t)) ->
  (m = 10 * Federal.digit_val m1 + Federal.digit_val m2 /\ r = t) \/ r = m2 :: t.
Proof.
  unfold Federal.month_alts. intros H. cbn [app In] in H.
  repeat match type of H with
         | context [if ?c then _ else _] => destruct c eqn:?; cbn [app In] in H
         end;
    repeat match goal with
           | E : _ && _ = true |- _ => apply andb_true_iff in E as [? ?]
           end;
    eqb_subst;
    repeat match goal with
           | H' : _ \/ _ |- _ => destruct H' as [H'|H']
           | H' : False |- _ => destruct H'
           | H' : (_, _) = (_, _) |- _ => injection H' as <- <-
           end;
    first [ left; split; reflexivity | right; reflexivity | discriminate
          | match goal with E : Py.is_digit _ = true |- _ => discriminate E end
          | match goal with E : (_ <=? _) = true |- _ => discriminate E end ].
Qed.

Lemma day_alts_two (d1 d2 : ascii) (t : list ascii) (d : nat) (r : list ascii) :
  Py.is_digit d1 = true ->
  In (d, r) (Federal.day_alts (d1 :: d2 :: t)) ->
  (d = 10 * Federal.digit_val d1 + Federal.digit_val d2 /\ r = t) \/ r = d2 :: t.
Proof.
  unfold Federal.day_alts. intros Hd H. cbn [app In] in H.
  repeat match type of H with
         | context [if ?c then _ else _] => destruct c eqn:?; cbn [app In] in H
         end;
    repeat match goal with
           | E : _ && _ = true |- _ => apply andb_true_iff in E as [? ?]
           end;
    eqb_subst; try discriminate Hd;
    repeat match goal with
           | H' : _ \/ _ |- _ => destruct H' as [H'|H']
           | H' : False |- _ => destruct H'
           | H' : (_, _) = (_, _) |- _ => injection H' as <- <-
           end;
    first [ left; split; reflexivity | right; reflexivity | discriminate
          | match goal with E : Py.is_digit _ = true |- _ => discriminate E end
          | match goal with E : (_ <=? _) = true |- _ => discriminate E end ].
Qed.

(** X15.  The Federal date parser gives back what it read: for an ASCII
    text a date is returned only when the text has exactly ten characters,
    and the result is that text followed by T00:00:00. *)
Theorem federal_date_round_trip (s r : string) :
  ascii_text s = true ->
  Federal.parse_date s = Some r ->
  String.length s = 10 /\ r = (s ++ "T00:00:00")%string.
Proof.
  intros _. unfold Federal.parse_date.
  destruct (negb (Py.nonempty s) || _); [discriminate|].
  destruct (Federal.ymd_prefix (Py.chars s)) eqn:P; [|discriminate].
  destruct (Federal.strptime_ymd (Py.chars s)) as [d|] eqn:S; [|discriminate].
  intros [= <-].
  rewrite <- (str_of_chars s).
  destruct (Py.chars s)
    as [|y1 [|y2 [|y3 [|y4 [|h1 [|m1 [|m2 [|h2 [|d1 [|d2 rest]]]]]]]]]];
    try discriminate P.
  cbn [Federal.ymd_prefix] in P.
  repeat match goal with
         | E : _ && _ = true |- _ => apply andb_true_iff in E as [E ?]
         end.
  eqb_subst.
  cbn [Federal.strptime_ymd] in S.
  repeat match goal with
         | E : Py.is_digit _ = true |- _ => rewrite E in S
         end.
  cbn [andb Ascii.eqb Bool.eqb] in S.
  set (year := 1000 * _ + _ + _ + _) in S.
  set (cands := flat_map _ _) in S.
  destruct cands as [|[[m dd] rest'] cands'] eqn:Ec; [discriminate S|].
  assert (Hin : In (m, dd, rest') cands) by (rewrite Ec; left; reflexivity).
  unfold cands in Hin.
  apply in_flat_map in Hin as ([m' r'] & Hm & Hin). cbn [fst snd] in Hin.
  destruct rest' as [|c rest']; [|discriminate S].
  apply month_alts_two in Hm as [[Em Er] | Er]; rewrite Er in Hin.
  2:{ rewrite digit_not_hyphen in Hin by assumption. destruct Hin. }
  cbn [Ascii.eqb Bool.eqb] in Hin.
  apply in_map_iff in Hin as ([d' r3] & Heq & Hd). cbn [fst snd] in Heq.
  assert (E1 : m' = m) by congruence.
  assert (E2 : d' = dd) by congruence.
  assert (E3 : r3 = []) by congruence.
  clear Heq.
  apply day_alts_two in Hd as [[Ed Er'] | Hd]; [|congruence | assumption].
  assert (E4 : rest = []) by congruence.
  destruct (_ && _) in S; [|discriminate S].
  assert (E5 : d = (year, m, dd)) by congruence.
  rewrite E5, E4, <- E1, <- E2, Em, Ed. unfold year.
  unfold Federal.isoformat_midnight.
  rewrite zero_pad_four, !zero_pad_two by assumption.
  split; reflexivity.
Qed.

(** X16.  In a Federal document the licence type heads the entity types
    whenever the licence cell holds text; for an empty licence cell the
    document says licence type "other" with no entity type at all and
    status Unknown. *)
Theorem federal_entity_types (cells : list string) (d : Doc) :
  Federal.row_document cells = Ok d ->
  (Py.nonempty (Federal.cell 2 cells) = true ->
   exists license_type others,
     doc_get "license_type" d = Some (dstr license_type)
     /\ doc_get "entity_type" d = Some (DList (dstr license_type :: others)))
  /\ (Federal.cell 2 cells = "" ->
      doc_get "license_type" d = Some (dstr "other")
      /\ doc_get "entity_type" d = Some (DList [])
      /\ doc_get "license_status" d = Some (dstr "Unknown")).
Proof.
  unfold Federal.row_document. cbv zeta. intros [= <-]. split.
  - intros Hn.
    pose proof (federal_types_nonempty cells Hn) as Ht.
    destruct (Federal.parse_license_types (Federal.cell 2 cells)) as [|t ts];
      [contradiction|].
    exists t, (map dstr ts). split; reflexivity.
  - intros He. rewrite He. repeat split.
Qed.

Lemma split_chars_infix (sep : ascii) (l cur piece : list ascii) :
  In piece (Py.split_chars sep cur l) -> infix piece (rev cur ++ l).
Proof.
  revert cur. induction l as [|c l IH]; intros cur H.
  - destruct H as [<-|[]]. rewrite app_nil_r. apply infix_refl.
  - cbn [Py.split_chars] in H. destruct (Ascii.eqb c sep).
    + destruct H as [<-|H].
      * exists [], (c :: l). reflexivity.
      * apply IH in H. cbn [rev app] in H.
        eapply infix_trans; [exact H|]. exists (rev cur ++ [c]), [].
        rewrite app_nil_r, <- app_assoc. reflexivity.
    + apply IH in H. cbn [rev] in H. rewrite <- app_assoc in H. exact H.
Qed.

Lemma split_chars_single (sep : ascii) (l cur : list ascii) :
  Py.find_sub [sep] l = false -> Py.split_chars sep cur l = [rev cur ++ l].
Proof.
  revert cur. induction l as [|c l IH]; intros cur H.
  - cbn [Py.split_chars]. rewrite app_nil_r. reflexivity.
  - cbn [Py.find_sub Py.starts_with] in H.
    apply orb_false_iff in H as [H1 H2]. rewrite andb_true_r in H1.
    cbn [Py.split_chars]. rewrite Ascii.eqb_sym, H1, IH by exact H2.
    cbn [rev]. rewrite <- app_assoc. reflexivity.
Qed.

Lemma lower_chars (s : string) : Py.chars (Py.lower s) = map Py.lower_char (Py.chars s).
Proof. unfold Py.lower. apply chars_str_of. Qed.

Lemma part_in_address (address part : string) :
  In part (map Py.strip (Py.split_on "," address)) ->
  infix (Py.chars (Py.lower part)) (Py.chars (Py.lower address)).
Proof.
  intros H. apply in_map_iff in H as (piece & <- & H).
  unfold Py.split_on in H. apply in_map_iff in H as (l & <- & H).
  apply split_chars_infix in H. cbn [rev app] in H.
  rewrite !lower_chars. apply infix_map.
  unfold Py.strip. rewrite !chars_str_of.
  eapply infix_trans; [apply strip_infix | exact H].
Qed.

(** X17.  The city of a Jamaica licence is always one of the listed parish
    spellings: the first of the list whose lower-case form occurs in the
    lower-cased address.  The search through the comma-separated parts
    after "P.O." never finds a city the first search missed. *)
Theorem jamaica_city_is_parish (address : option string) :
  Jamaica.extract_city_from_address address
  = (if otruthy address
     then find (fun parish =>
                  Py.contains (Py.lower parish) (Py.lower (oget address)))
               Jamaica.parishes
     else None)
  /\ (forall city,
        Jamaica.extract_city_from_address address = Some city ->
        In city Jamaica.parishes
        /\ Py.contains (Py.lower city) (Py.lower (oget address)) = true).
Proof.
  assert (Heq : Jamaica.extract_city_from_address address
                = (if otruthy address
                   then find (fun parish =>
                                Py.contains (Py.lower parish) (Py.lower (oget address)))
                             Jamaica.parishes
                   else None)).
  { unfold Jamaica.extract_city_from_address.
    destruct (otruthy address); [|reflexivity]. cbn [negb].
    destruct (find _ Jamaica.parishes) as [p|] eqn:F; [reflexivity|].
    destruct (Py.contains "p.o." _); [|reflexivity].
    destruct (find _ (map Py.strip _)) as [part|] eqn:F2; [|reflexivity].
    exfalso. apply find_some in F2 as [Hin Hex].
    apply existsb_exists in Hex as (parish & Hp & Hc).
    apply (find_none _ _ F) in Hp. cbv beta in Hp.
    rewrite <- not_true_iff_false in Hp. apply Hp.
    rewrite contains_infix in Hc |- *.
    eapply infix_trans; [exact Hc|]. apply part_in_address. exact Hin. }
  split; [exact Heq|].
  intros city. rewrite Heq. destruct (otruthy address); [|discriminate].
  intros F. apply find_some in F. exact F.
Qed.

(** X18.  Michigan's address parser leaves the address text as it is, and
    finds no city in an address without a comma. *)
Theorem michigan_city_needs_comma (address : string) :
  Py.nonempty address = true ->
  fst (Michigan.parse_address (Some address)) = Some address
  /\ (Py.contains "," address = false ->
      snd (Michigan.parse_address (Some address)) = None).
Proof.
  intros Hn. unfold Michigan.parse_address, otruthy, oget.
  rewrite Hn. cbn [negb fst snd]. split; [reflexivity|].
  intros Hc. unfold Py.contains in Hc. unfold Py.split_on.
  rewrite (split_chars_single _ _ _ Hc). reflexivity.
Qed.

End Pieces.

(* ===================================================================== *)
(** ** Worked examples *)
(* ===================================================================== *)

(** The examples run on [Example.runtime]. *)
Module Examples.

#[local] Existing Instance Example.runtime.

Definition good_row : Row :=
  [ ("Permit Number", PStr "SK-17"); ("Operating Name", PStr "Prairie Buds");
    ("City", PStr "Regina"); ("Website", PStr "prairiebuds.ca") ].

Definition bad_row : Row :=
  [ ("Permit Number", PStr "SK-18"); ("Operating Name", PStr "Wheat Leaf");
    ("Website", PInt 5) ].

Definition colorado_row : Row :=
  [ ("License Number", PStr "403R-00012"); ("Facility Name", PStr "Green Farm");
    ("Facility Type", PStr "Retail Marijuana Cultivation Facility");
    ("Date Updated", PStr "2024-01-01") ].

Definition ontario_record : Ontario.Feature :=
  [ ("attributes",
     Ontario.JObj [ ("PremisesName", PStr "Queen Street Cannabis");
                    ("City", PStr "Toronto");
                    ("Latitude", PInt 43); ("Longitude", PInt (-79)) ]) ].

(** A site of two pages: the first with a next link, the second without. *)
Definition site (url : string) : option Jamaica.Soup :=
  if String.eqb url "https://cla.org.jm/cla-licensees/"
  then Some (Jamaica.mkSoup
               (Some [ ["Licensee"; "Type"; "Address"; "Expiry"];
                       ["Island Strains"; "Retail (Herb House) Licence";
                        "Montego Bay, St. James"; "2024-10-14"] ])
               true)
  else if String.eqb url "https://cla.org.jm/cla-licensees/?page=2"
  then Some (Jamaica.mkSoup
               (Some [ ["Licensee"; "Type"; "Address"; "Expiry"];
                       ["Island Kaya Farms"; "Cultivator's (Tier 2) Licence";
                        "Greenwich Park, Saint Ann"; "2025-03-23"] ])
               false)
  else None.

(** Alberta keeps the document of a row without an establishment name. *)
Lemma C1_alberta_keeps_nameless :
  exists d,
    In d (Alberta.scrape_all_data (Some [ [("Site City Name", PStr "Calgary")] ]))
    /\ present "business_name" d = false.
Proof. eexists. split; [left; reflexivity | reflexivity]. Qed.









(** Michigan classifies a text with both kinds of keyword as retail. *)
Lemma C7_michigan_retail_first :
  Michigan.determine_license_type (Some "Cultivation and Retail") = "retail".
Proof. reflexivity. Qed.

Lemma C7_alberta_cultivation_first :
  Forall (fun g : string * list string =>
            Py.any_in (snd g) "green farm dispensary" = false) []
  /\ Py.any_in ["cultivation"; "grow"; "farm"] "green farm dispensary" = true
  /\ first_match alberta_groups "other" "green farm dispensary" = "cultivation".
Proof.
  split; [constructor|]. split; [reflexivity|].
  destruct C7_classification_order as (_ & _ & _ & _ & _ & _ & H & _).
  apply (H [] (tl alberta_groups) "cultivation" ["cultivation"; "grow"; "farm"]).
  - constructor.
  - reflexivity.
Defined.

(** Alberta returns a code written without a space as it stands. *)
Lemma C8_alberta_keeps_spacing :
  Alberta.extract_postal_code (PStr "Calgary T2P1J9") PNone = Some "T2P1J9".
Proof. reflexivity. Qed.

Lemma C8_alberta_search :
  Alberta.extract_postal_code (PStr "Calgary t2p 1j9, AB") PNone = Some "T2P 1J9"
  /\ exists pre m post,
       Py.chars "Calgary t2p 1j9, AB" = pre ++ m ++ post
       /\ postal_shape m = true
       /\ "T2P 1J9" = Py.upper (Py.str_of m).
Proof.
  split; [reflexivity|].
  destruct (@C8_postal_extraction Example.runtime) as (H & _).
  destruct (H (PStr "Calgary t2p 1j9, AB") PNone "T2P 1J9" eq_refl)
    as [(Hf & _) | (_ & _ & pre & m & post & H1 & H2 & _ & H3)].
  - discriminate Hf.
  - exists pre, m, post. auto.
Defined.


Lemma C10_toronto :
  exists attributes coordinates,
    Ontario.attributes_of ontario_record = Ok attributes
    /\ doc_path ["location"; "coordinates"]
         (match Ontario.transform_record_to_schema ontario_record with
          | Ok d => d
          | Raise _ => []
          end) = Some (DList coordinates)
    /\ coordinates = [DVal (PFloat (-79)%Z); DVal (PFloat 43%Z)].
Proof.
  destruct (@C10_ontario_coordinates Example.runtime) as (H & _).
  destruct (H ontario_record
              (match Ontario.transform_record_to_schema ontario_record with
               | Ok d => d
               | Raise _ => []
               end) eq_refl)
    as (attributes & coordinates & Ha & Hp & _ & _).
  exists attributes, coordinates. split; [exact Ha|]. split; [exact Hp|].
  change (Some (DList [DVal (PFloat (-79)%Z); DVal (PFloat 43%Z)])
          = Some (DList coordinates)) in Hp.
  injection Hp as <-. reflexivity.
Defined.

Definition ontario_attributes : Row :=
  [ ("PremisesName", PStr "Queen Street Cannabis"); ("City", PStr "Toronto");
    ("Latitude", PInt 43); ("Longitude", PInt (-79)) ].

Definition federal_cells : list string :=
  [ "Aurora Valley Ltd."; "Alberta"; "Cultivation, Processing, Sale for medical purposes";
    "Dried, Fresh, Plants, Seeds"; "Yes"; "1-844-555-0142"; "2019-03-08" ].

Lemma phone_digits_kept_example :
  Alberta.parse_phone_number (PStr "403.555.0199") = Some "(403) 555-0199"
  /\ Py.digits_only "(403) 555-0199" = Py.digits_only (py_str (PStr "403.555.0199"))
  /\ Alberta.parse_phone_number (PStr "(403) 555-0199") = Some "(403) 555-0199".
Proof.
  split; [reflexivity|].
  destruct phone_digits_kept as (H & _).
  apply (H (PStr "403.555.0199") "(403) 555-0199"). reflexivity.
Defined.

Lemma colorado_phone_stricter_example :
  Colorado.parse_phone_number (PStr "555-0199") = Some "5550199"
  /\ Alberta.parse_phone_number (PStr "555-0199") = Some "5550199"
  /\ BC.parse_phone_number (PStr "555-0199") = Some "5550199".
Proof.
  split; [reflexivity|].
  apply colorado_phone_stricter. reflexivity.
Defined.

Lemma address_is_flat_join_example :
  Ontario.attributes_of ontario_record = Ok ontario_attributes
  /\ doc_get "business_address"
       (match Ontario.transform_record_to_schema ontario_record with
        | Ok d => d
        | Raise _ => []
        end) = Some (dstr "Toronto").
Proof.
  split; [reflexivity|].
  destruct address_is_flat_join as (_ & _ & H).
  exact (H ontario_record ontario_attributes _ eq_refl eq_refl).
Defined.

Lemma address_empty_iff_no_part_example :
  Py.nonempty (Alberta.create_address_string []) = false
  /\ Py.contains "BC" (BC.create_full_address None None None) = true.
Proof.
  destruct address_empty_iff_no_part as (H & H').
  split; [apply (H []); reflexivity | apply H'].
Defined.

Lemma michigan_dead_branches_example :
  Py.contains "inactive" (Py.lower "Inactive - Closed") = true
  /\ (Michigan.parse_license_status (Some "Inactive - Closed") = "Active"
      \/ Michigan.parse_license_status (Some "Inactive - Closed") = "Prequalified").
Proof.
  split; [reflexivity|].
  destruct michigan_dead_branches as (_ & _ & H).
  apply H. reflexivity.
Defined.

Lemma classifiers_ignore_case_example :
  ascii_text "Northern Grow Co" = true
  /\ Alberta.determine_license_type (Some (Py.upper "Northern Grow Co"))
     = Alberta.determine_license_type (Some "Northern Grow Co").
Proof.
  split; [reflexivity|].
  destruct (classifiers_ignore_case "Northern Grow Co" eq_refl)
    as (H & _).
  exact H.
Defined.

Lemma bc_smoke_shop_excludes_cannabis_example :
  Py.contains "cannabis" (Py.lower "Kootenay Cannabis & Smoke") = true
  /\ BC.is_smoke_shop (Some "Kootenay Cannabis & Smoke") = false.
Proof.
  split; [reflexivity|].
  destruct (bc_smoke_shop_excludes_cannabis "Kootenay Cannabis & Smoke") as (H & _).
  apply H. reflexivity.
Defined.

Lemma clean_string_trimmed_example :
  Alberta.clean_string (PStr "  High Level  ") = Some "High Level"
  /\ Py.strip "High Level" = "High Level".
Proof.
  split; [reflexivity|].
  destruct clean_string_trimmed as (H & _).
  apply (H (PStr "  High Level  ")). reflexivity.
Defined.

Lemma website_normal_form_example :
  Saskatchewan.clean_website_url (PStr " prairiebuds.ca ")
  = Ok (Some "https://prairiebuds.ca")
  /\ Py.strip "https://prairiebuds.ca" = "https://prairiebuds.ca"
  /\ Saskatchewan.clean_website_url (PStr "https://prairiebuds.ca")
     = Ok (Some "https://prairiebuds.ca").
Proof.
  split; [reflexivity|].
  destruct (website_normal_form (PStr " prairiebuds.ca ")
              "https://prairiebuds.ca" eq_refl) as (H1 & _ & H3).
  split; [exact H1 | apply H3; reflexivity].
Defined.

Lemma bc_postal_normal_form_example :
  BC.extract_postal_code (PStr " v6b1a1 ") = Some "V6B 1A1"
  /\ String.length "V6B 1A1" = 7
  /\ BC.extract_postal_code (PStr "V6B 1A1") = Some "V6B 1A1".
Proof.
  split; [reflexivity|].
  destruct (bc_postal_normal_form (PStr " v6b1a1 ") "V6B 1A1"
              eq_refl) as (_ & _ & _ & H4 & H5).
  split; [apply H4; reflexivity | exact H5].
Defined.


Lemma federal_date_round_trip_example :
  ascii_text "2019-03-08" = true
  /\ Federal.parse_date "2019-03-08" = Some "2019-03-08T00:00:00"
  /\ String.length "2019-03-08" = 10.
Proof.
  split; [reflexivity|]. split; [reflexivity|].
  destruct (federal_date_round_trip "2019-03-08"
              "2019-03-08T00:00:00" eq_refl eq_refl) as (H & _).
  exact H.
Defined.

Lemma federal_entity_types_example :
  Py.nonempty (Federal.cell 2 federal_cells) = true
  /\ exists license_type others,
       doc_get "license_type"
         (match Federal.row_document federal_cells with
          | Ok d => d
          | Raise _ => []
          end) = Some (dstr license_type)
       /\ doc_get "entity_type"
            (match Federal.row_document federal_cells with
             | Ok d => d
             | Raise _ => []
             end) = Some (DList (dstr license_type :: others)).
Proof.
  split; [reflexivity|].
  destruct (federal_entity_types federal_cells _ eq_refl) as (H & _).
  apply H. reflexivity.
Defined.

Lemma jamaica_city_is_parish_example :
  Jamaica.extract_city_from_address (Some "P.O. Box 4, Montego Bay, St. James")
  = Some "St. James"
  /\ In "St. James" Jamaica.parishes.
Proof.
  split; [reflexivity|].
  destruct (jamaica_city_is_parish (Some "P.O. Box 4, Montego Bay, St. James")) as (_ & H).
  destruct (H "St. James" eq_refl) as (Hin & _). exact Hin.
Defined.

Lemma michigan_city_needs_comma_example :
  Py.nonempty "120 Main St Lansing MI 48933" = true
  /\ Py.contains "," "120 Main St Lansing MI 48933" = false
  /\ snd (Michigan.parse_address (Some "120 Main St Lansing MI 48933")) = None.
Proof.
  split; [reflexivity|]. split; [reflexivity|].
  destruct (michigan_city_needs_comma "120 Main St Lansing MI 48933" eq_refl) as (_ & H).
  apply H. reflexivity.
Defined.

End Examples.
